(** * Polkadot inflation tracker: flow analysis, exchange detection, pagination

    A shallow embedding of
      - class FlowAnalyzer ([src/analyzers/flowAnalyzer.js]; its text
        follows class Reporter in [src/reporter.js]),
      - [src/analyzers/exchangeDetector.js] (detectExchangeTransfers),
      - [src/collectors/transferCollector.js] and
        [src/collectors/rewardCollector.js] (the request loops),
    together with the properties of the design document that concern them.

    Conventions of the embedding.
      - JavaScript numbers that hold token amounts are exact rationals ([Q]);
        rounding of IEEE doubles is not modelled.  Timestamps are integers
        ([Z]): both collectors build them with [parseInt].
      - A JavaScript [Map] is an association list in insertion order
        ([JsMap]); a plain object indexed by an hour is an association list
        kept in ascending key order ([HourObj]), which is the order
        [Object.entries] enumerates integer keys in.
      - Mutation of the [analysis] object is explicit state passing: every
        pass takes the analysis and returns the updated one.
      - [Date.now()] and the local time zone are inputs: [now] and [Host]. *)

From Stdlib Require Import List String ZArith QArith Bool Arith Lia Lqa Sorted.
From Stdlib Require Import Permutation.
Import ListNotations.

Set Implicit Arguments.

(* ------------------------------------------------------------------ *)
(** ** JavaScript containers *)

(** [Map] with string keys: insertion ordered, [set] on a present key
    replaces the value in place. *)
Module JsMap.

Definition t (V : Type) : Type := list (string * V).

Definition empty {V : Type} : t V := [].

Fixpoint get {V : Type} (k : string) (m : t V) : option V :=
  match m with
  | [] => None
  | (k', v) :: m' => if String.eqb k k' then Some v else get k m'
  end.

Fixpoint set {V : Type} (k : string) (v : V) (m : t V) : t V :=
  match m with
  | [] => [(k, v)]
  | (k', v') :: m' =>
      if String.eqb k k' then (k', v) :: m' else (k', v') :: set k v m'
  end.

Definition has {V : Type} (k : string) (m : t V) : bool :=
  match get k m with Some _ => true | None => false end.

Definition keys {V : Type} (m : t V) : list string := map fst m.

Definition entries {V : Type} (m : t V) : list (string * V) := m.

End JsMap.

(** A plain object whose property names are hours: integer-like keys are
    enumerated in ascending numeric order. *)
Module HourObj.

Definition t (V : Type) : Type := list (Z * V).

Definition empty {V : Type} : t V := [].

Fixpoint get {V : Type} (k : Z) (o : t V) : option V :=
  match o with
  | [] => None
  | (k', v) :: o' => if Z.eqb k k' then Some v else get k o'
  end.

Fixpoint set {V : Type} (k : Z) (v : V) (o : t V) : t V :=
  match o with
  | [] => [(k, v)]
  | (k', v') :: o' =>
      if Z.eqb k k' then (k', v) :: o'
      else if Z.ltb k k' then (k, v) :: (k', v') :: o'
      else (k', v') :: set k v o'
  end.

Definition entries {V : Type} (o : t V) : list (Z * V) := o.

End HourObj.

(** [x || 0] on a possibly missing number. *)
Definition orZero (x : option Q) : Q :=
  match x with Some q => q | None => 0%Q end.

(** [a > b] on amounts. *)
Definition Qgtb (a b : Q) : bool := negb (Qle_bool a b).

(** [Array.prototype.sort] is stable; [before x y] says that [x] may stay
    in front of [y] (the comparator does not ask for a swap). *)
Fixpoint insertBy {A : Type} (before : A -> A -> bool) (x : A) (l : list A)
  : list A :=
  match l with
  | [] => [x]
  | y :: l' => if before x y then x :: y :: l' else y :: insertBy before x l'
  end.

Definition stableSort {A : Type} (before : A -> A -> bool) (l : list A)
  : list A :=
  fold_right (insertBy before) [] l.

(* ------------------------------------------------------------------ *)
(** ** Host environment *)

(** [LocalTZA t] is the offset, in milliseconds, of local time from UTC at
    the time value [t] (ECMAScript's LocalTZA). *)
Record Host : Type := { LocalTZA : Z -> Z }.

Definition utcHost : Host := {| LocalTZA := fun _ => 0%Z |}.

Definition msPerHour : Z := 3600000.

(** [new Date(tv).getHours()]: HourFromTime(LocalTime(tv)). *)
Definition getHours (host : Host) (tv : Z) : Z :=
  (((tv + LocalTZA host tv) / msPerHour) mod 24)%Z.

(* ------------------------------------------------------------------ *)
(** ** Events *)

Record Reward : Type := {
  r_address : string;
  r_amount : Q;
  r_blockNumber : Z;
  r_timestamp : Z;
  r_eventId : string
}.

Record Transfer : Type := {
  t_from : string;
  t_to : string;
  t_amount : Q;
  t_timestamp : Z;
  t_blockNumber : Z;
  t_success : bool
}.

Record ExchangeInfo : Type := {
  ex_id : string;
  ex_name : string;
  ex_type : string
}.

Inductive FlowType : Type := deposit | withdrawal.

Definition isDeposit (ty : FlowType) : bool :=
  match ty with deposit => true | withdrawal => false end.

(** [{ ...transfer, type, exchange, exchangeAddress }] *)
Record ExchangeFlow : Type := {
  f_transfer : Transfer;
  f_type : FlowType;
  f_exchange : ExchangeInfo;
  f_exchangeAddress : string
}.

Definition f_from (f : ExchangeFlow) : string := t_from (f_transfer f).
Definition f_to (f : ExchangeFlow) : string := t_to (f_transfer f).
Definition f_amount (f : ExchangeFlow) : Q := t_amount (f_transfer f).
Definition f_timestamp (f : ExchangeFlow) : Z := t_timestamp (f_transfer f).

(* ------------------------------------------------------------------ *)
(** ** exchangeDetector.js *)

Module ExchangeDetector.

(** [this.exchangeByAddress] *)
Definition Registry : Type := JsMap.t ExchangeInfo.

Definition isExchangeAddress (reg : Registry) (address : string) : bool :=
  JsMap.has address reg.

(** [this.exchangeByAddress.get(address) || null] *)
Definition getExchangeInfo (reg : Registry) (address : string)
  : option ExchangeInfo :=
  JsMap.get address reg.

(** The records one transfer pushes, in push order. *)
Definition detectOne (reg : Registry) (transfer : Transfer)
  : list ExchangeFlow :=
  let toExchange := getExchangeInfo reg (t_to transfer) in
  let fromExchange := getExchangeInfo reg (t_from transfer) in
  (match toExchange with
   | Some ex =>
       [{| f_transfer := transfer; f_type := deposit;
           f_exchange := ex; f_exchangeAddress := t_to transfer |}]
   | None => []
   end)
  ++
  (match fromExchange with
   | Some ex =>
       [{| f_transfer := transfer; f_type := withdrawal;
           f_exchange := ex; f_exchangeAddress := t_from transfer |}]
   | None => []
   end).

Definition detectExchangeTransfers (reg : Registry)
  (transfers : list Transfer) : list ExchangeFlow :=
  fold_left (fun exchangeTransfers transfer =>
               exchangeTransfers ++ detectOne reg transfer)
            transfers [].

End ExchangeDetector.

(* ------------------------------------------------------------------ *)
(** ** flowAnalyzer.js: the analysis object *)

Record AddrRewards : Type := {
  ar_total : Q;
  ar_count : nat;
  ar_rewards : list Reward
}.

Record AddrTransfers : Type := {
  at_total : Q;
  at_count : nat;
  at_transfers : list Transfer
}.

Record AddrFlows : Type := {
  af_total : Q;
  af_count : nat;
  af_flows : list ExchangeFlow;
  af_quickSell : bool
}.

Record Seller : Type := {
  s_address : string;
  s_amount : Q;
  s_count : nat;
  s_quickSell : bool
}.

Record Holder : Type := {
  h_address : string;
  h_rewards : Q;
  h_count : nat
}.

Record LargeSeller : Type := {
  ls_address : string;
  ls_amount : Q;
  ls_exchange : string
}.

(** The [details] member of a pattern.  The [description] string is not
    built; the values it interpolates are kept instead: for a coordinated
    selling pattern the hour, and [sellers] (its length and its summed
    amount are what the text prints). *)
Inductive PatternDetails : Type :=
| CoordinatedSelling (hour : Z) (sellers : list LargeSeller)
| HighSellPressure (totalRewards exchangeFlow : Q)
| RapidSelling (quickSellers : nat) (averageTimeToExchange : Q).

Record Pattern : Type := {
  p_type : string;
  p_severity : string;
  p_details : PatternDetails
}.

Record Summary : Type := {
  totalRewards : Q;
  totalTransfers : Q;
  exchangeFlow : Q;
  sellPressurePercent : Q;
  quickSellers : nat;
  holders : nat;
  averageTimeToExchange : Q
}.

Record Details : Type := {
  rewardsByAddress : JsMap.t AddrRewards;
  transfersByAddress : JsMap.t AddrTransfers;
  exchangeFlowsByAddress : JsMap.t AddrFlows;
  sellPressureByHour : HourObj.t Q;
  topSellers : list Seller;
  topHolders : list Holder;
  suspiciousPatterns : list Pattern
}.

Record TrendPoint : Type := {
  tp_hour : Z;
  tp_rewards : Q;
  tp_exchange : Q;
  tp_pressure : Q
}.

Record Trends : Type := {
  hourlyRewards : HourObj.t Q;
  hourlyExchangeFlows : HourObj.t Q;
  cumulativeSellPressure : list TrendPoint
}.

Record Analysis : Type := {
  timestamp : Z;
  period_start : Z;
  period_end : Z;
  summary : Summary;
  details : Details;
  trends : Trends
}.

(** Assignments to one member. *)
Definition withSummary (s : Summary) (a : Analysis) : Analysis :=
  {| timestamp := timestamp a; period_start := period_start a;
     period_end := period_end a; summary := s;
     details := details a; trends := trends a |}.

Definition withDetails (d : Details) (a : Analysis) : Analysis :=
  {| timestamp := timestamp a; period_start := period_start a;
     period_end := period_end a; summary := summary a;
     details := d; trends := trends a |}.

Definition withTrends (t : Trends) (a : Analysis) : Analysis :=
  {| timestamp := timestamp a; period_start := period_start a;
     period_end := period_end a; summary := summary a;
     details := details a; trends := t |}.

Definition set_totalRewards (v : Q) (s : Summary) : Summary :=
  {| totalRewards := v; totalTransfers := totalTransfers s;
     exchangeFlow := exchangeFlow s;
     sellPressurePercent := sellPressurePercent s;
     quickSellers := quickSellers s; holders := holders s;
     averageTimeToExchange := averageTimeToExchange s |}.

Definition set_totalTransfers (v : Q) (s : Summary) : Summary :=
  {| totalRewards := totalRewards s; totalTransfers := v;
     exchangeFlow := exchangeFlow s;
     sellPressurePercent := sellPressurePercent s;
     quickSellers := quickSellers s; holders := holders s;
     averageTimeToExchange := averageTimeToExchange s |}.

Definition set_exchangeFlow (v : Q) (s : Summary) : Summary :=
  {| totalRewards := totalRewards s; totalTransfers := totalTransfers s;
     exchangeFlow := v;
     sellPressurePercent := sellPressurePercent s;
     quickSellers := quickSellers s; holders := holders s;
     averageTimeToExchange := averageTimeToExchange s |}.

Definition set_sellPressurePercent (v : Q) (s : Summary) : Summary :=
  {| totalRewards := totalRewards s; totalTransfers := totalTransfers s;
     exchangeFlow := exchangeFlow s;
     sellPressurePercent := v;
     quickSellers := quickSellers s; holders := holders s;
     averageTimeToExchange := averageTimeToExchange s |}.

Definition set_quickSellers (v : nat) (s : Summary) : Summary :=
  {| totalRewards := totalRewards s; totalTransfers := totalTransfers s;
     exchangeFlow := exchangeFlow s;
     sellPressurePercent := sellPressurePercent s;
     quickSellers := v; holders := holders s;
     averageTimeToExchange := averageTimeToExchange s |}.

Definition set_holders (v : nat) (s : Summary) : Summary :=
  {| totalRewards := totalRewards s; totalTransfers := totalTransfers s;
     exchangeFlow := exchangeFlow s;
     sellPressurePercent := sellPressurePercent s;
     quickSellers := quickSellers s; holders := v;
     averageTimeToExchange := averageTimeToExchange s |}.

Definition set_averageTimeToExchange (v : Q) (s : Summary) : Summary :=
  {| totalRewards := totalRewards s; totalTransfers := totalTransfers s;
     exchangeFlow := exchangeFlow s;
     sellPressurePercent := sellPressurePercent s;
     quickSellers := quickSellers s; holders := holders s;
     averageTimeToExchange := v |}.

Definition set_rewardsByAddress (v : JsMap.t AddrRewards) (d : Details)
  : Details :=
  {| rewardsByAddress := v; transfersByAddress := transfersByAddress d;
     exchangeFlowsByAddress := exchangeFlowsByAddress d;
     sellPressureByHour := sellPressureByHour d;
     topSellers := topSellers d; topHolders := topHolders d;
     suspiciousPatterns := suspiciousPatterns d |}.

Definition set_transfersByAddress (v : JsMap.t AddrTransfers) (d : Details)
  : Details :=
  {| rewardsByAddress := rewardsByAddress d; transfersByAddress := v;
     exchangeFlowsByAddress := exchangeFlowsByAddress d;
     sellPressureByHour := sellPressureByHour d;
     topSellers := topSellers d; topHolders := topHolders d;
     suspiciousPatterns := suspiciousPatterns d |}.

Definition set_exchangeFlowsByAddress (v : JsMap.t AddrFlows) (d : Details)
  : Details :=
  {| rewardsByAddress := rewardsByAddress d;
     transfersByAddress := transfersByAddress d;
     exchangeFlowsByAddress := v;
     sellPressureByHour := sellPressureByHour d;
     topSellers := topSellers d; topHolders := topHolders d;
     suspiciousPatterns := suspiciousPatterns d |}.

Definition set_topSellers (v : list Seller) (d : Details) : Details :=
  {| rewardsByAddress := rewardsByAddress d;
     transfersByAddress := transfersByAddress d;
     exchangeFlowsByAddress := exchangeFlowsByAddress d;
     sellPressureByHour := sellPressureByHour d;
     topSellers := v; topHolders := topHolders d;
     suspiciousPatterns := suspiciousPatterns d |}.

Definition set_topHolders (v : list Holder) (d : Details) : Details :=
  {| rewardsByAddress := rewardsByAddress d;
     transfersByAddress := transfersByAddress d;
     exchangeFlowsByAddress := exchangeFlowsByAddress d;
     sellPressureByHour := sellPressureByHour d;
     topSellers := topSellers d; topHolders := v;
     suspiciousPatterns := suspiciousPatterns d |}.

Definition set_suspiciousPatterns (v : list Pattern) (d : Details) : Details :=
  {| rewardsByAddress := rewardsByAddress d;
     transfersByAddress := transfersByAddress d;
     exchangeFlowsByAddress := exchangeFlowsByAddress d;
     sellPressureByHour := sellPressureByHour d;
     topSellers := topSellers d; topHolders := topHolders d;
     suspiciousPatterns := v |}.

Definition set_hourlyRewards (v : HourObj.t Q) (t : Trends) : Trends :=
  {| hourlyRewards := v; hourlyExchangeFlows := hourlyExchangeFlows t;
     cumulativeSellPressure := cumulativeSellPressure t |}.

Definition set_hourlyExchangeFlows (v : HourObj.t Q) (t : Trends) : Trends :=
  {| hourlyRewards := hourlyRewards t; hourlyExchangeFlows := v;
     cumulativeSellPressure := cumulativeSellPressure t |}.

Definition set_cumulativeSellPressure (v : list TrendPoint) (t : Trends)
  : Trends :=
  {| hourlyRewards := hourlyRewards t;
     hourlyExchangeFlows := hourlyExchangeFlows t;
     cumulativeSellPressure := v |}.

(* ------------------------------------------------------------------ *)
(** ** flowAnalyzer.js: the passes *)

Module FlowAnalyzer.

(** The two fields the constructor reads from the process environment. *)
Record Config : Type := {
  rapidSellThreshold : Z;
  largeFlowThreshold : Q
}.

Definition defaultConfig : Config :=
  {| rapidSellThreshold := 1 * 3600; largeFlowThreshold := 10000 |}.

Record Receiver : Type := {
  rc_address : string;
  rc_balance : Q
}.

Record Input : Type := {
  rewards : list Reward;
  transfers : list Transfer;
  exchangeFlows : list ExchangeFlow;
  topReceivers : list Receiver
}.

(** [new Date(timestamp * 1000).getHours()] *)
Definition hourOf (host : Host) (ts : Z) : Z := getHours host (ts * 1000).

(** The literal [analysis] object of [analyzeFlows]. *)
Definition initialAnalysis (now : Z) : Analysis :=
  {| timestamp := now;
     period_start := now - 86400;
     period_end := now;
     summary :=
       {| totalRewards := 0; totalTransfers := 0; exchangeFlow := 0;
          sellPressurePercent := 0; quickSellers := 0; holders := 0;
          averageTimeToExchange := 0 |};
     details :=
       {| rewardsByAddress := JsMap.empty;
          transfersByAddress := JsMap.empty;
          exchangeFlowsByAddress := JsMap.empty;
          sellPressureByHour := HourObj.empty;
          topSellers := []; topHolders := [];
          suspiciousPatterns := [] |};
     trends :=
       {| hourlyRewards := HourObj.empty;
          hourlyExchangeFlows := HourObj.empty;
          cumulativeSellPressure := [] |} |}.

(** *** analyzeRewards *)

Definition noRewards : AddrRewards :=
  {| ar_total := 0; ar_count := 0; ar_rewards := [] |}.

Definition pushReward (reward : Reward) (addrRewards : AddrRewards)
  : AddrRewards :=
  {| ar_total := ar_total addrRewards + r_amount reward;
     ar_count := S (ar_count addrRewards);
     ar_rewards := ar_rewards addrRewards ++ [reward] |}.

Definition rewardStep (host : Host) (analysis : Analysis) (reward : Reward)
  : Analysis :=
  let s := summary analysis in
  let d := details analysis in
  let tr := trends analysis in
  let addrRewards :=
    match JsMap.get (r_address reward) (rewardsByAddress d) with
    | Some x => x
    | None => noRewards
    end in
  let hour := hourOf host (r_timestamp reward) in
  {| timestamp := timestamp analysis;
     period_start := period_start analysis;
     period_end := period_end analysis;
     summary := set_totalRewards (totalRewards s + r_amount reward) s;
     details :=
       set_rewardsByAddress
         (JsMap.set (r_address reward) (pushReward reward addrRewards)
                    (rewardsByAddress d)) d;
     trends :=
       set_hourlyRewards
         (HourObj.set hour
            (orZero (HourObj.get hour (hourlyRewards tr)) + r_amount reward)
            (hourlyRewards tr)) tr |}.

Definition analyzeRewards (host : Host) (rewards : list Reward)
  (analysis : Analysis) : Analysis :=
  fold_left (rewardStep host) rewards analysis.

(** *** analyzeTransfers *)

Definition noTransfers : AddrTransfers :=
  {| at_total := 0; at_count := 0; at_transfers := [] |}.

Definition pushTransfer (transfer : Transfer) (addrTransfers : AddrTransfers)
  : AddrTransfers :=
  {| at_total := at_total addrTransfers + t_amount transfer;
     at_count := S (at_count addrTransfers);
     at_transfers := at_transfers addrTransfers ++ [transfer] |}.

Definition transferStep (analysis : Analysis) (transfer : Transfer)
  : Analysis :=
  let s := summary analysis in
  let d := details analysis in
  let addrTransfers :=
    match JsMap.get (t_from transfer) (transfersByAddress d) with
    | Some x => x
    | None => noTransfers
    end in
  withDetails
    (set_transfersByAddress
       (JsMap.set (t_from transfer) (pushTransfer transfer addrTransfers)
                  (transfersByAddress d)) d)
    (withSummary
       (set_totalTransfers (totalTransfers s + t_amount transfer) s)
       analysis).

Definition analyzeTransfers (transfers : list Transfer)
  (analysis : Analysis) : Analysis :=
  fold_left transferStep transfers analysis.

(** *** analyzeExchangeFlows *)

Definition noFlows : AddrFlows :=
  {| af_total := 0; af_count := 0; af_flows := []; af_quickSell := false |}.

(** [rewardInfo.rewards[rewardInfo.rewards.length - 1]], guarded by
    [rewardInfo && rewardInfo.rewards.length > 0]. *)
Definition lastRewardOf (rewardInfo : option AddrRewards) : option Reward :=
  match rewardInfo with
  | Some info => last (map Some (ar_rewards info)) None
  | None => None
  end.

(** One iteration of the loop; the second component is the local array
    [timeToExchange].  [timeDiff] is present when the inner [if] is
    entered, and [quick] when its nested [if] is. *)
Definition flowStep (cfg : Config) (host : Host)
  (st : Analysis * list Z) (flow : ExchangeFlow) : Analysis * list Z :=
  let (analysis, timeToExchange) := st in
  if isDeposit (f_type flow) then
    let s := summary analysis in
    let d := details analysis in
    let tr := trends analysis in
    let addrFlows :=
      match JsMap.get (f_from flow) (exchangeFlowsByAddress d) with
      | Some x => x
      | None => noFlows
      end in
    let rewardInfo := JsMap.get (f_from flow) (rewardsByAddress d) in
    let timeDiff :=
      match lastRewardOf rewardInfo with
      | Some lastReward =>
          Some (f_timestamp flow - r_timestamp lastReward)%Z
      | None => None
      end in
    let quick :=
      match timeDiff with
      | Some td => Z.ltb td (rapidSellThreshold cfg)
      | None => false
      end in
    let addrFlows' :=
      {| af_total := af_total addrFlows + f_amount flow;
         af_count := S (af_count addrFlows);
         af_flows := af_flows addrFlows ++ [flow];
         af_quickSell := if quick then true else af_quickSell addrFlows |} in
    let hour := hourOf host (f_timestamp flow) in
    ({| timestamp := timestamp analysis;
        period_start := period_start analysis;
        period_end := period_end analysis;
        summary :=
          set_quickSellers
            (if quick then S (quickSellers s) else quickSellers s)
            (set_exchangeFlow (exchangeFlow s + f_amount flow) s);
        details :=
          set_exchangeFlowsByAddress
            (JsMap.set (f_from flow) addrFlows'
                       (exchangeFlowsByAddress d)) d;
        trends :=
          set_hourlyExchangeFlows
            (HourObj.set hour
               (orZero (HourObj.get hour (hourlyExchangeFlows tr))
                + f_amount flow)
               (hourlyExchangeFlows tr)) tr |},
     timeToExchange ++ match timeDiff with Some td => [td] | None => [] end)
  else (analysis, timeToExchange).

Definition exchangeFlowsLoop (cfg : Config) (host : Host)
  (exchangeFlows : list ExchangeFlow) (analysis : Analysis)
  : Analysis * list Z :=
  fold_left (flowStep cfg host) exchangeFlows (analysis, []).

(** [timeToExchange.reduce((a, b) => a + b, 0)] *)
Definition sumZ (l : list Z) : Z := fold_left Z.add l 0%Z.

Definition analyzeExchangeFlows (cfg : Config) (host : Host)
  (exchangeFlows : list ExchangeFlow) (analysis : Analysis) : Analysis :=
  let (analysis', timeToExchange) :=
    exchangeFlowsLoop cfg host exchangeFlows analysis in
  if Nat.ltb 0 (List.length timeToExchange) then
    let avgTime :=
      inject_Z (sumZ timeToExchange)
      / inject_Z (Z.of_nat (List.length timeToExchange)) in
    withSummary
      (set_averageTimeToExchange (avgTime / 3600) (summary analysis'))
      analysis'
  else analysis'.

(** *** calculateSellPressure *)

(** [new Set(iterable)]: first occurrences, in order. *)
Fixpoint setOf (seen : list string) (l : list string) : list string :=
  match l with
  | [] => []
  | x :: l' =>
      if existsb (String.eqb x) seen then setOf seen l'
      else x :: setOf (x :: seen) l'
  end.

Definition setHas (x : string) (s : list string) : bool :=
  existsb (String.eqb x) s.

Definition sellerOf (e : string * AddrFlows) : Seller :=
  let (address, data) := e in
  {| s_address := address; s_amount := af_total data;
     s_count := af_count data; s_quickSell := af_quickSell data |}.

Definition holderOf (e : string * AddrRewards) : Holder :=
  let (address, data) := e in
  {| h_address := address; h_rewards := ar_total data;
     h_count := ar_count data |}.

Definition calculateSellPressure (analysis : Analysis) : Analysis :=
  let s := summary analysis in
  let d := details analysis in
  let pressure :=
    if Qgtb (totalRewards s) 0
    then (exchangeFlow s / totalRewards s) * 100
    else sellPressurePercent s in
  let rewardAddresses := setOf [] (JsMap.keys (rewardsByAddress d)) in
  let exchangeAddresses := setOf [] (JsMap.keys (exchangeFlowsByAddress d)) in
  let holders' :=
    fold_left
      (fun n addr => if negb (setHas addr exchangeAddresses) then S n else n)
      rewardAddresses (holders s) in
  let sellers :=
    firstn 10
      (stableSort (fun a b => Qle_bool (s_amount b) (s_amount a))
         (map sellerOf (JsMap.entries (exchangeFlowsByAddress d)))) in
  let holdersList :=
    firstn 10
      (stableSort (fun a b => Qle_bool (h_rewards b) (h_rewards a))
         (map holderOf
            (filter (fun e => negb (setHas (fst e) exchangeAddresses))
               (JsMap.entries (rewardsByAddress d))))) in
  withDetails
    (set_topHolders holdersList (set_topSellers sellers d))
    (withSummary
       (set_holders holders' (set_sellPressurePercent pressure s))
       analysis).

(** *** identifyPatterns *)

Definition largeSellerOf (address : string) (flow : ExchangeFlow)
  : LargeSeller :=
  {| ls_address := address; ls_amount := f_amount flow;
     ls_exchange := ex_name (f_exchange flow) |}.

(** Body of the inner [for]: one flow of one address. *)
Definition largeFlowStep (cfg : Config) (host : Host) (address : string)
  (largeSellersByHour : HourObj.t (list LargeSeller)) (flow : ExchangeFlow)
  : HourObj.t (list LargeSeller) :=
  if Qgtb (f_amount flow) (largeFlowThreshold cfg) then
    let hour := hourOf host (f_timestamp flow) in
    let bucket :=
      match HourObj.get hour largeSellersByHour with
      | Some l => l
      | None => []
      end in
    HourObj.set hour (bucket ++ [largeSellerOf address flow])
                largeSellersByHour
  else largeSellersByHour.

Definition largeSellersByHour (cfg : Config) (host : Host)
  (byAddress : JsMap.t AddrFlows) : HourObj.t (list LargeSeller) :=
  fold_left
    (fun acc (e : string * AddrFlows) =>
       fold_left (largeFlowStep cfg host (fst e)) (af_flows (snd e)) acc)
    (JsMap.entries byAddress) HourObj.empty.

Definition coordinatedPattern (e : Z * list LargeSeller) : list Pattern :=
  let (hour, sellers) := e in
  if Nat.leb 3 (List.length sellers) then
    [{| p_type := "coordinated_selling"; p_severity := "high";
        p_details := CoordinatedSelling hour sellers |}]
  else [].

Definition identifyPatterns (cfg : Config) (host : Host)
  (analysis : Analysis) (topReceivers : list Receiver) : Analysis :=
  let s := summary analysis in
  let d := details analysis in
  let patterns1 :=
    flat_map coordinatedPattern
      (HourObj.entries
         (largeSellersByHour cfg host (exchangeFlowsByAddress d))) in
  let patterns2 :=
    if Qgtb (sellPressurePercent s) 50 then
      [{| p_type := "high_sell_pressure"; p_severity := "medium";
          p_details := HighSellPressure (totalRewards s) (exchangeFlow s) |}]
    else [] in
  let patterns3 :=
    if Nat.ltb 10 (quickSellers s) then
      [{| p_type := "rapid_selling"; p_severity := "medium";
          p_details :=
            RapidSelling (quickSellers s) (averageTimeToExchange s) |}]
    else [] in
  withDetails
    (set_suspiciousPatterns (patterns1 ++ patterns2 ++ patterns3) d)
    analysis.

(** *** generateTrends *)

Definition hours : list Z := map Z.of_nat (seq 0 24).

Definition trendStep (tr : Trends) (st : Q * Q * list TrendPoint) (hour : Z)
  : Q * Q * list TrendPoint :=
  let '(cumulativeRewards, cumulativeExchange, series) := st in
  let cumulativeRewards' :=
    cumulativeRewards + orZero (HourObj.get hour (hourlyRewards tr)) in
  let cumulativeExchange' :=
    cumulativeExchange
    + orZero (HourObj.get hour (hourlyExchangeFlows tr)) in
  (cumulativeRewards', cumulativeExchange',
   series ++
     [{| tp_hour := hour;
         tp_rewards := cumulativeRewards';
         tp_exchange := cumulativeExchange';
         tp_pressure :=
           if Qgtb cumulativeRewards' 0
           then (cumulativeExchange' / cumulativeRewards') * 100
           else 0 |}]).

Definition generateTrends (analysis : Analysis) : Analysis :=
  let tr := trends analysis in
  let '(_, _, series) :=
    fold_left (trendStep tr) hours (0, 0, cumulativeSellPressure tr) in
  withTrends (set_cumulativeSellPressure series tr) analysis.

(** *** analyzeFlows *)

(** [now] is [Math.floor(Date.now() / 1000)]. *)
Definition analyzeFlows (cfg : Config) (host : Host) (now : Z)
  (input : Input) : Analysis :=
  let analysis := initialAnalysis now in
  let analysis := analyzeRewards host (rewards input) analysis in
  let analysis := analyzeTransfers (transfers input) analysis in
  let analysis :=
    analyzeExchangeFlows cfg host (exchangeFlows input) analysis in
  let analysis := calculateSellPressure analysis in
  let analysis := identifyPatterns cfg host analysis (topReceivers input) in
  generateTrends analysis.

End FlowAnalyzer.

(* ------------------------------------------------------------------ *)
(** ** collectors: the request loops *)

Module Collectors.

(** The paging members of a request body. *)
Record Request : Type := { q_row : nat; q_page : nat }.

(** Outcome of [await this.makeRequest(...)]: the promise rejects
    (transport error, timeout, non-zero API code) or resolves with [data],
    whose list member ([data.transfers], [data.list]) may be missing. *)
Inductive Response (A : Type) : Type :=
| Rejected
| Resolved (items : option (list A)).
Arguments Rejected {A}.
Arguments Resolved {A} items.

(** Number of records a response carries; nothing for a failure. *)
Definition pageLength {A : Type} (r : Response A) : option nat :=
  match r with
  | Resolved (Some items) => Some (List.length items)
  | _ => None
  end.

Inductive Ctl : Type := Continue | Break.

(** *** transferCollector.js: fetchTransfersForAddress and
    fetchIncomingTransfers (same loop, other [direction]) *)
Section TransferCollector.

Variable RawTransfer : Type.
(** The object literal pushed for one record of the response. *)
Variable convert : RawTransfer -> Transfer.
(** The upstream answer for a fixed address, window and direction. *)
Variable api : Request -> Response RawTransfer.

Definition rowsPerPage : nat := 100.

(** [requests] is the log of the requests issued so far. *)
Record LoopState : Type := {
  page : nat;
  collected : list Transfer;
  requests : list Request
}.

Definition iteration (st : LoopState) : Ctl * LoopState :=
  let req := {| q_row := rowsPerPage; q_page := page st |} in
  let issued := requests st ++ [req] in
  match api req with
  | Rejected =>
      (Break, {| page := page st; collected := collected st;
                 requests := issued |})
  | Resolved None | Resolved (Some []) =>
      (Break, {| page := page st; collected := collected st;
                 requests := issued |})
  | Resolved (Some items) =>
      let collected' := collected st ++ map convert items in
      if Nat.ltb (List.length items) rowsPerPage then
        (Break, {| page := page st; collected := collected';
                   requests := issued |})
      else
        (Continue, {| page := S (page st); collected := collected';
                      requests := issued |})
  end.

(** [while (true)], unrolled at most [fuel] times. *)
Fixpoint loop (fuel : nat) (st : LoopState) : option LoopState :=
  match fuel with
  | O => None
  | S fuel' =>
      match iteration st with
      | (Break, st') => Some st'
      | (Continue, st') => loop fuel' st'
      end
  end.

Definition fetchTransfersForAddress (fuel : nat) : option LoopState :=
  loop fuel {| page := 0; collected := []; requests := [] |}.

End TransferCollector.

(** *** rewardCollector.js: the per-address body of fetchRecentRewards *)
Section RewardCollector.

Variable RawReward : Type.
(** [parseInt(reward.block_timestamp || 0)] *)
Variable rawTimestamp : RawReward -> Z.
(** The object literal pushed for one record of the response. *)
Variable convert : string -> RawReward -> Reward.
(** The upstream answer, per address. *)
Variable api : string -> Request -> Response RawReward.

Definition rewardRequest : Request := {| q_row := 20; q_page := 0 |}.

Definition inWindow (startTime endTime : Z) (reward : RawReward) : bool :=
  Z.leb startTime (rawTimestamp reward)
  && Z.leb (rawTimestamp reward) endTime.

(** Body of [for (const receiver of batch)]: rewards pushed and
    requests issued for one receiver. *)
Definition fetchRewardsOf (startTime endTime : Z) (address : string)
  : list Reward * list Request :=
  match api address rewardRequest with
  | Resolved (Some items) =>
      (map (convert address) (filter (inWindow startTime endTime) items),
       [rewardRequest])
  | _ => ([], [rewardRequest])
  end.

(** The batches are consecutive slices processed in order, so the
    receivers are visited in list order. *)
Definition fetchRecentRewards (now hours : Z) (addresses : list string)
  : list Reward * list (string * Request) :=
  let endTime := now in
  let startTime := (endTime - hours * 3600)%Z in
  fold_left
    (fun acc address =>
       let (rs, qs) := fetchRewardsOf startTime endTime address in
       (fst acc ++ rs, snd acc ++ map (pair address) qs))
    addresses ([], []).

End RewardCollector.

(** *** rewardCollector.js: fetchTopRewardReceivers *)
Section TopReceivers.

Variable RawAccount : Type.
Variable Receiver : Type.
(** The object literal pushed for one account of the response. *)
Variable convert : RawAccount -> Receiver.
(** The upstream answer of the accounts listing. *)
Variable api : Request -> Response RawAccount.

Record ReceiverState : Type := {
  rpage : nat;
  receivers : list Receiver;
  rrequests : list Request
}.

(** Body of [while (receivers.length < limit)].  The inner [for] pushes
    accounts until [limit] receivers are held. *)
Definition receiversIteration (limit : nat) (st : ReceiverState)
  : Ctl * ReceiverState :=
  let req := {| q_row := rowsPerPage; q_page := rpage st |} in
  let issued := rrequests st ++ [req] in
  match api req with
  | Rejected =>
      (Break, {| rpage := rpage st; receivers := receivers st;
                 rrequests := issued |})
  | Resolved None | Resolved (Some []) =>
      (Break, {| rpage := rpage st; receivers := receivers st;
                 rrequests := issued |})
  | Resolved (Some items) =>
      (Continue,
       {| rpage := S (rpage st);
          receivers :=
            receivers st
            ++ firstn (limit - List.length (receivers st)) (map convert items);
          rrequests := issued |})
  end.

Fixpoint receiversLoop (limit fuel : nat) (st : ReceiverState)
  : option ReceiverState :=
  match fuel with
  | O => None
  | S fuel' =>
      if Nat.ltb (List.length (receivers st)) limit then
        match receiversIteration limit st with
        | (Break, st') => Some st'
        | (Continue, st') => receiversLoop limit fuel' st'
        end
      else Some st
  end.

Definition fetchTopRewardReceivers (limit fuel : nat)
  : option ReceiverState :=
  receiversLoop limit fuel {| rpage := 0; receivers := []; rrequests := [] |}.

End TopReceivers.

(** What the design document asks of a paginated query, on the log of
    its requests: a page as long as the page size is followed by a
    request for the next page. *)
Definition fullPageFollowed {A : Type} (api : Request -> Response A)
  (log : list Request) : Prop :=
  forall q, In q log ->
    pageLength (api q) = Some (q_row q) ->
    exists q', In q' log /\ q_page q' = S (q_page q).

End Collectors.

(* ------------------------------------------------------------------ *)
(** ** Vocabulary of the statements *)

Definition sumQ (l : list Q) : Q := fold_right Qplus 0 l.

Definition lastOf {A : Type} (l : list A) : option A :=
  last (map Some l) None.

(** First occurrences of a list of addresses: the distinct addresses. *)
Definition distinct (l : list string) : list string :=
  FlowAnalyzer.setOf [] l.

Definition rewardsOf (addr : string) (rs : list Reward) : list Reward :=
  filter (fun r => String.eqb (r_address r) addr) rs.

Definition transfersOf (addr : string) (ts : list Transfer) : list Transfer :=
  filter (fun t => String.eqb (t_from t) addr) ts.

Definition deposits (fs : list ExchangeFlow) : list ExchangeFlow :=
  filter (fun f => isDeposit (f_type f)) fs.

Definition depositsOf (addr : string) (fs : list ExchangeFlow)
  : list ExchangeFlow :=
  filter (fun f => String.eqb (f_from f) addr) (deposits fs).

(** Does [addr] have at least one deposit flow in [fs]? *)
Definition hasDeposit (fs : list ExchangeFlow) (addr : string) : bool :=
  existsb (fun f => isDeposit (f_type f) && String.eqb (f_from f) addr) fs.

(** Per-address totals, read off an analysis; a missing entry counts 0. *)
Definition totalExchangeAmount (a : Analysis) (addr : string) : Q :=
  match JsMap.get addr (exchangeFlowsByAddress (details a)) with
  | Some e => af_total e
  | None => 0
  end.

Definition totalOutgoing (a : Analysis) (addr : string) : Q :=
  match JsMap.get addr (transfersByAddress (details a)) with
  | Some e => at_total e
  | None => 0
  end.

(** Hour of day at a fixed offset (in seconds) from UTC. *)
Definition hourAtOffset (offset ts : Z) : Z := (((ts + offset) / 3600) mod 24)%Z.

(** The analysis with its clock-derived members replaced. *)
Definition restamp (now : Z) (a : Analysis) : Analysis :=
  {| timestamp := now; period_start := now - 86400; period_end := now;
     summary := summary a; details := details a; trends := trends a |}.

(** *** The passes, member by member *)

Definition addReward (m : JsMap.t AddrRewards) (reward : Reward)
  : JsMap.t AddrRewards :=
  JsMap.set (r_address reward)
    (FlowAnalyzer.pushReward reward
       match JsMap.get (r_address reward) m with
       | Some x => x
       | None => FlowAnalyzer.noRewards
       end) m.

Definition addTransfer (m : JsMap.t AddrTransfers) (transfer : Transfer)
  : JsMap.t AddrTransfers :=
  JsMap.set (t_from transfer)
    (FlowAnalyzer.pushTransfer transfer
       match JsMap.get (t_from transfer) m with
       | Some x => x
       | None => FlowAnalyzer.noTransfers
       end) m.

Definition bucketAdd (hour : Z) (amount : Q) (o : HourObj.t Q) : HourObj.t Q :=
  HourObj.set hour (orZero (HourObj.get hour o) + amount) o.

(** The time difference a deposit flow records, if any. *)
Definition timeDiffOf (rmap : JsMap.t AddrRewards) (flow : ExchangeFlow)
  : option Z :=
  match FlowAnalyzer.lastRewardOf (JsMap.get (f_from flow) rmap) with
  | Some lastReward => Some (f_timestamp flow - r_timestamp lastReward)%Z
  | None => None
  end.

Definition isQuick (cfg : FlowAnalyzer.Config) (rmap : JsMap.t AddrRewards)
  (flow : ExchangeFlow) : bool :=
  match timeDiffOf rmap flow with
  | Some td => Z.ltb td (FlowAnalyzer.rapidSellThreshold cfg)
  | None => false
  end.

Definition addFlow (cfg : FlowAnalyzer.Config) (rmap : JsMap.t AddrRewards)
  (m : JsMap.t AddrFlows) (flow : ExchangeFlow) : JsMap.t AddrFlows :=
  let addrFlows :=
    match JsMap.get (f_from flow) m with
    | Some x => x
    | None => FlowAnalyzer.noFlows
    end in
  JsMap.set (f_from flow)
    {| af_total := af_total addrFlows + f_amount flow;
       af_count := S (af_count addrFlows);
       af_flows := af_flows addrFlows ++ [flow];
       af_quickSell :=
         if isQuick cfg rmap flow then true else af_quickSell addrFlows |} m.

Definition optList {A : Type} (x : option A) : list A :=
  match x with Some a => [a] | None => [] end.

(** The rewards, outgoing total and deposit total recorded for an address;
    a missing entry counts as empty. *)
Definition rewardsAt (m : JsMap.t AddrRewards) (addr : string) : list Reward :=
  match JsMap.get addr m with Some e => ar_rewards e | None => [] end.

Definition transferTotalAt (m : JsMap.t AddrTransfers) (addr : string) : Q :=
  match JsMap.get addr m with Some e => at_total e | None => 0 end.

Definition flowTotalAt (m : JsMap.t AddrFlows) (addr : string) : Q :=
  match JsMap.get addr m with Some e => af_total e | None => 0 end.

Definition flowsAt (m : JsMap.t AddrFlows) (addr : string)
  : list ExchangeFlow :=
  match JsMap.get addr m with Some e => af_flows e | None => [] end.

(** The two records a transfer between registered addresses yields. *)
Definition asDeposit (ex : ExchangeInfo) (t : Transfer) : ExchangeFlow :=
  {| f_transfer := t; f_type := deposit; f_exchange := ex;
     f_exchangeAddress := t_to t |}.

Definition asWithdrawal (ex : ExchangeInfo) (t : Transfer) : ExchangeFlow :=
  {| f_transfer := t; f_type := withdrawal; f_exchange := ex;
     f_exchangeAddress := t_from t |}.

(** The reward a deposit flow is timed against, per the code: the last
    reward of the depositing address in the order of the rewards input. *)
Definition timedAgainst (rs : list Reward) (flow : ExchangeFlow)
  : option Reward :=
  lastOf (rewardsOf (f_from flow) rs).

Definition timeDiffs (rs : list Reward) (flow : ExchangeFlow) : list Z :=
  match timedAgainst rs flow with
  | Some r => [(f_timestamp flow - r_timestamp r)%Z]
  | None => []
  end.

Definition quickAgainst (cfg : FlowAnalyzer.Config) (rs : list Reward)
  (flow : ExchangeFlow) : bool :=
  match timedAgainst rs flow with
  | Some r =>
      Z.ltb (f_timestamp flow - r_timestamp r)
            (FlowAnalyzer.rapidSellThreshold cfg)
  | None => false
  end.

(** The state and the [timeToExchange] array at the end of the loop of
    [analyzeExchangeFlows], inside [analyzeFlows]. *)
Definition afterFlowLoop (cfg : FlowAnalyzer.Config) (host : Host) (now : Z)
  (input : FlowAnalyzer.Input) : Analysis * list Z :=
  FlowAnalyzer.exchangeFlowsLoop cfg host (FlowAnalyzer.exchangeFlows input)
    (FlowAnalyzer.analyzeTransfers (FlowAnalyzer.transfers input)
       (FlowAnalyzer.analyzeRewards host (FlowAnalyzer.rewards input)
          (FlowAnalyzer.initialAnalysis now))).

(** The sellers grouped under an hour; none when the hour has no entry. *)
Definition bucketAt (o : HourObj.t (list LargeSeller)) (h : Z)
  : list LargeSeller :=
  match HourObj.get h o with Some l => l | None => [] end.

(** The large flows of one [Map] entry that fall in the hour [h], where
    [hourFn] gives the hour of a timestamp. *)
Definition largeAt (cfg : FlowAnalyzer.Config) (hourFn : Z -> Z) (h : Z)
  (e : string * AddrFlows) : list LargeSeller :=
  map (FlowAnalyzer.largeSellerOf (fst e))
    (filter
       (fun f =>
          Qgtb (f_amount f) (FlowAnalyzer.largeFlowThreshold cfg)
          && Z.eqb (hourFn (f_timestamp f)) h)
       (af_flows (snd e))).

(** *** Pagination *)

(** The request for page [p] of a transfer lookup. *)
Definition pageRequest (p : nat) : Collectors.Request :=
  {| Collectors.q_row := Collectors.rowsPerPage; Collectors.q_page := p |}.

(** Does this response make the transfer loop ask for the next page? *)
Definition continues {A : Type} (r : Collectors.Response A) : bool :=
  match Collectors.pageLength r with
  | Some n => Nat.leb Collectors.rowsPerPage n
  | None => false
  end.

(** Does this response make the receiver discovery go on?  Any page that
    is not empty does. *)
Definition nonEmptyPage {A : Type} (r : Collectors.Response A) : bool :=
  match Collectors.pageLength r with
  | Some (S _) => true
  | _ => false
  end.

(** The transfers a response contributes. *)
Definition pageItems {A : Type} (convert : A -> Transfer)
  (r : Collectors.Response A) : list Transfer :=
  match r with
  | Collectors.Resolved (Some items) => map convert items
  | _ => []
  end.

(** *** Sample data *)

Module Sample.

Local Open Scope string_scope.

Definition reward (address : string) (amount : Q) (ts : Z) : Reward :=
  {| r_address := address; r_amount := amount; r_blockNumber := 0;
     r_timestamp := ts; r_eventId := "" |}.

Definition transfer (from to : string) (amount : Q) (ts : Z) : Transfer :=
  {| t_from := from; t_to := to; t_amount := amount; t_timestamp := ts;
     t_blockNumber := 0; t_success := true |}.

Definition venue : ExchangeInfo :=
  {| ex_id := "venue"; ex_name := "Venue"; ex_type := "cex" |}.

(** One registered address, ["X"]. *)
Definition registry : ExchangeDetector.Registry := [("X", venue)].

Definition depositFlow (from : string) (amount : Q) (ts : Z) : ExchangeFlow :=
  {| f_transfer := transfer from "X" amount ts; f_type := deposit;
     f_exchange := venue; f_exchangeAddress := "X" |}.

Definition input (rs : list Reward) (fs : list ExchangeFlow)
  : FlowAnalyzer.Input :=
  {| FlowAnalyzer.rewards := rs;
     FlowAnalyzer.transfers := map f_transfer fs;
     FlowAnalyzer.exchangeFlows := fs;
     FlowAnalyzer.topReceivers := [] |}.

(** A reward of amount zero and a later deposit of 10. *)
Definition zeroReward : FlowAnalyzer.Input :=
  input [reward "A" 0 1000] [depositFlow "A" 10 2000].

(** The design document's scenario: A and B rewarded, A deposits. *)
Definition scenario : FlowAnalyzer.Input :=
  input [reward "A" 100 1000; reward "B" 50 1000]
        [depositFlow "A" 100 2800].

(** Both ends of this transfer are registered. *)
Definition betweenVenues : Transfer := transfer "X" "Y" 7 1000.

Definition twoVenues : ExchangeDetector.Registry :=
  [("X", venue);
   ("Y", {| ex_id := "other"; ex_name := "Other"; ex_type := "cex" |})].

(** A sends 10 to the venue and 5 elsewhere. *)
Definition outgoing : list Transfer :=
  [transfer "A" "X" 10 1000; transfer "A" "B" 5 1100].

(** A is rewarded at 1000 and again at 9000, and deposits at 5000. *)
Definition rewardAfterDeposit : FlowAnalyzer.Input :=
  input [reward "A" 100 1000; reward "A" 100 9000]
        [depositFlow "A" 50 5000].

(** A is rewarded once and deposits twice within the hour. *)
Definition twoQuickDeposits : FlowAnalyzer.Input :=
  input [reward "A" 100 1000]
        [depositFlow "A" 10 1500; depositFlow "A" 10 1600].

(** One address makes three large deposits in the same hour. *)
Definition oneLargeSeller : FlowAnalyzer.Input :=
  input []
        [depositFlow "A" 15000 1500; depositFlow "A" 15000 1600;
         depositFlow "A" 15000 1700].

(** Three addresses make one large deposit each in the same hour. *)
Definition threeLargeSellers : FlowAnalyzer.Input :=
  input []
        [depositFlow "A" 15000 1500; depositFlow "B" 15000 1600;
         depositFlow "C" 15000 1700].

(** A host one hour east of UTC. *)
Definition plusOneHost : Host := {| LocalTZA := fun _ => 3600000%Z |}.

(** A single reward at midnight UTC. *)
Definition midnightReward : FlowAnalyzer.Input :=
  input [reward "A" 100 0] [].

(** An upstream that answers every reward request with twenty records,
    as many as the request asks for. *)
Definition twentyRewards (address : string) (q : Collectors.Request)
  : Collectors.Response unit :=
  Collectors.Resolved (Some (repeat tt 20)).

(** An upstream with 150 transfers: a full page, then a short one. *)
Definition twoPages (q : Collectors.Request) : Collectors.Response unit :=
  match Collectors.q_page q with
  | O => Collectors.Resolved (Some (repeat tt 100))
  | _ => Collectors.Resolved (Some (repeat tt 50))
  end.

(** An upstream with 50 accounts: a short page, then nothing. *)
Definition shortThenEmpty (q : Collectors.Request) : Collectors.Response unit :=
  match Collectors.q_page q with
  | O => Collectors.Resolved (Some (repeat tt 50))
  | _ => Collectors.Resolved (Some [])
  end.

End Sample.

(* ------------------------------------------------------------------ *)
(** ** Further vocabulary *)

(** The analysis as [analyzeExchangeFlows] leaves it, inside
    [analyzeFlows]. *)
Definition afterAggregation (cfg : FlowAnalyzer.Config) (host : Host) (now : Z)
  (input : FlowAnalyzer.Input) : Analysis :=
  FlowAnalyzer.analyzeExchangeFlows cfg host (FlowAnalyzer.exchangeFlows input)
    (FlowAnalyzer.analyzeTransfers (FlowAnalyzer.transfers input)
       (FlowAnalyzer.analyzeRewards host (FlowAnalyzer.rewards input)
          (FlowAnalyzer.initialAnalysis now))).

(** The input with its exchange flows replaced. *)
Definition withFlows (fs : list ExchangeFlow) (input : FlowAnalyzer.Input)
  : FlowAnalyzer.Input :=
  {| FlowAnalyzer.rewards := FlowAnalyzer.rewards input;
     FlowAnalyzer.transfers := FlowAnalyzer.transfers input;
     FlowAnalyzer.exchangeFlows := fs;
     FlowAnalyzer.topReceivers := FlowAnalyzer.topReceivers input |}.

(** All time differences recorded for an input, in flow order. *)
Definition recordedTimeDiffs (input : FlowAnalyzer.Input) : list Z :=
  flat_map (timeDiffs (FlowAnalyzer.rewards input))
           (deposits (FlowAnalyzer.exchangeFlows input)).

Definition totalZ (l : list Z) : Z := fold_right Z.add 0%Z l.

(** *** More sample data *)

Module Fixture.

Local Open Scope string_scope.

(** Five rewarded addresses, no transfer, no flow. *)
Definition holdersOnly : FlowAnalyzer.Input :=
  Sample.input
    [Sample.reward "A" 10 1000; Sample.reward "B" 20 1000;
     Sample.reward "C" 30 1000; Sample.reward "D" 40 1000;
     Sample.reward "E" 50 1000] [].

End Fixture.

(** The offset of local time from UTC, in whole seconds, at the instant
    [ts] (in seconds) on this host. *)
Definition utcOffsetSeconds (host : Host) (ts : Z) : Z :=
  (LocalTZA host (ts * 1000) / 1000)%Z.

(** The hour of day of [ts] in the local time of the host. *)
Definition localHour (host : Host) (ts : Z) : Z :=
  hourAtOffset (utcOffsetSeconds host ts) ts.

(** *** Sample data across a change of offset *)

Module Zone.

Local Open Scope string_scope.

(** A host whose zone moves from one hour to two hours east of UTC (as at
    the start of daylight saving time) at the instant 10000 s. *)
Definition dstHost : Host :=
  {| LocalTZA := fun t => if Z.ltb t 10000000 then 3600000%Z else 7200000%Z |}.

(** Rewards and large deposits on both sides of the change. *)
Definition acrossChange : FlowAnalyzer.Input :=
  Sample.input
    [Sample.reward "A" 100 0; Sample.reward "B" 40 20000]
    [Sample.depositFlow "A" 15000 1500; Sample.depositFlow "B" 15000 20000;
     Sample.depositFlow "C" 12000 20100; Sample.depositFlow "D" 11000 20200].

End Zone.


(* ------------------------------------------------------------------ *)
(** ** Containers: lookup after update *)

Section JsMapFacts.

Context {V : Type}.
Implicit Types (m : JsMap.t V) (k : string) (v : V).

Lemma jsmap_get_set_same m k v : JsMap.get k (JsMap.set k v m) = Some v.
Proof.
  induction m as [|[k' v'] m IH]; simpl.
  - now rewrite String.eqb_refl.
  - destruct (String.eqb k k') eqn:E; simpl; rewrite E; auto.
Qed.

Lemma jsmap_get_set_other m k k' v :
  k <> k' -> JsMap.get k' (JsMap.set k v m) = JsMap.get k' m.
Proof.
  intros Hne. induction m as [|[k0 v0] m IH]; simpl.
  - destruct (String.eqb k' k) eqn:E; auto.
    apply String.eqb_eq in E. congruence.
  - destruct (String.eqb k k0) eqn:E; simpl.
    + apply String.eqb_eq in E. subst k0.
      destruct (String.eqb k' k) eqn:E'; auto.
      apply String.eqb_eq in E'. congruence.
    + now rewrite IH.
Qed.

Lemma jsmap_has_keys m k :
  JsMap.has k m = existsb (String.eqb k) (JsMap.keys m).
Proof.
  unfold JsMap.has. induction m as [|[k' v'] m IH]; simpl; auto.
  destruct (String.eqb k k'); auto.
Qed.

Lemma jsmap_keys_set m k v :
  JsMap.keys (JsMap.set k v m)
  = if JsMap.has k m then JsMap.keys m else JsMap.keys m ++ [k].
Proof.
  unfold JsMap.has. induction m as [|[k' v'] m IH]; simpl; auto.
  destruct (String.eqb k k') eqn:E; simpl; auto.
  rewrite IH. destruct (JsMap.get k m); auto.
Qed.

End JsMapFacts.

Section HourObjFacts.

Context {V : Type}.
Implicit Types (o : HourObj.t V) (k : Z) (v : V).

Lemma hourobj_get_set_same o k v : HourObj.get k (HourObj.set k v o) = Some v.
Proof.
  induction o as [|[k' v'] o IH]; simpl.
  - now rewrite Z.eqb_refl.
  - destruct (Z.eqb k k') eqn:E; simpl.
    + now rewrite E.
    + destruct (Z.ltb k k'); simpl.
      * now rewrite Z.eqb_refl.
      * now rewrite E.
Qed.

Lemma hourobj_get_set_other o k k' v :
  k <> k' -> HourObj.get k' (HourObj.set k v o) = HourObj.get k' o.
Proof.
  intros Hne.
  assert (Hk : Z.eqb k' k = false) by (apply Z.eqb_neq; congruence).
  induction o as [|[k0 v0] o IH]; simpl.
  - now rewrite Hk.
  - destruct (Z.eqb k k0) eqn:E; simpl.
    + apply Z.eqb_eq in E. subst k0. now rewrite Hk.
    + destruct (Z.ltb k k0); simpl.
      * now rewrite Hk.
      * now rewrite IH.
Qed.

End HourObjFacts.

(** [bucketAdd] adds to the bucket of its hour and to no other. *)
Lemma bucketAdd_get (o : HourObj.t Q) (hour h : Z) (amount : Q) :
  orZero (HourObj.get h (bucketAdd hour amount o))
  = if Z.eqb hour h then (orZero (HourObj.get hour o) + amount)%Q
    else orZero (HourObj.get h o).
Proof.
  unfold bucketAdd. destruct (Z.eqb hour h) eqn:E.
  - apply Z.eqb_eq in E. subst h. now rewrite hourobj_get_set_same.
  - apply Z.eqb_neq in E. now rewrite hourobj_get_set_other.
Qed.

(** ** Sets of addresses *)

Lemma setOf_ext (s1 s2 l : list string) :
  (forall x, existsb (String.eqb x) s1 = existsb (String.eqb x) s2) ->
  FlowAnalyzer.setOf s1 l = FlowAnalyzer.setOf s2 l.
Proof.
  revert s1 s2. induction l as [|a l IH]; intros s1 s2 H; simpl; auto.
  rewrite (H a). destruct (existsb (String.eqb a) s2).
  - now apply IH.
  - f_equal. apply IH. intros x. simpl. now rewrite H.
Qed.

Lemma setOf_snoc (seen l : list string) (x : string) :
  FlowAnalyzer.setOf seen (l ++ [x])
  = FlowAnalyzer.setOf seen l
    ++ (if existsb (String.eqb x) (seen ++ l) then [] else [x]).
Proof.
  revert seen. induction l as [|a l IH]; intros seen; simpl.
  - rewrite app_nil_r. destruct (existsb (String.eqb x) seen); auto.
  - destruct (existsb (String.eqb a) seen) eqn:E.
    + rewrite IH. f_equal. rewrite !existsb_app. simpl.
      destruct (String.eqb x a) eqn:Exa; auto.
      apply String.eqb_eq in Exa. subst a. rewrite E. reflexivity.
    + simpl. rewrite IH. do 2 f_equal. simpl. rewrite !existsb_app. simpl.
      destruct (String.eqb x a), (existsb (String.eqb x) seen); simpl; auto.
Qed.

Lemma setHas_setOf (l : list string) (x : string) :
  FlowAnalyzer.setHas x (distinct l) = existsb (String.eqb x) l.
Proof.
  unfold distinct. induction l as [|a l IH] using rev_ind; auto.
  rewrite setOf_snoc. unfold FlowAnalyzer.setHas in *. simpl.
  rewrite !existsb_app, IH. simpl.
  destruct (existsb (String.eqb a) l) eqn:E; simpl.
  - destruct (String.eqb x a) eqn:Exa; simpl; auto.
    apply String.eqb_eq in Exa. subst a. rewrite E. reflexivity.
  - reflexivity.
Qed.

Lemma setOf_idem (l : list string) : distinct (distinct l) = distinct l.
Proof.
  unfold distinct. induction l as [|a l IH] using rev_ind; auto.
  rewrite setOf_snoc. simpl.
  destruct (existsb (String.eqb a) l) eqn:E.
  - now rewrite app_nil_r.
  - rewrite setOf_snoc, IH. simpl. f_equal.
    fold (distinct l). fold (FlowAnalyzer.setHas a (distinct l)).
    rewrite setHas_setOf, E. reflexivity.
Qed.

(** ** Folds that accumulate amounts *)

Lemma fold_left_sumQ {A : Type} (f : A -> Q) (l : list A) (init : Q) :
  fold_left (fun acc x => acc + f x) l init == init + sumQ (map f l).
Proof.
  revert init. induction l as [|x l IH]; intros init; simpl.
  - ring.
  - rewrite IH. ring.
Qed.

Lemma sumQ_nonneg (l : list Q) : Forall (fun q => 0 <= q) l -> 0 <= sumQ l.
Proof.
  induction 1 as [|q l Hq _ IH]; simpl.
  - apply Qle_refl.
  - lra.
Qed.

Lemma sumQ_app (l1 l2 : list Q) : sumQ (l1 ++ l2) == sumQ l1 + sumQ l2.
Proof. induction l1 as [|q l1 IH]; simpl; [ring | rewrite IH; ring]. Qed.

(** Dropping summands that are not negative does not increase a sum. *)
Lemma sumQ_filter_le {A : Type} (f : A -> Q) (p : A -> bool) (l : list A) :
  Forall (fun x => 0 <= f x) l ->
  sumQ (map f (filter p l)) <= sumQ (map f l).
Proof.
  induction 1 as [|x l Hx _ IH]; simpl.
  - apply Qle_refl.
  - destruct (p x); simpl; lra.
Qed.

Lemma fold_left_bucketAdd {A : Type} (key : A -> Z) (amount : A -> Q)
  (l : list A) (o : HourObj.t Q) (h : Z) :
  orZero (HourObj.get h
            (fold_left (fun o x => bucketAdd (key x) (amount x) o) l o))
  == orZero (HourObj.get h o)
     + sumQ (map amount (filter (fun x => Z.eqb (key x) h) l)).
Proof.
  revert o. induction l as [|x l IH]; intros o; simpl.
  - ring.
  - rewrite IH, bucketAdd_get.
    destruct (Z.eqb (key x) h) eqn:E; simpl.
    + apply Z.eqb_eq in E. subst h. ring.
    + ring.
Qed.

(** ** Folds that fill a [Map] *)

Lemma keys_fold_set {V X : Type} (key : X -> string)
  (step : JsMap.t V -> X -> JsMap.t V) :
  (forall m x, exists v, step m x = JsMap.set (key x) v m) ->
  forall l m,
    JsMap.keys (fold_left step l m)
    = JsMap.keys m ++ FlowAnalyzer.setOf (JsMap.keys m) (map key l).
Proof.
  intros Hstep. induction l as [|x l IH]; intros m; simpl.
  - now rewrite app_nil_r.
  - rewrite IH. destruct (Hstep m x) as [v ->].
    rewrite jsmap_keys_set, jsmap_has_keys.
    destruct (existsb (String.eqb (key x)) (JsMap.keys m)); auto.
    rewrite <- app_assoc. simpl. do 2 f_equal.
    apply setOf_ext. intros y. rewrite existsb_app. simpl.
    destruct (String.eqb y (key x)); simpl.
    + apply orb_true_r.
    + now rewrite orb_false_r.
Qed.

Lemma rewardsAt_fold (rs : list Reward) (m : JsMap.t AddrRewards)
  (addr : string) :
  rewardsAt (fold_left addReward rs m) addr
  = rewardsAt m addr ++ rewardsOf addr rs.
Proof.
  revert m. induction rs as [|r rs IH]; intros m; simpl.
  - now rewrite app_nil_r.
  - rewrite IH. unfold rewardsAt at 1, addReward.
    destruct (String.eqb (r_address r) addr) eqn:E.
    + apply String.eqb_eq in E. subst addr.
      rewrite jsmap_get_set_same. simpl. unfold rewardsAt.
      destruct (JsMap.get (r_address r) m); simpl.
      * now rewrite <- app_assoc.
      * reflexivity.
    + apply String.eqb_neq in E. now rewrite jsmap_get_set_other.
Qed.

Lemma lastRewardOf_rewardsAt (m : JsMap.t AddrRewards) (addr : string) :
  FlowAnalyzer.lastRewardOf (JsMap.get addr m) = lastOf (rewardsAt m addr).
Proof.
  unfold FlowAnalyzer.lastRewardOf, rewardsAt, lastOf.
  destruct (JsMap.get addr m); reflexivity.
Qed.

Lemma transferTotalAt_fold (ts : list Transfer) (m : JsMap.t AddrTransfers)
  (addr : string) :
  transferTotalAt (fold_left addTransfer ts m) addr
  == transferTotalAt m addr + sumQ (map t_amount (transfersOf addr ts)).
Proof.
  revert m. induction ts as [|t ts IH]; intros m; simpl.
  - ring.
  - rewrite IH. unfold transferTotalAt at 1, addTransfer.
    destruct (String.eqb (t_from t) addr) eqn:E.
    + apply String.eqb_eq in E. subst addr.
      rewrite jsmap_get_set_same. simpl. unfold transferTotalAt.
      destruct (JsMap.get (t_from t) m); simpl; ring.
    + apply String.eqb_neq in E. rewrite jsmap_get_set_other by assumption.
      reflexivity.
Qed.

Lemma flowTotalAt_fold (cfg : FlowAnalyzer.Config) (rmap : JsMap.t AddrRewards)
  (fs : list ExchangeFlow) (m : JsMap.t AddrFlows) (addr : string) :
  flowTotalAt (fold_left (addFlow cfg rmap) fs m) addr
  == flowTotalAt m addr
     + sumQ (map f_amount (filter (fun f => String.eqb (f_from f) addr) fs)).
Proof.
  revert m. induction fs as [|f fs IH]; intros m; simpl.
  - ring.
  - rewrite IH. unfold flowTotalAt at 1, addFlow.
    destruct (String.eqb (f_from f) addr) eqn:E.
    + apply String.eqb_eq in E. subst addr.
      rewrite jsmap_get_set_same. simpl. unfold flowTotalAt.
      destruct (JsMap.get (f_from f) m); simpl; ring.
    + apply String.eqb_neq in E. rewrite jsmap_get_set_other by assumption.
      reflexivity.
Qed.

Lemma flowsAt_fold (cfg : FlowAnalyzer.Config) (rmap : JsMap.t AddrRewards)
  (fs : list ExchangeFlow) (m : JsMap.t AddrFlows) (addr : string) :
  flowsAt (fold_left (addFlow cfg rmap) fs m) addr
  = flowsAt m addr ++ filter (fun f => String.eqb (f_from f) addr) fs.
Proof.
  revert m. induction fs as [|f fs IH]; intros m; simpl.
  - now rewrite app_nil_r.
  - rewrite IH. unfold flowsAt at 1, addFlow.
    destruct (String.eqb (f_from f) addr) eqn:E.
    + apply String.eqb_eq in E. subst addr.
      rewrite jsmap_get_set_same. simpl. unfold flowsAt.
      destruct (JsMap.get (f_from f) m); simpl.
      * now rewrite <- app_assoc.
      * reflexivity.
    + apply String.eqb_neq in E. now rewrite jsmap_get_set_other.
Qed.

(* ------------------------------------------------------------------ *)
(** ** The passes, member by member *)

Lemma analyzeRewards_members (host : Host) (rs : list Reward) (a : Analysis) :
  FlowAnalyzer.analyzeRewards host rs a
  = {| timestamp := timestamp a;
       period_start := period_start a;
       period_end := period_end a;
       summary :=
         set_totalRewards
           (fold_left (fun acc r => acc + r_amount r) rs
                      (totalRewards (summary a)))
           (summary a);
       details :=
         set_rewardsByAddress
           (fold_left addReward rs (rewardsByAddress (details a)))
           (details a);
       trends :=
         set_hourlyRewards
           (fold_left
              (fun o r =>
                 bucketAdd (FlowAnalyzer.hourOf host (r_timestamp r))
                           (r_amount r) o)
              rs (hourlyRewards (trends a)))
           (trends a) |}.
Proof.
  unfold FlowAnalyzer.analyzeRewards. revert a.
  induction rs as [|r rs IH]; intros a; simpl.
  - destruct a as [? ? ? [] [] []]; reflexivity.
  - rewrite IH. reflexivity.
Qed.

Lemma analyzeTransfers_members (ts : list Transfer) (a : Analysis) :
  FlowAnalyzer.analyzeTransfers ts a
  = {| timestamp := timestamp a;
       period_start := period_start a;
       period_end := period_end a;
       summary :=
         set_totalTransfers
           (fold_left (fun acc t => acc + t_amount t) ts
                      (totalTransfers (summary a)))
           (summary a);
       details :=
         set_transfersByAddress
           (fold_left addTransfer ts (transfersByAddress (details a)))
           (details a);
       trends := trends a |}.
Proof.
  unfold FlowAnalyzer.analyzeTransfers. revert a.
  induction ts as [|t ts IH]; intros a; simpl.
  - destruct a as [? ? ? [] [] []]; reflexivity.
  - rewrite IH. reflexivity.
Qed.

(** Flows that are not deposits leave the loop state as it is. *)
Lemma exchangeFlowsLoop_deposits (cfg : FlowAnalyzer.Config) (host : Host)
  (fs : list ExchangeFlow) (st : Analysis * list Z) :
  fold_left (FlowAnalyzer.flowStep cfg host) fs st
  = fold_left (FlowAnalyzer.flowStep cfg host) (deposits fs) st.
Proof.
  revert st. induction fs as [|f fs IH]; intros [a tte]; auto.
  unfold deposits in *. cbn [filter fold_left].
  destruct (isDeposit (f_type f)) eqn:E; cbn [fold_left].
  - apply IH.
  - unfold FlowAnalyzer.flowStep at 2. rewrite E. apply IH.
Qed.

Lemma exchangeFlowsLoop_members (cfg : FlowAnalyzer.Config) (host : Host)
  (fs : list ExchangeFlow) (a : Analysis) (tte : list Z) :
  let rmap := rewardsByAddress (details a) in
  Forall (fun f => isDeposit (f_type f) = true) fs ->
  fold_left (FlowAnalyzer.flowStep cfg host) fs (a, tte)
  = ({| timestamp := timestamp a;
        period_start := period_start a;
        period_end := period_end a;
        summary :=
          set_quickSellers
            (fold_left (fun n f => if isQuick cfg rmap f then S n else n) fs
                       (quickSellers (summary a)))
            (set_exchangeFlow
               (fold_left (fun acc f => acc + f_amount f) fs
                          (exchangeFlow (summary a)))
               (summary a));
        details :=
          set_exchangeFlowsByAddress
            (fold_left (addFlow cfg rmap) fs
                       (exchangeFlowsByAddress (details a)))
            (details a);
        trends :=
          set_hourlyExchangeFlows
            (fold_left
               (fun o f =>
                  bucketAdd (FlowAnalyzer.hourOf host (f_timestamp f))
                            (f_amount f) o)
               fs (hourlyExchangeFlows (trends a)))
            (trends a) |},
     tte ++ flat_map (fun f => optList (timeDiffOf rmap f)) fs).
Proof.
  intros rmap Hdep. subst rmap. revert a tte.
  induction Hdep as [|f fs Hf _ IH]; intros a tte; simpl.
  - rewrite app_nil_r. destruct a as [? ? ? [] [] []]; reflexivity.
  - rewrite Hf. rewrite IH. simpl. rewrite <- app_assoc.
    reflexivity.
Qed.

Lemma analyzeExchangeFlows_members (cfg : FlowAnalyzer.Config) (host : Host)
  (fs : list ExchangeFlow) (a : Analysis) :
  let st := FlowAnalyzer.exchangeFlowsLoop cfg host fs a in
  details (FlowAnalyzer.analyzeExchangeFlows cfg host fs a) = details (fst st)
  /\ trends (FlowAnalyzer.analyzeExchangeFlows cfg host fs a) = trends (fst st)
  /\ totalRewards (summary (FlowAnalyzer.analyzeExchangeFlows cfg host fs a))
     = totalRewards (summary (fst st))
  /\ exchangeFlow (summary (FlowAnalyzer.analyzeExchangeFlows cfg host fs a))
     = exchangeFlow (summary (fst st))
  /\ sellPressurePercent
       (summary (FlowAnalyzer.analyzeExchangeFlows cfg host fs a))
     = sellPressurePercent (summary (fst st))
  /\ quickSellers (summary (FlowAnalyzer.analyzeExchangeFlows cfg host fs a))
     = quickSellers (summary (fst st))
  /\ holders (summary (FlowAnalyzer.analyzeExchangeFlows cfg host fs a))
     = holders (summary (fst st)).
Proof.
  unfold FlowAnalyzer.analyzeExchangeFlows.
  destruct (FlowAnalyzer.exchangeFlowsLoop cfg host fs a) as [a' tte].
  destruct (Nat.ltb 0 (List.length tte)); simpl; repeat split; reflexivity.
Qed.

Lemma generateTrends_members (a : Analysis) :
  summary (FlowAnalyzer.generateTrends a) = summary a
  /\ details (FlowAnalyzer.generateTrends a) = details a
  /\ hourlyRewards (trends (FlowAnalyzer.generateTrends a))
     = hourlyRewards (trends a)
  /\ hourlyExchangeFlows (trends (FlowAnalyzer.generateTrends a))
     = hourlyExchangeFlows (trends a).
Proof.
  unfold FlowAnalyzer.generateTrends.
  destruct (fold_left _ _ _) as [[cr ce] series]. simpl. auto.
Qed.

(** The state the three aggregation passes leave behind. *)
Lemma aggregation_state (cfg : FlowAnalyzer.Config) (host : Host) (now : Z)
  (input : FlowAnalyzer.Input) :
  let rmap := fold_left addReward (FlowAnalyzer.rewards input) JsMap.empty in
  let deps := deposits (FlowAnalyzer.exchangeFlows input) in
  FlowAnalyzer.exchangeFlowsLoop cfg host (FlowAnalyzer.exchangeFlows input)
    (FlowAnalyzer.analyzeTransfers (FlowAnalyzer.transfers input)
       (FlowAnalyzer.analyzeRewards host (FlowAnalyzer.rewards input)
          (FlowAnalyzer.initialAnalysis now)))
  = ({| timestamp := now;
        period_start := now - 86400;
        period_end := now;
        summary :=
          {| totalRewards :=
               fold_left (fun acc r => acc + r_amount r)
                         (FlowAnalyzer.rewards input) 0;
             totalTransfers :=
               fold_left (fun acc t => acc + t_amount t)
                         (FlowAnalyzer.transfers input) 0;
             exchangeFlow := fold_left (fun acc f => acc + f_amount f) deps 0;
             sellPressurePercent := 0;
             quickSellers :=
               fold_left (fun n f => if isQuick cfg rmap f then S n else n)
                         deps O;
             holders := O;
             averageTimeToExchange := 0 |};
        details :=
          {| rewardsByAddress := rmap;
             transfersByAddress :=
               fold_left addTransfer (FlowAnalyzer.transfers input)
                         JsMap.empty;
             exchangeFlowsByAddress :=
               fold_left (addFlow cfg rmap) deps JsMap.empty;
             sellPressureByHour := HourObj.empty;
             topSellers := [];
             topHolders := [];
             suspiciousPatterns := [] |};
        trends :=
          {| hourlyRewards :=
               fold_left
                 (fun o r =>
                    bucketAdd (FlowAnalyzer.hourOf host (r_timestamp r))
                              (r_amount r) o)
                 (FlowAnalyzer.rewards input) HourObj.empty;
             hourlyExchangeFlows :=
               fold_left
                 (fun o f =>
                    bucketAdd (FlowAnalyzer.hourOf host (f_timestamp f))
                              (f_amount f) o)
                 deps HourObj.empty;
             cumulativeSellPressure := [] |} |},
     flat_map (fun f => optList (timeDiffOf rmap f)) deps).
Proof.
  intros rmap deps. unfold FlowAnalyzer.exchangeFlowsLoop.
  rewrite exchangeFlowsLoop_deposits.
  rewrite exchangeFlowsLoop_members.
  - rewrite analyzeTransfers_members, analyzeRewards_members. reflexivity.
  - apply Forall_forall. intros f Hf.
    apply filter_In in Hf. apply Hf.
Qed.

(** ** Distinct addresses *)

Lemma distinct_In (l : list string) (x : string) : In x (distinct l) <-> In x l.
Proof.
  assert (H : forall s, existsb (String.eqb x) s = true <-> In x s).
  { intros s. rewrite existsb_exists. split.
    - intros [y [Hy E]]. apply String.eqb_eq in E. now subst.
    - intros Hx. exists x. split; auto. apply String.eqb_refl. }
  rewrite <- !H. fold (FlowAnalyzer.setHas x (distinct l)).
  now rewrite setHas_setOf.
Qed.

Lemma distinct_NoDup (l : list string) : NoDup (distinct l).
Proof.
  unfold distinct. induction l as [|a l IH] using rev_ind; simpl.
  - constructor.
  - rewrite setOf_snoc. simpl.
    destruct (existsb (String.eqb a) l) eqn:E.
    + now rewrite app_nil_r.
    + apply NoDup_app; auto.
      * constructor; [intros [] | constructor].
      * intros x Hx [<- | []]. apply (proj1 (distinct_In l a)) in Hx.
        assert (existsb (String.eqb a) l = true); [|congruence].
        apply existsb_exists. exists a. split; auto. apply String.eqb_refl.
Qed.

Lemma count_fold {A : Type} (p : A -> bool) (l : list A) (n : nat) :
  fold_left (fun n x => if p x then S n else n) l n
  = (n + List.length (filter p l))%nat.
Proof.
  revert n. induction l as [|x l IH]; intros n; simpl.
  - lia.
  - rewrite IH. destruct (p x); simpl; lia.
Qed.

Lemma filter_partition_length {A : Type} (p : A -> bool) (l : list A) :
  (List.length (filter (fun x => negb (p x)) l) + List.length (filter p l)
   = List.length l)%nat.
Proof.
  induction l as [|x l IH]; simpl; auto.
  destruct (p x); simpl; lia.
Qed.

Lemma hasDeposit_from (fs : list ExchangeFlow) (addr : string) :
  existsb (String.eqb addr) (map f_from (deposits fs)) = hasDeposit fs addr.
Proof.
  unfold hasDeposit, deposits. induction fs as [|f fs IH]; simpl; auto.
  destruct (isDeposit (f_type f)); simpl; rewrite IH; auto.
  now rewrite (String.eqb_sym addr).
Qed.

Lemma keys_addReward (rs : list Reward) :
  JsMap.keys (fold_left addReward rs JsMap.empty)
  = distinct (map r_address rs).
Proof.
  rewrite (keys_fold_set r_address); [reflexivity|].
  intros m x. eexists. reflexivity.
Qed.

Lemma keys_addFlow (cfg : FlowAnalyzer.Config) (rmap : JsMap.t AddrRewards)
  (fs : list ExchangeFlow) :
  JsMap.keys (fold_left (addFlow cfg rmap) fs JsMap.empty)
  = distinct (map f_from fs).
Proof.
  rewrite (keys_fold_set f_from); [reflexivity|].
  intros m x. eexists. reflexivity.
Qed.

(** C5.  The holders counter of the result is the number of distinct
    reward addresses that have no deposit exchange flow; together with the
    distinct reward addresses that have one, they make up all distinct
    reward addresses, each of which is an address of some reward and is
    listed once.  Reward amounts play no part. *)
Theorem holders_partition (cfg : FlowAnalyzer.Config) (host : Host) (now : Z)
  (input : FlowAnalyzer.Input) :
  let a := FlowAnalyzer.analyzeFlows cfg host now input in
  let flows := FlowAnalyzer.exchangeFlows input in
  let rewardAddresses := distinct (map r_address (FlowAnalyzer.rewards input)) in
  holders (summary a)
  = List.length (filter (fun addr => negb (hasDeposit flows addr))
                        rewardAddresses)
  /\ (holders (summary a)
      + List.length (filter (hasDeposit flows) rewardAddresses)
      = List.length rewardAddresses)%nat
  /\ NoDup rewardAddresses
  /\ (forall addr,
        In addr rewardAddresses
        <-> exists r, In r (FlowAnalyzer.rewards input) /\ r_address r = addr).
Proof.
  intros a flows rewardAddresses.
  assert (Hset : NoDup rewardAddresses
                 /\ (forall addr,
                       In addr rewardAddresses
                       <-> exists r, In r (FlowAnalyzer.rewards input)
                                     /\ r_address r = addr)).
  { split; [apply distinct_NoDup|].
    intros addr. unfold rewardAddresses. rewrite distinct_In, in_map_iff.
    split; intros [r [H1 H2]]; exists r; auto. }
  assert (H : holders (summary a)
              = List.length (filter (fun addr => negb (hasDeposit flows addr))
                                    rewardAddresses)).
  { subst a. unfold FlowAnalyzer.analyzeFlows.
    destruct (generateTrends_members
                (FlowAnalyzer.identifyPatterns cfg host
                   (FlowAnalyzer.calculateSellPressure
                      (FlowAnalyzer.analyzeExchangeFlows cfg host
                         (FlowAnalyzer.exchangeFlows input)
                         (FlowAnalyzer.analyzeTransfers
                            (FlowAnalyzer.transfers input)
                            (FlowAnalyzer.analyzeRewards host
                               (FlowAnalyzer.rewards input)
                               (FlowAnalyzer.initialAnalysis now)))))
                   (FlowAnalyzer.topReceivers input))) as [-> _].
    unfold FlowAnalyzer.identifyPatterns, FlowAnalyzer.calculateSellPressure.
    simpl.
    destruct (analyzeExchangeFlows_members cfg host
                (FlowAnalyzer.exchangeFlows input)
                (FlowAnalyzer.analyzeTransfers (FlowAnalyzer.transfers input)
                   (FlowAnalyzer.analyzeRewards host
                      (FlowAnalyzer.rewards input)
                      (FlowAnalyzer.initialAnalysis now))))
      as (-> & _ & _ & _ & _ & _ & ->).
    rewrite aggregation_state. simpl.
    rewrite keys_addReward, keys_addFlow.
    fold (distinct (distinct (map r_address (FlowAnalyzer.rewards input)))).
    fold (distinct (distinct (map f_from
                                (deposits (FlowAnalyzer.exchangeFlows input))))).
    rewrite !setOf_idem, count_fold. simpl.
    f_equal. apply filter_ext. intros addr.
    now rewrite setHas_setOf, hasDeposit_from. }
  split; [exact H|]. split; [|exact Hset].
  rewrite H. apply filter_partition_length.
Qed.

(** The members of the result that the aggregation passes decide. *)
Lemma analyzeFlows_members (cfg : FlowAnalyzer.Config) (host : Host) (now : Z)
  (input : FlowAnalyzer.Input) :
  let a := FlowAnalyzer.analyzeFlows cfg host now input in
  let rmap := fold_left addReward (FlowAnalyzer.rewards input) JsMap.empty in
  let deps := deposits (FlowAnalyzer.exchangeFlows input) in
  let total :=
    fold_left (fun acc r => acc + r_amount r) (FlowAnalyzer.rewards input) 0 in
  let flow := fold_left (fun acc f => acc + f_amount f) deps 0 in
  rewardsByAddress (details a) = rmap
  /\ transfersByAddress (details a)
     = fold_left addTransfer (FlowAnalyzer.transfers input) JsMap.empty
  /\ exchangeFlowsByAddress (details a)
     = fold_left (addFlow cfg rmap) deps JsMap.empty
  /\ totalRewards (summary a) = total
  /\ exchangeFlow (summary a) = flow
  /\ quickSellers (summary a)
     = fold_left (fun n f => if isQuick cfg rmap f then S n else n) deps O
  /\ sellPressurePercent (summary a)
     = (if Qgtb total 0 then (flow / total) * 100 else 0)
  /\ hourlyRewards (trends a)
     = fold_left
         (fun o r =>
            bucketAdd (FlowAnalyzer.hourOf host (r_timestamp r))
                      (r_amount r) o)
         (FlowAnalyzer.rewards input) HourObj.empty
  /\ hourlyExchangeFlows (trends a)
     = fold_left
         (fun o f =>
            bucketAdd (FlowAnalyzer.hourOf host (f_timestamp f))
                      (f_amount f) o)
         deps HourObj.empty.
Proof.
  intros a rmap deps total flow. subst a.
  unfold FlowAnalyzer.analyzeFlows.
  destruct (generateTrends_members
              (FlowAnalyzer.identifyPatterns cfg host
                 (FlowAnalyzer.calculateSellPressure
                    (FlowAnalyzer.analyzeExchangeFlows cfg host
                       (FlowAnalyzer.exchangeFlows input)
                       (FlowAnalyzer.analyzeTransfers
                          (FlowAnalyzer.transfers input)
                          (FlowAnalyzer.analyzeRewards host
                             (FlowAnalyzer.rewards input)
                             (FlowAnalyzer.initialAnalysis now)))))
                 (FlowAnalyzer.topReceivers input))) as (-> & -> & -> & ->).
  unfold FlowAnalyzer.identifyPatterns, FlowAnalyzer.calculateSellPressure.
  simpl.
  destruct (analyzeExchangeFlows_members cfg host
              (FlowAnalyzer.exchangeFlows input)
              (FlowAnalyzer.analyzeTransfers (FlowAnalyzer.transfers input)
                 (FlowAnalyzer.analyzeRewards host
                    (FlowAnalyzer.rewards input)
                    (FlowAnalyzer.initialAnalysis now))))
    as (-> & -> & -> & -> & -> & -> & _).
  rewrite aggregation_state. simpl.
  repeat split; reflexivity.
Qed.

(* ------------------------------------------------------------------ *)
(** ** Sell pressure *)

Lemma Qgtb_true_iff (a b : Q) : Qgtb a b = true <-> b < a.
Proof.
  unfold Qgtb. rewrite negb_true_iff. split.
  - intros H. apply Qnot_le_lt. intros Hle.
    apply Qle_bool_iff in Hle. congruence.
  - intros H. destruct (Qle_bool a b) eqn:E; auto.
    apply Qle_bool_iff in E. exfalso. apply (Qlt_not_le _ _ H E).
Qed.

Lemma Qgtb_false_iff (a b : Q) : Qgtb a b = false <-> a <= b.
Proof.
  unfold Qgtb. rewrite negb_false_iff. apply Qle_bool_iff.
Qed.

(** C4, as the code has it.  The percentage is [100 * exchangeFlow /
    totalRewards] when the reward total is positive and 0 otherwise; when
    the reward total is positive the percentage is 0 exactly when the
    exchange deposit flow is 0, and it is not negative if no deposit amount
    is. *)
Theorem sell_pressure_percent (cfg : FlowAnalyzer.Config) (host : Host)
  (now : Z) (input : FlowAnalyzer.Input) :
  let s := summary (FlowAnalyzer.analyzeFlows cfg host now input) in
  (totalRewards s <= 0 -> sellPressurePercent s == 0)
  /\ (0 < totalRewards s ->
      sellPressurePercent s == 100 * exchangeFlow s / totalRewards s
      /\ (sellPressurePercent s == 0 <-> exchangeFlow s == 0)
      /\ (Forall (fun f => 0 <= f_amount f)
                 (deposits (FlowAnalyzer.exchangeFlows input)) ->
          0 <= sellPressurePercent s)).
Proof.
  intros s. subst s.
  destruct (analyzeFlows_members cfg host now input)
    as (_ & _ & _ & Ht & Hf & _ & Hp & _).
  rewrite Hp, Ht, Hf. clear Hp Ht Hf.
  set (total := fold_left _ (FlowAnalyzer.rewards input) 0).
  set (flow := fold_left _ (deposits _) 0).
  split.
  - intros Hle. apply Qgtb_false_iff in Hle. rewrite Hle. reflexivity.
  - intros Hpos. pose proof (proj2 (Qgtb_true_iff total 0) Hpos) as Hg.
    rewrite Hg.
    assert (Hne : ~ total == 0) by (intros E; rewrite E in Hpos; discriminate).
    assert (Hinv : 0 < / total) by (now apply Qinv_lt_0_compat).
    repeat split.
    + field. exact Hne.
    + intros H0.
      assert (E : flow == (flow / total * 100) * total / 100)
        by (field; exact Hne).
      rewrite E, H0. field.
    + intros H0. rewrite H0. field. exact Hne.
    + intros Hnn.
      assert (Hflow : 0 <= flow).
      { unfold flow. rewrite fold_left_sumQ.
        assert (0 <= sumQ (map f_amount
                             (deposits (FlowAnalyzer.exchangeFlows input)))).
        { apply sumQ_nonneg. apply Forall_map. exact Hnn. }
        lra. }
      unfold Qdiv. apply Qmult_le_0_compat; [|discriminate].
      apply Qmult_le_0_compat; [exact Hflow | apply Qlt_le_weak, Hinv].
Qed.

Lemma sell_pressure_percent_witness :
  let s := summary (FlowAnalyzer.analyzeFlows FlowAnalyzer.defaultConfig
                      utcHost 5000 Sample.scenario) in
  0 < totalRewards s
  /\ sellPressurePercent s == 100 * exchangeFlow s / totalRewards s
  /\ (sellPressurePercent s == 0 <-> exchangeFlow s == 0)
  /\ 0 <= sellPressurePercent s.
Proof.
  assert (Hpos : 0 < totalRewards
                       (summary (FlowAnalyzer.analyzeFlows
                                   FlowAnalyzer.defaultConfig utcHost 5000
                                   Sample.scenario))) by reflexivity.
  destruct (sell_pressure_percent FlowAnalyzer.defaultConfig utcHost 5000
              Sample.scenario) as [_ H].
  destruct (H Hpos) as (H1 & H2 & H3).
  split; [exact Hpos|]. split; [exact H1|]. split; [exact H2|].
  apply H3. repeat constructor; discriminate.
Defined.

(** C4 as stated fails: a reward set that is not empty but sums to zero
    gives a percentage of 0 although the exchange deposit flow is 10. *)
Lemma sell_pressure_zero_rewards_counterexample :
  let input := Sample.zeroReward in
  let s := summary (FlowAnalyzer.analyzeFlows FlowAnalyzer.defaultConfig
                      utcHost 5000 input) in
  FlowAnalyzer.rewards input <> []
  /\ Forall (fun r => 0 <= r_amount r) (FlowAnalyzer.rewards input)
  /\ Forall (fun f => 0 <= f_amount f) (FlowAnalyzer.exchangeFlows input)
  /\ sellPressurePercent s == 0
  /\ exchangeFlow s == 10
  /\ ~ (sellPressurePercent s == 0 <-> exchangeFlow s == 0).
Proof.
  repeat split; try discriminate.
  - repeat constructor; discriminate.
  - repeat constructor; discriminate.
  - intros [H _]. assert (E : 0 == 0) by reflexivity.
    apply H in E. vm_compute in E. discriminate.
Qed.

(* ------------------------------------------------------------------ *)
(** ** Exchange detection *)

Lemma fold_left_app_flat_map {A B : Type} (f : A -> list B) (l : list A)
  (acc : list B) :
  fold_left (fun acc x => acc ++ f x) l acc = acc ++ flat_map f l.
Proof.
  revert acc. induction l as [|x l IH]; intros acc; simpl.
  - now rewrite app_nil_r.
  - now rewrite IH, <- app_assoc.
Qed.

Lemma detectExchangeTransfers_flat_map (reg : ExchangeDetector.Registry)
  (ts : list Transfer) :
  ExchangeDetector.detectExchangeTransfers reg ts
  = flat_map (ExchangeDetector.detectOne reg) ts.
Proof.
  unfold ExchangeDetector.detectExchangeTransfers.
  now rewrite fold_left_app_flat_map.
Qed.

Lemma detectExchangeTransfers_app (reg : ExchangeDetector.Registry)
  (ts1 ts2 : list Transfer) :
  ExchangeDetector.detectExchangeTransfers reg (ts1 ++ ts2)
  = ExchangeDetector.detectExchangeTransfers reg ts1
    ++ ExchangeDetector.detectExchangeTransfers reg ts2.
Proof. rewrite !detectExchangeTransfers_flat_map. apply flat_map_app. Qed.

(** Classification never changes the transfer it enriches. *)
Lemma detectExchangeTransfers_subset (reg : ExchangeDetector.Registry)
  (ts : list Transfer) (f : ExchangeFlow) :
  In f (ExchangeDetector.detectExchangeTransfers reg ts) ->
  In (f_transfer f) ts.
Proof.
  rewrite detectExchangeTransfers_flat_map, in_flat_map.
  intros [t [Ht Hf]]. unfold ExchangeDetector.detectOne in Hf.
  apply in_app_or in Hf.
  destruct (ExchangeDetector.getExchangeInfo reg (t_to t)),
           (ExchangeDetector.getExchangeInfo reg (t_from t));
    simpl in Hf; intuition (subst; simpl; auto).
Qed.

(** C10.  A transfer whose two ends are both registered yields a deposit
    record and a withdrawal record, next to each other, both carrying the
    transfer itself; on its own it turns one transfer into two records. *)
Theorem transfer_between_exchanges_twice (reg : ExchangeDetector.Registry)
  (before after : list Transfer) (t : Transfer) :
  ExchangeDetector.isExchangeAddress reg (t_to t) = true ->
  ExchangeDetector.isExchangeAddress reg (t_from t) = true ->
  exists exTo exFrom,
    ExchangeDetector.getExchangeInfo reg (t_to t) = Some exTo
    /\ ExchangeDetector.getExchangeInfo reg (t_from t) = Some exFrom
    /\ ExchangeDetector.detectExchangeTransfers reg (before ++ t :: after)
       = ExchangeDetector.detectExchangeTransfers reg before
         ++ [asDeposit exTo t; asWithdrawal exFrom t]
         ++ ExchangeDetector.detectExchangeTransfers reg after
    /\ List.length (ExchangeDetector.detectExchangeTransfers reg [t]) = 2%nat.
Proof.
  unfold ExchangeDetector.isExchangeAddress, JsMap.has.
  unfold ExchangeDetector.getExchangeInfo.
  intros Hto Hfrom.
  destruct (JsMap.get (t_to t) reg) as [exTo|] eqn:Eto; [|discriminate].
  destruct (JsMap.get (t_from t) reg) as [exFrom|] eqn:Efrom; [|discriminate].
  exists exTo, exFrom. repeat split.
  - rewrite detectExchangeTransfers_app.
    change (t :: after) with ([t] ++ after).
    rewrite detectExchangeTransfers_app. f_equal. f_equal.
    unfold ExchangeDetector.detectExchangeTransfers,
      ExchangeDetector.detectOne, ExchangeDetector.getExchangeInfo.
    simpl. rewrite Eto, Efrom. reflexivity.
  - unfold ExchangeDetector.detectExchangeTransfers,
      ExchangeDetector.detectOne, ExchangeDetector.getExchangeInfo.
    simpl. rewrite Eto, Efrom. reflexivity.
Qed.

Lemma transfer_between_exchanges_twice_witness :
  ExchangeDetector.isExchangeAddress Sample.twoVenues
    (t_to Sample.betweenVenues) = true
  /\ ExchangeDetector.isExchangeAddress Sample.twoVenues
       (t_from Sample.betweenVenues) = true
  /\ exists exTo exFrom,
      ExchangeDetector.getExchangeInfo Sample.twoVenues
        (t_to Sample.betweenVenues) = Some exTo
      /\ ExchangeDetector.getExchangeInfo Sample.twoVenues
           (t_from Sample.betweenVenues) = Some exFrom
      /\ ExchangeDetector.detectExchangeTransfers Sample.twoVenues
           ([] ++ Sample.betweenVenues :: [])
         = ExchangeDetector.detectExchangeTransfers Sample.twoVenues []
           ++ [asDeposit exTo Sample.betweenVenues;
               asWithdrawal exFrom Sample.betweenVenues]
           ++ ExchangeDetector.detectExchangeTransfers Sample.twoVenues []
      /\ List.length
           (ExchangeDetector.detectExchangeTransfers Sample.twoVenues
              [Sample.betweenVenues]) = 2%nat.
Proof.
  split; [reflexivity|]. split; [reflexivity|].
  apply (transfer_between_exchanges_twice Sample.twoVenues [] []
           Sample.betweenVenues); reflexivity.
Defined.

(* ------------------------------------------------------------------ *)
(** ** Deposit totals against outgoing totals *)

Lemma deposit_sum_of_detected (reg : ExchangeDetector.Registry)
  (addr : string) (ts : list Transfer) :
  sumQ (map f_amount
          (filter (fun f => String.eqb (f_from f) addr)
             (deposits (flat_map (ExchangeDetector.detectOne reg) ts))))
  == sumQ (map t_amount
             (filter (fun t => ExchangeDetector.isExchangeAddress reg (t_to t))
                (transfersOf addr ts))).
Proof.
  unfold deposits, transfersOf. induction ts as [|t ts IH]; simpl.
  - reflexivity.
  - rewrite !filter_app, map_app, sumQ_app, IH.
    unfold ExchangeDetector.detectOne, ExchangeDetector.isExchangeAddress,
      ExchangeDetector.getExchangeInfo, JsMap.has, f_from, f_amount.
    destruct (JsMap.get (t_to t) reg) eqn:Eto,
             (JsMap.get (t_from t) reg) eqn:Efrom; simpl;
      destruct (String.eqb (t_from t) addr); simpl;
      rewrite ?Eto; simpl; ring.
Qed.

(** C9.  When the exchange flows are those the detector derives from the
    transfers, and no transfer amount is negative, the deposit total
    recorded for an address does not exceed its outgoing transfer total. *)
Theorem exchange_total_le_outgoing (cfg : FlowAnalyzer.Config) (host : Host)
  (now : Z) (reg : ExchangeDetector.Registry) (rewards : list Reward)
  (transfers : list Transfer) (topReceivers : list FlowAnalyzer.Receiver)
  (addr : string) :
  Forall (fun t => 0 <= t_amount t) transfers ->
  let input :=
    {| FlowAnalyzer.rewards := rewards;
       FlowAnalyzer.transfers := transfers;
       FlowAnalyzer.exchangeFlows :=
         ExchangeDetector.detectExchangeTransfers reg transfers;
       FlowAnalyzer.topReceivers := topReceivers |} in
  let a := FlowAnalyzer.analyzeFlows cfg host now input in
  totalExchangeAmount a addr <= totalOutgoing a addr.
Proof.
  intros Hnn input a. subst a.
  destruct (analyzeFlows_members cfg host now input)
    as (_ & Ht & Hf & _).
  unfold totalExchangeAmount, totalOutgoing. rewrite Ht, Hf.
  fold (flowTotalAt
          (fold_left
             (addFlow cfg (fold_left addReward (FlowAnalyzer.rewards input)
                                     JsMap.empty))
             (deposits (FlowAnalyzer.exchangeFlows input)) JsMap.empty) addr).
  fold (transferTotalAt
          (fold_left addTransfer (FlowAnalyzer.transfers input) JsMap.empty)
          addr).
  rewrite flowTotalAt_fold, transferTotalAt_fold.
  unfold flowTotalAt, transferTotalAt. simpl.
  rewrite detectExchangeTransfers_flat_map, deposit_sum_of_detected.
  rewrite !Qplus_0_l. apply sumQ_filter_le.
  unfold transfersOf. apply Forall_forall. intros t Ht'.
  apply filter_In in Ht'. destruct Ht' as [Hin _].
  revert t Hin. apply Forall_forall. exact Hnn.
Qed.

Lemma exchange_total_le_outgoing_witness :
  Forall (fun t => 0 <= t_amount t) Sample.outgoing
  /\ let a :=
       FlowAnalyzer.analyzeFlows FlowAnalyzer.defaultConfig utcHost 5000
         {| FlowAnalyzer.rewards := [Sample.reward "A" 100 500];
            FlowAnalyzer.transfers := Sample.outgoing;
            FlowAnalyzer.exchangeFlows :=
              ExchangeDetector.detectExchangeTransfers Sample.registry
                Sample.outgoing;
            FlowAnalyzer.topReceivers := [] |} in
     totalExchangeAmount a "A" <= totalOutgoing a "A".
Proof.
  assert (H : Forall (fun t => 0 <= t_amount t) Sample.outgoing)
    by (repeat constructor; discriminate).
  split; [exact H|].
  apply (exchange_total_le_outgoing FlowAnalyzer.defaultConfig utcHost 5000
           Sample.registry [Sample.reward "A" 100 500] [] "A" H).
Defined.

(* ------------------------------------------------------------------ *)
(** ** Quick sellers and time to exchange *)

Lemma timeDiffOf_input (rs : list Reward) (flow : ExchangeFlow) :
  optList (timeDiffOf (fold_left addReward rs JsMap.empty) flow)
  = timeDiffs rs flow.
Proof.
  unfold timeDiffOf, timeDiffs, timedAgainst.
  rewrite lastRewardOf_rewardsAt, rewardsAt_fold. simpl.
  destruct (lastOf (rewardsOf (f_from flow) rs)); reflexivity.
Qed.

Lemma isQuick_input (cfg : FlowAnalyzer.Config) (rs : list Reward)
  (flow : ExchangeFlow) :
  isQuick cfg (fold_left addReward rs JsMap.empty) flow
  = quickAgainst cfg rs flow.
Proof.
  unfold isQuick, timeDiffOf, quickAgainst, timedAgainst.
  rewrite lastRewardOf_rewardsAt, rewardsAt_fold. simpl.
  destruct (lastOf (rewardsOf (f_from flow) rs)); reflexivity.
Qed.

Lemma lastOf_snoc {A : Type} (l : list A) (x : A) : lastOf (l ++ [x]) = Some x.
Proof.
  unfold lastOf. rewrite map_app. simpl. apply last_last.
Qed.

(** The quick-seller counter counts the qualifying deposit flows. *)
Lemma quickSellers_counts_flows (cfg : FlowAnalyzer.Config) (host : Host)
  (now : Z) (input : FlowAnalyzer.Input) :
  quickSellers (summary (FlowAnalyzer.analyzeFlows cfg host now input))
  = List.length
      (filter (quickAgainst cfg (FlowAnalyzer.rewards input))
              (deposits (FlowAnalyzer.exchangeFlows input))).
Proof.
  destruct (analyzeFlows_members cfg host now input)
    as (_ & _ & _ & _ & _ & -> & _).
  rewrite count_fold. simpl. f_equal. apply filter_ext.
  intros f. apply isQuick_input.
Qed.

(** What the loop of [analyzeExchangeFlows] does.  Each deposit flow is
    timed against the last reward of its sender in the order of the rewards
    input; a deposit whose sender has no reward at all records no time
    difference and is never quick; every deposit adds its amount to the
    exchange flow and to its sender's total. *)
Theorem deposits_timed_against_last_pushed_reward
  (cfg : FlowAnalyzer.Config) (host : Host) (now : Z)
  (input : FlowAnalyzer.Input) :
  let rs := FlowAnalyzer.rewards input in
  let deps := deposits (FlowAnalyzer.exchangeFlows input) in
  let st := afterFlowLoop cfg host now input in
  snd st = flat_map (timeDiffs rs) deps
  /\ quickSellers (summary (fst st))
     = List.length (filter (quickAgainst cfg rs) deps)
  /\ exchangeFlow (summary (fst st)) == sumQ (map f_amount deps)
  /\ (forall addr,
        totalExchangeAmount (fst st) addr
        == sumQ (map f_amount (depositsOf addr (FlowAnalyzer.exchangeFlows input))))
  /\ (forall flow, rewardsOf (f_from flow) rs = [] ->
        timeDiffs rs flow = [] /\ quickAgainst cfg rs flow = false)
  /\ (forall flow earlier r, rewardsOf (f_from flow) rs = earlier ++ [r] ->
        timeDiffs rs flow = [(f_timestamp flow - r_timestamp r)%Z]).
Proof.
  intros rs deps st. subst st. unfold afterFlowLoop.
  rewrite aggregation_state. simpl. repeat split.
  - apply flat_map_ext. intros f. apply timeDiffOf_input.
  - rewrite count_fold. simpl. f_equal. apply filter_ext.
    intros f. apply isQuick_input.
  - rewrite fold_left_sumQ. apply Qplus_0_l.
  - intros addr. unfold totalExchangeAmount. simpl.
    fold (flowTotalAt
            (fold_left
               (addFlow cfg (fold_left addReward (FlowAnalyzer.rewards input)
                                       JsMap.empty))
               (deposits (FlowAnalyzer.exchangeFlows input)) JsMap.empty)
            addr).
    rewrite flowTotalAt_fold. unfold flowTotalAt, depositsOf. simpl.
    apply Qplus_0_l.
  - unfold timeDiffs, timedAgainst. now rewrite H.
  - unfold quickAgainst, timedAgainst. now rewrite H.
  - intros flow earlier r H. unfold timeDiffs, timedAgainst.
    now rewrite H, lastOf_snoc.
Qed.

Lemma deposits_timed_against_last_pushed_reward_witness :
  let rs := FlowAnalyzer.rewards Sample.rewardAfterDeposit in
  let flow := Sample.depositFlow "A" 50 5000 in
  rewardsOf (f_from flow) rs
  = [Sample.reward "A" 100 1000] ++ [Sample.reward "A" 100 9000]
  /\ timeDiffs rs flow = [(-4000)%Z].
Proof.
  split; [reflexivity|].
  destruct (deposits_timed_against_last_pushed_reward
              FlowAnalyzer.defaultConfig utcHost 0 Sample.rewardAfterDeposit)
    as (_ & _ & _ & _ & _ & H).
  apply (H (Sample.depositFlow "A" 50 5000) [Sample.reward "A" 100 1000]
           (Sample.reward "A" 100 9000)).
  reflexivity.
Defined.

(** C3, on the failing input: rewards to A at 1000 and at 9000, one
    deposit of A at 5000.  The only reward strictly before the deposit is
    the one at 1000, 4000 seconds earlier and so not within the threshold
    of 3600; the code times the deposit against the reward at 9000 instead:
    it records -4000, counts a quick sale, flags A as a quick seller and
    reports a negative average time to exchange. *)
Theorem deposit_timed_against_later_reward :
  let input := Sample.rewardAfterDeposit in
  let a := FlowAnalyzer.analyzeFlows FlowAnalyzer.defaultConfig utcHost 0
             input in
  let st := afterFlowLoop FlowAnalyzer.defaultConfig utcHost 0 input in
  filter (fun r => Z.ltb (r_timestamp r) 5000)
         (rewardsOf "A" (FlowAnalyzer.rewards input))
  = [Sample.reward "A" 100 1000]
  /\ Z.ltb (5000 - 1000) (FlowAnalyzer.rapidSellThreshold
                            FlowAnalyzer.defaultConfig) = false
  /\ snd st = [(-4000)%Z]
  /\ snd st <> [(5000 - 1000)%Z]
  /\ ~ Forall (fun td => (0 < td)%Z) (snd st)
  /\ quickSellers (summary a) = 1%nat
  /\ option_map af_quickSell
       (JsMap.get "A" (exchangeFlowsByAddress (details a)))
     = Some true
  /\ averageTimeToExchange (summary a) == - (10 # 9).
Proof.
  repeat split.
  - discriminate.
  - intros H. inversion H as [|td l Htd _]. discriminate Htd.
Qed.

(** C2, on the failing input: one address, one reward, two deposits
    within the hour.  The counter ends at 2 while a single address has a
    deposit. *)
Theorem quick_sellers_twice_for_one_address :
  let input := Sample.twoQuickDeposits in
  let a := FlowAnalyzer.analyzeFlows FlowAnalyzer.defaultConfig utcHost 5000
             input in
  quickSellers (summary a) = 2%nat
  /\ distinct (map f_from (deposits (FlowAnalyzer.exchangeFlows input)))
     = ["A"%string]
  /\ JsMap.keys (exchangeFlowsByAddress (details a)) = ["A"%string].
Proof. repeat split. Qed.

(* ------------------------------------------------------------------ *)
(** ** Hour buckets *)

Lemma hourOf_offset (host : Host) (offset ts : Z) :
  (forall t, LocalTZA host t = (1000 * offset)%Z) ->
  FlowAnalyzer.hourOf host ts = hourAtOffset offset ts.
Proof.
  intros H. unfold FlowAnalyzer.hourOf, getHours, hourAtOffset, msPerHour.
  rewrite H. f_equal.
  replace (ts * 1000 + 1000 * offset)%Z with (1000 * (ts + offset))%Z by ring.
  change 3600000%Z with (1000 * 3600)%Z.
  apply Z.div_mul_cancel_l; discriminate.
Qed.

Lemma hourOf_utc (ts : Z) :
  FlowAnalyzer.hourOf utcHost ts = ((ts / 3600) mod 24)%Z.
Proof.
  rewrite (hourOf_offset utcHost 0 ts) by reflexivity.
  unfold hourAtOffset. now rewrite Z.add_0_r.
Qed.


Lemma largeFlowStep_bucket (cfg : FlowAnalyzer.Config) (host : Host)
  (address : string) (flows : list ExchangeFlow)
  (o : HourObj.t (list LargeSeller)) (h : Z) :
  bucketAt (fold_left (FlowAnalyzer.largeFlowStep cfg host address) flows o) h
  = bucketAt o h
    ++ largeAt cfg (FlowAnalyzer.hourOf host) h
         (address, {| af_total := 0; af_count := 0; af_flows := flows;
                      af_quickSell := false |}).
Proof.
  unfold largeAt. cbn [fst snd af_flows]. revert o.
  induction flows as [|f flows IH]; intros o; cbn [fold_left filter map].
  - now rewrite app_nil_r.
  - rewrite IH. unfold FlowAnalyzer.largeFlowStep.
    destruct (Qgtb (f_amount f) (FlowAnalyzer.largeFlowThreshold cfg));
      cbn [andb]; [|reflexivity].
    unfold bucketAt at 1.
    destruct (Z.eqb (FlowAnalyzer.hourOf host (f_timestamp f)) h) eqn:E.
    + apply Z.eqb_eq in E. subst h. rewrite hourobj_get_set_same.
      unfold bucketAt. cbn [map]. now rewrite <- app_assoc.
    + apply Z.eqb_neq in E. rewrite hourobj_get_set_other by assumption.
      reflexivity.
Qed.

(** Every large flow of every entry is grouped under the hour of its own
    timestamp, in entry order. *)
Lemma largeSellersByHour_bucket (cfg : FlowAnalyzer.Config) (host : Host)
  (byAddress : JsMap.t AddrFlows) (h : Z) :
  bucketAt (FlowAnalyzer.largeSellersByHour cfg host byAddress) h
  = flat_map (largeAt cfg (FlowAnalyzer.hourOf host) h) byAddress.
Proof.
  unfold FlowAnalyzer.largeSellersByHour, JsMap.entries.
  change (flat_map (largeAt cfg (FlowAnalyzer.hourOf host) h) byAddress)
    with (bucketAt HourObj.empty h
          ++ flat_map (largeAt cfg (FlowAnalyzer.hourOf host) h) byAddress).
  generalize (@HourObj.empty (list LargeSeller)) as o.
  induction byAddress as [|[addr e] m IH]; intros o; simpl.
  - now rewrite app_nil_r.
  - rewrite IH, largeFlowStep_bucket, <- app_assoc. reflexivity.
Qed.

(** The hour the code computes is the hour of day at the host's offset
    from UTC at that instant, whatever the offset is and however it
    changes. *)
Lemma hourOf_localHour (host : Host) (ts : Z) :
  FlowAnalyzer.hourOf host ts = localHour host ts.
Proof.
  unfold FlowAnalyzer.hourOf, getHours, localHour, hourAtOffset,
    utcOffsetSeconds, msPerHour.
  f_equal. change 3600000%Z with (1000 * 3600)%Z.
  rewrite <- Z.div_div by lia. f_equal.
  rewrite Z.div_add_l by lia. reflexivity.
Qed.

(** C7, as the code has it.  On every host, rewards, deposit flows and
    large sellers are accumulated under the hour of day of their timestamp
    in the host's local time, [floor((timestamp + offset) / 3600) mod 24]
    with [offset] the host's offset from UTC, in seconds, at that instant;
    the clock reading [now] plays no part. *)
Theorem hour_buckets_follow_local_time (cfg : FlowAnalyzer.Config)
  (host : Host) (now : Z) (input : FlowAnalyzer.Input) (h : Z) :
  let a := FlowAnalyzer.analyzeFlows cfg host now input in
  orZero (HourObj.get h (hourlyRewards (trends a)))
  == sumQ (map r_amount
             (filter (fun r => Z.eqb (localHour host (r_timestamp r)) h)
                     (FlowAnalyzer.rewards input)))
  /\ orZero (HourObj.get h (hourlyExchangeFlows (trends a)))
     == sumQ (map f_amount
                (filter
                   (fun f => Z.eqb (localHour host (f_timestamp f)) h)
                   (deposits (FlowAnalyzer.exchangeFlows input))))
  /\ bucketAt
       (FlowAnalyzer.largeSellersByHour cfg host
          (exchangeFlowsByAddress (details a))) h
     = flat_map (largeAt cfg (localHour host) h)
                (exchangeFlowsByAddress (details a)).
Proof.
  intros a. subst a.
  destruct (analyzeFlows_members cfg host now input)
    as (_ & _ & _ & _ & _ & _ & _ & Hr & Hf).
  rewrite Hr, Hf. repeat split.
  - rewrite fold_left_bucketAdd. simpl. rewrite Qplus_0_l.
    erewrite filter_ext; [reflexivity|].
    intros r. simpl. now rewrite hourOf_localHour.
  - rewrite fold_left_bucketAdd. simpl. rewrite Qplus_0_l.
    erewrite filter_ext; [reflexivity|].
    intros f. simpl. now rewrite hourOf_localHour.
  - rewrite largeSellersByHour_bucket. apply flat_map_ext.
    intros e. unfold largeAt. f_equal. apply filter_ext.
    intros f. now rewrite hourOf_localHour.
Qed.

(** The three parts at work on a host whose offset changes between the
    events: hour 7 holds the reward and the three large deposits made
    after the change. *)
Lemma hour_buckets_follow_local_time_witness :
  let a := FlowAnalyzer.analyzeFlows FlowAnalyzer.defaultConfig Zone.dstHost
             5000 Zone.acrossChange in
  localHour Zone.dstHost 0 = 1%Z
  /\ localHour Zone.dstHost 20000 = 7%Z
  /\ orZero (HourObj.get 7 (hourlyRewards (trends a))) == 40
  /\ orZero (HourObj.get 7 (hourlyExchangeFlows (trends a))) == 38000
  /\ List.length
       (bucketAt
          (FlowAnalyzer.largeSellersByHour FlowAnalyzer.defaultConfig
             Zone.dstHost (exchangeFlowsByAddress (details a))) 7)
     = 3%nat.
Proof.
  destruct (hour_buckets_follow_local_time FlowAnalyzer.defaultConfig
              Zone.dstHost 5000 Zone.acrossChange 7) as (H1 & H2 & H3).
  split; [reflexivity|]. split; [reflexivity|].
  split; [rewrite H1; reflexivity|].
  split; [rewrite H2; reflexivity|].
  rewrite H3. reflexivity.
Defined.

(** C7 as stated fails: on a host one hour east of UTC a reward stamped 0
    (midnight UTC, hour [floor(0 / 3600) mod 24 = 0]) is accumulated under
    hour 1, and hour 0 stays empty. *)
Lemma utc_hour_bucket_counterexample :
  let a := FlowAnalyzer.analyzeFlows FlowAnalyzer.defaultConfig
             Sample.plusOneHost 5000 Sample.midnightReward in
  ((0 / 3600) mod 24 = 0)%Z
  /\ HourObj.get 0 (hourlyRewards (trends a)) = None
  /\ HourObj.get 1 (hourlyRewards (trends a)) = Some (0 + 100)
  /\ ~ orZero (HourObj.get ((0 / 3600) mod 24) (hourlyRewards (trends a)))
       == 100.
Proof.
  repeat split. intros H. vm_compute in H. discriminate.
Qed.

(* ------------------------------------------------------------------ *)
(** ** Coordinated selling *)

(** One pattern per hour that has an entry of at least three sellers, and
    none for any other hour. *)
Lemma coordinatedPattern_iff (h : Z) (sellers : list LargeSeller) (p : Pattern) :
  In p (FlowAnalyzer.coordinatedPattern (h, sellers))
  <-> (3 <= List.length sellers)%nat
      /\ p = {| p_type := "coordinated_selling"; p_severity := "high";
                p_details := CoordinatedSelling h sellers |}.
Proof.
  unfold FlowAnalyzer.coordinatedPattern.
  destruct (Nat.leb 3 (List.length sellers)) eqn:E.
  - apply Nat.leb_le in E. simpl. split.
    + intros [<- | []]. auto.
    + intros [_ ->]. auto.
  - apply Nat.leb_gt in E. simpl. split; [intros [] | intros [H _]; lia].
Qed.

(** [HourObj.set] keeps the keys in strictly ascending order, the order in
    which [Object.entries] lists them. *)
Lemma hourobj_set_keys_in {V : Type} (o : HourObj.t V) (k x : Z) (v : V) :
  In x (map fst (HourObj.set k v o)) -> x = k \/ In x (map fst o).
Proof.
  induction o as [|[k' v'] o IH]; simpl.
  - intros [<- | []]. auto.
  - destruct (Z.eqb k k') eqn:E; simpl.
    + intros [<- | H]; auto.
    + destruct (Z.ltb k k'); simpl.
      * intros [<- | [<- | H]]; auto.
      * intros [<- | H]; auto. destruct (IH H); auto.
Qed.

Lemma hourobj_set_sorted {V : Type} (o : HourObj.t V) (k : Z) (v : V) :
  StronglySorted Z.lt (map fst o) ->
  StronglySorted Z.lt (map fst (HourObj.set k v o)).
Proof.
  induction o as [|[k' v'] o IH]; simpl; intros Hs.
  - repeat constructor.
  - apply StronglySorted_inv in Hs. destruct Hs as [Hs Hall].
    destruct (Z.eqb k k') eqn:E; simpl.
    + constructor; assumption.
    + destruct (Z.ltb k k') eqn:L; simpl.
      * apply Z.ltb_lt in L. constructor.
        -- constructor; assumption.
        -- constructor; [exact L|].
           eapply Forall_impl; [|exact Hall]. intros x Hx. simpl in Hx. lia.
      * apply Z.ltb_ge in L. apply Z.eqb_neq in E. constructor.
        -- apply IH. exact Hs.
        -- apply Forall_forall. intros x Hx.
           apply hourobj_set_keys_in in Hx. destruct Hx as [-> | Hx].
           ++ lia.
           ++ revert x Hx. apply Forall_forall. exact Hall.
Qed.

Lemma hourobj_in_get {V : Type} (o : HourObj.t V) (k : Z) (v : V) :
  StronglySorted Z.lt (map fst o) ->
  (In (k, v) o <-> HourObj.get k o = Some v).
Proof.
  induction o as [|[k' v'] o IH]; simpl; intros Hs.
  - split; [intros [] | discriminate].
  - apply StronglySorted_inv in Hs. destruct Hs as [Hs Hall].
    destruct (Z.eqb k k') eqn:E.
    + apply Z.eqb_eq in E. subst k'. split.
      * intros [H | H]; [congruence|].
        apply (in_map fst) in H. simpl in H.
        rewrite Forall_forall in Hall. apply Hall in H. lia.
      * intros H. left. congruence.
    + apply Z.eqb_neq in E. rewrite <- (IH Hs). split.
      * intros [H | H]; [congruence | exact H].
      * auto.
Qed.

Lemma largeSellersByHour_sorted (cfg : FlowAnalyzer.Config) (host : Host)
  (byAddress : JsMap.t AddrFlows) :
  StronglySorted Z.lt
    (map fst (FlowAnalyzer.largeSellersByHour cfg host byAddress)).
Proof.
  unfold FlowAnalyzer.largeSellersByHour, JsMap.entries.
  assert (H0 : StronglySorted Z.lt
                 (map fst (@HourObj.empty (list LargeSeller))))
    by constructor.
  revert H0. generalize (@HourObj.empty (list LargeSeller)) as o.
  induction byAddress as [|[addr e] m IH]; intros o Ho; simpl; auto.
  apply IH. clear IH. revert o Ho.
  induction (af_flows e) as [|f fs IHf]; intros o Ho; simpl; auto.
  apply IHf. unfold FlowAnalyzer.largeFlowStep.
  destruct (Qgtb (f_amount f) (FlowAnalyzer.largeFlowThreshold cfg)); auto.
  now apply hourobj_set_sorted.
Qed.

(** What the code emits: a coordinated-selling pattern for the hour [h]
    with the sellers [l] exactly when [l] lists the large deposit flows
    grouped under [h], one entry per flow, and there are at least three of
    them; the hour fixes the pattern, so there is one per such hour. *)
Lemma coordinated_pattern_emitted (cfg : FlowAnalyzer.Config) (host : Host)
  (a : Analysis) (rc : list FlowAnalyzer.Receiver) (h : Z)
  (l : list LargeSeller) :
  In {| p_type := "coordinated_selling"; p_severity := "high";
        p_details := CoordinatedSelling h l |}
     (suspiciousPatterns
        (details (FlowAnalyzer.identifyPatterns cfg host a rc)))
  <-> l = flat_map (largeAt cfg (FlowAnalyzer.hourOf host) h)
                   (exchangeFlowsByAddress (details a))
      /\ (3 <= List.length l)%nat.
Proof.
  unfold FlowAnalyzer.identifyPatterns.
  cbn [details withDetails suspiciousPatterns set_suspiciousPatterns].
  rewrite <- largeSellersByHour_bucket.
  set (o := FlowAnalyzer.largeSellersByHour cfg host
              (exchangeFlowsByAddress (details a))).
  pose proof (largeSellersByHour_sorted cfg host
                (exchangeFlowsByAddress (details a))) as Hs.
  fold o in Hs. rewrite !in_app_iff, in_flat_map. split.
  - intros [[[h' l'] [Hin Hp]] | [H | H]].
    + apply coordinatedPattern_iff in Hp. destruct Hp as [Hlen Heq].
      injection Heq as -> ->.
      apply (hourobj_in_get o) in Hin; [|exact Hs].
      unfold bucketAt. rewrite Hin. auto.
    + destruct (Qgtb _ _); [destruct H as [H | []]|destruct H]; discriminate.
    + destruct (Nat.ltb _ _); [destruct H as [H | []]|destruct H];
        discriminate.
  - intros [Hl Hlen]. left. exists (h, l). split.
    + apply (hourobj_in_get o); [exact Hs|].
      unfold bucketAt in Hl. destruct (HourObj.get h o) as [l'|].
      * now subst.
      * subst l. simpl in Hlen. lia.
    + apply coordinatedPattern_iff. auto.
Qed.

(** The design document's scenario: three addresses, one large deposit
    each, same hour: one pattern, three participants. *)
Lemma coordinated_selling_scenario :
  let a := FlowAnalyzer.analyzeFlows FlowAnalyzer.defaultConfig utcHost 5000
             Sample.threeLargeSellers in
  suspiciousPatterns (details a)
  = [{| p_type := "coordinated_selling"; p_severity := "high";
        p_details :=
          CoordinatedSelling 0
            [{| ls_address := "A"; ls_amount := 15000; ls_exchange := "Venue" |};
             {| ls_address := "B"; ls_amount := 15000; ls_exchange := "Venue" |};
             {| ls_address := "C"; ls_amount := 15000; ls_exchange := "Venue" |}]
     |}].
Proof. reflexivity. Qed.

(** C6, on the failing input: a single address with three large deposits
    in one hour.  A coordinated-selling pattern of severity high is emitted
    with three sellers, all of them the same address. *)
Theorem coordinated_selling_single_address :
  let input := Sample.oneLargeSeller in
  let a := FlowAnalyzer.analyzeFlows FlowAnalyzer.defaultConfig utcHost 5000
             input in
  suspiciousPatterns (details a)
  = [{| p_type := "coordinated_selling"; p_severity := "high";
        p_details :=
          CoordinatedSelling 0
            [{| ls_address := "A"; ls_amount := 15000; ls_exchange := "Venue" |};
             {| ls_address := "A"; ls_amount := 15000; ls_exchange := "Venue" |};
             {| ls_address := "A"; ls_amount := 15000; ls_exchange := "Venue" |}]
     |}]
  /\ distinct (map f_from (deposits (FlowAnalyzer.exchangeFlows input)))
     = ["A"%string].
Proof. split; reflexivity. Qed.

(* ------------------------------------------------------------------ *)
(** ** The clock *)

Lemma analyzeRewards_restamp (host : Host) (rs : list Reward) (n : Z)
  (a : Analysis) :
  FlowAnalyzer.analyzeRewards host rs (restamp n a)
  = restamp n (FlowAnalyzer.analyzeRewards host rs a).
Proof. rewrite !analyzeRewards_members. reflexivity. Qed.

Lemma analyzeTransfers_restamp (ts : list Transfer) (n : Z) (a : Analysis) :
  FlowAnalyzer.analyzeTransfers ts (restamp n a)
  = restamp n (FlowAnalyzer.analyzeTransfers ts a).
Proof. rewrite !analyzeTransfers_members. reflexivity. Qed.
Lemma exchangeFlowsLoop_restamp (cfg : FlowAnalyzer.Config) (host : Host)
  (fs : list ExchangeFlow) (n : Z) (a : Analysis) :
  FlowAnalyzer.exchangeFlowsLoop cfg host fs (restamp n a)
  = (restamp n (fst (FlowAnalyzer.exchangeFlowsLoop cfg host fs a)),
     snd (FlowAnalyzer.exchangeFlowsLoop cfg host fs a)).
Proof.
  unfold FlowAnalyzer.exchangeFlowsLoop.
  rewrite (exchangeFlowsLoop_deposits cfg host fs (restamp n a, [])).
  rewrite (exchangeFlowsLoop_deposits cfg host fs (a, [])).
  assert (H : Forall (fun f => isDeposit (f_type f) = true) (deposits fs)).
  { apply Forall_forall. intros f Hf. apply filter_In in Hf. apply Hf. }
  rewrite (exchangeFlowsLoop_members cfg host (restamp n a) [] H).
  rewrite (exchangeFlowsLoop_members cfg host a [] H).
  reflexivity.
Qed.

Lemma analyzeExchangeFlows_restamp (cfg : FlowAnalyzer.Config) (host : Host)
  (fs : list ExchangeFlow) (n : Z) (a : Analysis) :
  FlowAnalyzer.analyzeExchangeFlows cfg host fs (restamp n a)
  = restamp n (FlowAnalyzer.analyzeExchangeFlows cfg host fs a).
Proof.
  unfold FlowAnalyzer.analyzeExchangeFlows.
  rewrite exchangeFlowsLoop_restamp.
  destruct (FlowAnalyzer.exchangeFlowsLoop cfg host fs a) as [a' tte].
  cbn [fst snd].
  destruct (Nat.ltb 0 (List.length tte)); reflexivity.
Qed.

Lemma calculateSellPressure_restamp (n : Z) (a : Analysis) :
  FlowAnalyzer.calculateSellPressure (restamp n a)
  = restamp n (FlowAnalyzer.calculateSellPressure a).
Proof. reflexivity. Qed.

Lemma identifyPatterns_restamp (cfg : FlowAnalyzer.Config) (host : Host)
  (rc : list FlowAnalyzer.Receiver) (n : Z) (a : Analysis) :
  FlowAnalyzer.identifyPatterns cfg host (restamp n a) rc
  = restamp n (FlowAnalyzer.identifyPatterns cfg host a rc).
Proof. reflexivity. Qed.

Lemma generateTrends_restamp (n : Z) (a : Analysis) :
  FlowAnalyzer.generateTrends (restamp n a)
  = restamp n (FlowAnalyzer.generateTrends a).
Proof.
  unfold FlowAnalyzer.generateTrends. cbn [trends restamp].
  destruct (fold_left _ _ _) as [[cr ce] series]. reflexivity.
Qed.

Lemma analyzeFlows_restamp (cfg : FlowAnalyzer.Config) (host : Host)
  (now now' : Z) (input : FlowAnalyzer.Input) :
  FlowAnalyzer.analyzeFlows cfg host now input
  = restamp now (FlowAnalyzer.analyzeFlows cfg host now' input).
Proof.
  unfold FlowAnalyzer.analyzeFlows.
  change (FlowAnalyzer.initialAnalysis now)
    with (restamp now (FlowAnalyzer.initialAnalysis now')).
  rewrite analyzeRewards_restamp, analyzeTransfers_restamp,
    analyzeExchangeFlows_restamp, calculateSellPressure_restamp,
    identifyPatterns_restamp.
  apply generateTrends_restamp.
Qed.

(** C1, as the code has it.  The clock reading taken at the start of
    [analyzeFlows] decides the members [timestamp] and [period] and nothing
    else: the result for one reading is the result for any other reading
    with those members replaced.  Summary, details and trends are functions
    of the input, the two thresholds and the host's time zone alone. *)
Theorem clock_decides_only_the_stamp (cfg : FlowAnalyzer.Config) (host : Host)
  (now now' : Z) (input : FlowAnalyzer.Input) :
  let a := FlowAnalyzer.analyzeFlows cfg host now input in
  let a' := FlowAnalyzer.analyzeFlows cfg host now' input in
  a = restamp now a'
  /\ summary a = summary a'
  /\ details a = details a'
  /\ trends a = trends a'
  /\ timestamp a = now
  /\ period_start a = (now - 86400)%Z
  /\ period_end a = now.
Proof.
  intros a a'. subst a a'.
  rewrite (analyzeFlows_restamp cfg host now now' input).
  generalize (FlowAnalyzer.analyzeFlows cfg host now' input) as r.
  intros r. cbn [restamp summary details trends timestamp period_start
                 period_end].
  auto 10.
Qed.

(** C1 as stated fails: the same input analysed at two clock readings
    gives two different results. *)
Lemma two_runs_differ_counterexample :
  FlowAnalyzer.analyzeFlows FlowAnalyzer.defaultConfig utcHost 0
    Sample.scenario
  <> FlowAnalyzer.analyzeFlows FlowAnalyzer.defaultConfig utcHost 1
       Sample.scenario.
Proof.
  intros H. apply (f_equal timestamp) in H. vm_compute in H. discriminate.
Qed.

(* ------------------------------------------------------------------ *)
(** ** Pagination *)

Section TransferPagination.

Import Collectors.

Variable RawTransfer : Type.
Variable convert : RawTransfer -> Transfer.
Variable api : Request -> Response RawTransfer.

Lemma iteration_spec (st : LoopState) :
  let r := api (pageRequest (page st)) in
  iteration convert api st
  = (if continues r then Continue else Break,
     {| page := if continues r then S (page st) else page st;
        collected := collected st ++ pageItems convert r;
        requests := requests st ++ [pageRequest (page st)] |}).
Proof.
  unfold iteration, continues, pageItems, pageRequest, pageLength.
  cbv zeta.
  destruct (api {| q_row := rowsPerPage; q_page := page st |})
    as [|[[|x items]|]]; rewrite ?app_nil_r; try reflexivity.
  remember (x :: items) as l eqn:El.
  destruct (Nat.ltb (List.length l) rowsPerPage) eqn:E.
  - apply Nat.ltb_lt in E.
    replace (Nat.leb rowsPerPage (List.length l)) with false; auto.
    symmetry. apply Nat.leb_gt. exact E.
  - apply Nat.ltb_ge in E.
    replace (Nat.leb rowsPerPage (List.length l)) with true; auto.
    symmetry. apply Nat.leb_le. exact E.
Qed.

(** What a finished loop has done: it asked for consecutive pages, every
    page before the last made it go on, the last one made it stop, and
    every record received was kept. *)
Lemma loop_spec (fuel : nat) :
  forall st st',
    loop convert api fuel st = Some st' ->
    (page st <= page st')%nat
    /\ requests st'
       = requests st
         ++ map pageRequest (seq (page st) (S (page st' - page st)))
    /\ collected st'
       = collected st
         ++ flat_map (fun p => pageItems convert (api (pageRequest p)))
              (seq (page st) (S (page st' - page st)))
    /\ (forall p, (page st <= p < page st')%nat ->
                  continues (api (pageRequest p)) = true)
    /\ continues (api (pageRequest (page st'))) = false.
Proof.
  induction fuel as [|fuel IH]; intros st st'; cbn [loop]; [discriminate|].
  rewrite iteration_spec. cbv zeta.
  destruct (continues (api (pageRequest (page st)))) eqn:E.
  - intros H. apply IH in H. cbn [page requests collected] in H.
    destruct H as (Hle & Hreq & Hcol & Hcont & Hlast).
    assert (Hd : (S (page st' - page st) = S (S (page st' - S (page st))))%nat)
      by lia.
    split; [lia|]. rewrite Hd.
    set (n := S (page st' - S (page st))) in *.
    cbn [seq map flat_map]. repeat split.
    + rewrite Hreq, <- app_assoc. reflexivity.
    + rewrite Hcol, <- app_assoc. reflexivity.
    + intros p Hp. destruct (Nat.eq_dec p (page st)) as [->|Hne]; auto.
      apply Hcont. lia.
    + exact Hlast.
  - intros H. injection H as <-. cbn [page requests collected].
    rewrite Nat.sub_diag. cbn [seq map flat_map].
    rewrite app_nil_r. repeat split; auto. intros p Hp. lia.
Qed.

(** The loop ends as soon as some page does not make it go on. *)
Lemma loop_returns (k : nat) :
  forall st,
    continues (api (pageRequest (page st + k))) = false ->
    exists st', loop convert api (S k) st = Some st'.
Proof.
  induction k as [|k IH]; intros st Hk; cbn [loop]; rewrite iteration_spec;
    cbv zeta.
  - rewrite Nat.add_0_r in Hk. rewrite Hk. eauto.
  - destruct (continues (api (pageRequest (page st)))) eqn:E; [|eauto].
    apply IH. cbn [page]. now rewrite <- plus_n_Sm in Hk.
Qed.

End TransferPagination.

Section ReceiverPagination.

Import Collectors.

Variable RawAccount : Type.
Variable Receiver : Type.
Variable convert : RawAccount -> Receiver.
Variable api : Request -> Response RawAccount.

Lemma receiversIteration_spec (limit : nat) (st : ReceiverState Receiver) :
  let r := api (pageRequest (rpage st)) in
  receiversIteration convert api limit st
  = (if nonEmptyPage r then Continue else Break,
     {| rpage := if nonEmptyPage r then S (rpage st) else rpage st;
        receivers :=
          receivers st
          ++ firstn (limit - List.length (receivers st))
               (match r with
                | Resolved (Some items) => map convert items
                | _ => []
                end);
        rrequests := rrequests st ++ [pageRequest (rpage st)] |}).
Proof.
  unfold receiversIteration, nonEmptyPage, pageRequest, pageLength.
  cbv zeta.
  destruct (api {| q_row := rowsPerPage; q_page := rpage st |})
    as [|[[|x items]|]]; cbn [List.length map];
    rewrite ?firstn_nil, ?app_nil_r; reflexivity.
Qed.

(** What a finished discovery has done: it asked for consecutive pages and
    every page before the last was not empty; it stopped either because the
    cap was reached, or on a failed request, a missing list or an empty
    page. *)
Lemma receiversLoop_spec (limit fuel : nat) :
  forall st st',
    receiversLoop convert api limit fuel st = Some st' ->
    (rpage st <= rpage st')%nat
    /\ (forall p, (rpage st <= p < rpage st')%nat ->
                  nonEmptyPage (api (pageRequest p)) = true)
    /\ ((limit <= List.length (receivers st')
         /\ rrequests st'
            = rrequests st
              ++ map pageRequest (seq (rpage st) (rpage st' - rpage st)))%nat
        \/ (nonEmptyPage (api (pageRequest (rpage st'))) = false
            /\ rrequests st'
               = rrequests st
                 ++ map pageRequest
                      (seq (rpage st) (S (rpage st' - rpage st))))).
Proof.
  induction fuel as [|fuel IH]; intros st st'; cbn [receiversLoop];
    [discriminate|].
  destruct (Nat.ltb (List.length (receivers st)) limit) eqn:Hcap.
  - rewrite receiversIteration_spec. cbv zeta.
    destruct (nonEmptyPage (api (pageRequest (rpage st)))) eqn:E.
    + intros H. apply IH in H. cbn [rpage receivers rrequests] in H.
      destruct H as (Hle & Hne & Hstop).
      split; [lia|]. split.
      * intros p Hp. destruct (Nat.eq_dec p (rpage st)) as [->|Hp']; auto.
        apply Hne. lia.
      * destruct Hstop as [[Hlim Hreq] | [Hlast Hreq]]; [left | right];
          (split; [assumption|]); rewrite Hreq, <- app_assoc; f_equal.
        -- replace (rpage st' - rpage st)%nat
             with (S (rpage st' - S (rpage st))) by lia.
           reflexivity.
        -- replace (S (rpage st' - rpage st))%nat
             with (S (S (rpage st' - S (rpage st)))) by lia.
           reflexivity.
    + intros H. injection H as <-. cbn [rpage receivers rrequests].
      split; [lia|]. split; [intros p Hp; lia|].
      right. split; [exact E|]. rewrite Nat.sub_diag. reflexivity.
  - intros H. injection H as <-.
    apply Nat.ltb_ge in Hcap.
    split; [lia|]. split; [intros p Hp; lia|].
    left. split; [exact Hcap|]. rewrite Nat.sub_diag. cbn [seq map].
    now rewrite app_nil_r.
Qed.

(** Every page that does not stop the discovery adds a receiver, so the
    cap bounds the number of requests. *)
Lemma receiversLoop_returns (limit : nat) :
  forall k st,
    (limit - List.length (receivers st) <= k)%nat ->
    exists st', receiversLoop convert api limit (S k) st = Some st'.
Proof.
  induction k as [|k IH]; intros st Hk; cbn [receiversLoop].
  - replace (Nat.ltb (List.length (receivers st)) limit) with false; eauto.
    symmetry. apply Nat.ltb_ge. lia.
  - destruct (Nat.ltb (List.length (receivers st)) limit) eqn:Hcap; eauto.
    apply Nat.ltb_lt in Hcap.
    rewrite receiversIteration_spec. cbv zeta.
    destruct (nonEmptyPage (api (pageRequest (rpage st)))) eqn:E; eauto.
    apply IH. cbn [receivers]. rewrite length_app.
    unfold nonEmptyPage, pageLength in E.
    destruct (api (pageRequest (rpage st))) as [|[[|x items]|]];
      try discriminate.
    rewrite length_firstn. cbn [map List.length]. lia.
Qed.

End ReceiverPagination.

(** C8, as the code has it.  A transfer lookup asks for pages 0, 1, 2, ...
    of 100 rows; a page of at least 100 records is always followed by a
    request for the next page, and a failed request, a missing list, an
    empty page or a short page is the last request; the loop returns once
    such a page exists, and it keeps every record it received.  The reward
    lookup issues one request per address, page 0 of 20 rows, whatever
    comes back.  The discovery of the top receivers asks for pages 0, 1, 2,
    ... of 100 rows and stops when the cap is reached or on a failed
    request, a missing list or an empty page (a short page that is not
    empty does not stop it); it always returns. *)
Theorem pagination_of_the_collectors :
  (forall (RawTransfer : Type) (convert : RawTransfer -> Transfer)
          (api : Collectors.Request -> Collectors.Response RawTransfer),
      (forall fuel st,
          Collectors.fetchTransfersForAddress convert api fuel = Some st ->
          Collectors.requests st
          = map pageRequest (seq 0 (S (Collectors.page st)))
          /\ Collectors.collected st
             = flat_map (fun p => pageItems convert (api (pageRequest p)))
                        (seq 0 (S (Collectors.page st)))
          /\ (forall p, (p < Collectors.page st)%nat ->
                        continues (api (pageRequest p)) = true)
          /\ continues (api (pageRequest (Collectors.page st))) = false
          /\ Collectors.fullPageFollowed api (Collectors.requests st))
      /\ (forall k, continues (api (pageRequest k)) = false ->
                    exists st,
                      Collectors.fetchTransfersForAddress convert api (S k)
                      = Some st))
  /\ (forall (RawReward : Type) (rawTimestamp : RawReward -> Z)
             (convert : string -> RawReward -> Reward)
             (api : string -> Collectors.Request
                    -> Collectors.Response RawReward)
             (startTime endTime : Z) (address : string),
         snd (Collectors.fetchRewardsOf rawTimestamp convert api
                startTime endTime address)
         = [{| Collectors.q_row := 20; Collectors.q_page := 0 |}])
  /\ (forall (RawAccount Receiver : Type) (convert : RawAccount -> Receiver)
             (api : Collectors.Request -> Collectors.Response RawAccount)
             (limit : nat),
         (forall fuel st,
             Collectors.fetchTopRewardReceivers convert api limit fuel
             = Some st ->
             (forall p, (p < Collectors.rpage st)%nat ->
                        nonEmptyPage (api (pageRequest p)) = true)
             /\ ((limit <= List.length (Collectors.receivers st)
                  /\ Collectors.rrequests st
                     = map pageRequest (seq 0 (Collectors.rpage st)))%nat
                 \/ (nonEmptyPage (api (pageRequest (Collectors.rpage st)))
                     = false
                     /\ Collectors.rrequests st
                        = map pageRequest
                            (seq 0 (S (Collectors.rpage st))))))
         /\ exists st,
             Collectors.fetchTopRewardReceivers convert api limit (S limit)
             = Some st).
Proof.
  split; [|split].
  - intros RawTransfer convert api. split.
    + intros fuel st H. unfold Collectors.fetchTransfersForAddress in H.
      apply loop_spec in H.
      cbn [Collectors.page Collectors.requests Collectors.collected app] in H.
      destruct H as (_ & Hreq & Hcol & Hcont & Hlast).
      rewrite Nat.sub_0_r in Hreq, Hcol.
      repeat split; auto.
      * intros p Hp. apply Hcont. lia.
      * intros q Hq Hfull. rewrite Hreq in Hq |- *.
        apply in_map_iff in Hq. destruct Hq as [p [<- Hp]].
        apply in_seq in Hp. change (Collectors.q_row (pageRequest p))
          with Collectors.rowsPerPage in Hfull.
        assert (Hc : continues (api (pageRequest p)) = true).
        { unfold continues. rewrite Hfull. apply Nat.leb_refl. }
        assert (Hlt : (p < Collectors.page st)%nat).
        { destruct (Nat.eq_dec p (Collectors.page st)) as [->|Hne];
            [congruence | lia]. }
        exists (pageRequest (S p)). split; [|reflexivity].
        apply in_map. apply in_seq. lia.
    + intros k Hk. unfold Collectors.fetchTransfersForAddress.
      apply loop_returns. exact Hk.
  - intros RawReward rawTimestamp convert api startTime endTime address.
    unfold Collectors.fetchRewardsOf, Collectors.rewardRequest.
    destruct (api address {| Collectors.q_row := 20; Collectors.q_page := 0 |})
      as [|[items|]]; reflexivity.
  - intros RawAccount Receiver convert api limit. split.
    + intros fuel st H. unfold Collectors.fetchTopRewardReceivers in H.
      apply receiversLoop_spec in H.
      cbn [Collectors.rpage Collectors.receivers Collectors.rrequests app]
        in H.
      destruct H as (_ & Hne & Hstop). rewrite Nat.sub_0_r in Hstop.
      split; [|exact Hstop]. intros p Hp. apply Hne. lia.
    + unfold Collectors.fetchTopRewardReceivers.
      apply receiversLoop_returns. cbn [Collectors.receivers List.length].
      lia.
Qed.

(** A short page that is not empty does not end the discovery: the next
    page is asked for. *)
Lemma discovery_goes_on_after_short_page :
  exists st,
    Collectors.fetchTopRewardReceivers (fun x : unit => x)
      Sample.shortThenEmpty 1000 3 = Some st
    /\ Collectors.pageLength (Sample.shortThenEmpty (pageRequest 0))
       = Some 50%nat
    /\ Collectors.rrequests st = [pageRequest 0; pageRequest 1]
    /\ List.length (Collectors.receivers st) = 50%nat.
Proof. eexists. repeat split. Qed.

Lemma pagination_of_the_collectors_witness :
  continues (Sample.twoPages (pageRequest 1)) = false
  /\ exists st,
      Collectors.fetchTransfersForAddress
        (fun _ : unit => Sample.transfer "A" "X" 1 1000) Sample.twoPages 2
      = Some st
      /\ Collectors.requests st
         = map pageRequest (seq 0 (S (Collectors.page st)))
      /\ Collectors.fullPageFollowed Sample.twoPages (Collectors.requests st).
Proof.
  split; [reflexivity|].
  destruct pagination_of_the_collectors as [H _].
  destruct (H unit (fun _ : unit => Sample.transfer "A" "X" 1 1000)
              Sample.twoPages) as [Hspec Hret].
  destruct (Hret 1%nat) as [st Hst]; [reflexivity|].
  exists st. split; [exact Hst|].
  destruct (Hspec 2%nat st Hst) as (Hreq & _ & _ & _ & Hfull).
  split; [exact Hreq | exact Hfull].
Defined.

(** C8 as stated fails: the reward lookup gets a page as long as the 20
    rows it asked for and asks for no further page. *)
Lemma reward_lookup_single_page_counterexample :
  let api := Sample.twentyRewards in
  let log :=
    snd (Collectors.fetchRewardsOf (fun _ => 0%Z)
           (fun address _ => Sample.reward address 1 0) api 0 10 "A") in
  Collectors.pageLength (api "A"%string Collectors.rewardRequest)
  = Some (Collectors.q_row Collectors.rewardRequest)
  /\ log = [Collectors.rewardRequest]
  /\ ~ Collectors.fullPageFollowed (api "A"%string) log.
Proof.
  repeat split. intros H.
  destruct (H Collectors.rewardRequest) as [q' [Hin Hpage]].
  - left. reflexivity.
  - reflexivity.
  - destruct Hin as [<- | []]. discriminate Hpage.
Qed.

(* ------------------------------------------------------------------ *)
(** ** Per-address aggregates *)

Lemma sumQ_snoc (l : list Q) (x : Q) : sumQ (l ++ [x]) == sumQ l + x.
Proof. rewrite sumQ_app. simpl. ring. Qed.

Lemma existsb_pointwise {A : Type} (f g : A -> bool) (l : list A) :
  (forall x, f x = g x) -> existsb f l = existsb g l.
Proof.
  intros H. induction l as [|x l IH]; simpl; auto. now rewrite H, IH.
Qed.

(** Every entry of the rewards map counts and sums the rewards it lists. *)
Lemma addReward_consistent (rs : list Reward) (m : JsMap.t AddrRewards) :
  (forall addr e, JsMap.get addr m = Some e ->
     ar_rewards e <> []
     /\ ar_count e = List.length (ar_rewards e)
     /\ ar_total e == sumQ (map r_amount (ar_rewards e))) ->
  forall addr e, JsMap.get addr (fold_left addReward rs m) = Some e ->
     ar_rewards e <> []
     /\ ar_count e = List.length (ar_rewards e)
     /\ ar_total e == sumQ (map r_amount (ar_rewards e)).
Proof.
  revert m. induction rs as [|r rs IH]; intros m Hm; simpl; [exact Hm|].
  apply IH. intros addr e. unfold addReward.
  destruct (String.eqb (r_address r) addr) eqn:E.
  - apply String.eqb_eq in E. subst addr. rewrite jsmap_get_set_same.
    intros H. injection H as <-. simpl.
    destruct (JsMap.get (r_address r) m) as [e0|] eqn:E0; simpl.
    + destruct (Hm _ _ E0) as (_ & Hc & Ht). repeat split.
      * intros Hnil. apply app_eq_nil in Hnil. destruct Hnil. discriminate.
      * rewrite length_app, Hc. simpl. lia.
      * rewrite map_app. cbn [map]. rewrite sumQ_snoc, Ht. reflexivity.
    + repeat split; [discriminate | ring].
  - apply String.eqb_neq in E. rewrite jsmap_get_set_other by assumption.
    apply Hm.
Qed.

Lemma addTransfer_consistent (ts : list Transfer) (m : JsMap.t AddrTransfers) :
  (forall addr e, JsMap.get addr m = Some e ->
     at_transfers e <> []
     /\ at_count e = List.length (at_transfers e)
     /\ at_total e == sumQ (map t_amount (at_transfers e))) ->
  forall addr e, JsMap.get addr (fold_left addTransfer ts m) = Some e ->
     at_transfers e <> []
     /\ at_count e = List.length (at_transfers e)
     /\ at_total e == sumQ (map t_amount (at_transfers e)).
Proof.
  revert m. induction ts as [|t ts IH]; intros m Hm; simpl; [exact Hm|].
  apply IH. intros addr e. unfold addTransfer.
  destruct (String.eqb (t_from t) addr) eqn:E.
  - apply String.eqb_eq in E. subst addr. rewrite jsmap_get_set_same.
    intros H. injection H as <-. simpl.
    destruct (JsMap.get (t_from t) m) as [e0|] eqn:E0; simpl.
    + destruct (Hm _ _ E0) as (_ & Hc & Ht). repeat split.
      * intros Hnil. apply app_eq_nil in Hnil. destruct Hnil. discriminate.
      * rewrite length_app, Hc. simpl. lia.
      * rewrite map_app. cbn [map]. rewrite sumQ_snoc, Ht. reflexivity.
    + repeat split; [discriminate | ring].
  - apply String.eqb_neq in E. rewrite jsmap_get_set_other by assumption.
    apply Hm.
Qed.

Lemma transfersAt_fold (ts : list Transfer) (m : JsMap.t AddrTransfers)
  (addr : string) :
  match JsMap.get addr (fold_left addTransfer ts m) with
  | Some e => at_transfers e
  | None => []
  end
  = match JsMap.get addr m with Some e => at_transfers e | None => [] end
    ++ transfersOf addr ts.
Proof.
  revert m. induction ts as [|t ts IH]; intros m; simpl.
  - now rewrite app_nil_r.
  - rewrite IH. unfold addTransfer.
    destruct (String.eqb (t_from t) addr) eqn:E.
    + apply String.eqb_eq in E. subst addr.
      rewrite jsmap_get_set_same. simpl.
      destruct (JsMap.get (t_from t) m); simpl.
      * now rewrite <- app_assoc.
      * reflexivity.
    + apply String.eqb_neq in E. now rewrite jsmap_get_set_other.
Qed.

Lemma addFlow_consistent (cfg : FlowAnalyzer.Config)
  (rmap : JsMap.t AddrRewards) (fs : list ExchangeFlow)
  (m : JsMap.t AddrFlows) :
  (forall addr e, JsMap.get addr m = Some e ->
     af_flows e <> []
     /\ af_count e = List.length (af_flows e)
     /\ af_total e == sumQ (map f_amount (af_flows e))
     /\ af_quickSell e = existsb (isQuick cfg rmap) (af_flows e)) ->
  forall addr e, JsMap.get addr (fold_left (addFlow cfg rmap) fs m) = Some e ->
     af_flows e <> []
     /\ af_count e = List.length (af_flows e)
     /\ af_total e == sumQ (map f_amount (af_flows e))
     /\ af_quickSell e = existsb (isQuick cfg rmap) (af_flows e).
Proof.
  revert m. induction fs as [|f fs IH]; intros m Hm; simpl; [exact Hm|].
  apply IH. intros addr e. unfold addFlow.
  destruct (String.eqb (f_from f) addr) eqn:E.
  - apply String.eqb_eq in E. subst addr. rewrite jsmap_get_set_same.
    intros H. injection H as <-. simpl.
    destruct (JsMap.get (f_from f) m) as [e0|] eqn:E0; simpl.
    + destruct (Hm _ _ E0) as (_ & Hc & Ht & Hq). repeat split.
      * intros Hnil. apply app_eq_nil in Hnil. destruct Hnil. discriminate.
      * rewrite length_app, Hc. simpl. lia.
      * rewrite map_app. cbn [map]. rewrite sumQ_snoc, Ht. reflexivity.
      * rewrite existsb_app, Hq. simpl.
        destruct (isQuick cfg rmap f); simpl.
        -- now rewrite orb_true_r.
        -- now rewrite !orb_false_r.
    + repeat split; try discriminate; try ring.
  - apply String.eqb_neq in E. rewrite jsmap_get_set_other by assumption.
    apply Hm.
Qed.

(** X1.  After [analyzeFlows], the reward total is the sum of all reward
    amounts, and the entry of an address in [rewardsByAddress] lists the
    rewards of that address in input order, with their number and their
    sum; an address has an entry exactly when it has a reward. *)
Theorem rewards_by_address (cfg : FlowAnalyzer.Config) (host : Host) (now : Z)
  (input : FlowAnalyzer.Input) (addr : string) :
  let a := FlowAnalyzer.analyzeFlows cfg host now input in
  let rs := rewardsOf addr (FlowAnalyzer.rewards input) in
  totalRewards (summary a) == sumQ (map r_amount (FlowAnalyzer.rewards input))
  /\ match JsMap.get addr (rewardsByAddress (details a)) with
     | Some e =>
         rs <> [] /\ ar_rewards e = rs
         /\ ar_count e = List.length rs
         /\ ar_total e == sumQ (map r_amount rs)
     | None => rs = []
     end.
Proof.
  intros a rs. subst a.
  destruct (analyzeFlows_members cfg host now input)
    as (Hr & _ & _ & Ht & _).
  rewrite Hr, Ht. split.
  - rewrite fold_left_sumQ. apply Qplus_0_l.
  - pose proof (rewardsAt_fold (FlowAnalyzer.rewards input) JsMap.empty addr)
      as Hat.
    unfold rewardsAt in Hat. simpl in Hat. fold rs in Hat.
    destruct (JsMap.get addr (fold_left addReward (FlowAnalyzer.rewards input)
                                        JsMap.empty)) as [e|] eqn:E.
    + destruct (addReward_consistent (FlowAnalyzer.rewards input) JsMap.empty)
        with (addr := addr) (e := e) as (Hne & Hc & Hs); auto.
      { intros ? ? H. discriminate H. }
      rewrite <- Hat. auto.
    + symmetry. exact Hat.
Qed.

Lemma analyzeFlows_totalTransfers (cfg : FlowAnalyzer.Config) (host : Host)
  (now : Z) (input : FlowAnalyzer.Input) :
  totalTransfers (summary (FlowAnalyzer.analyzeFlows cfg host now input))
  = fold_left (fun acc t => acc + t_amount t) (FlowAnalyzer.transfers input) 0.
Proof.
  unfold FlowAnalyzer.analyzeFlows.
  destruct (generateTrends_members
              (FlowAnalyzer.identifyPatterns cfg host
                 (FlowAnalyzer.calculateSellPressure
                    (FlowAnalyzer.analyzeExchangeFlows cfg host
                       (FlowAnalyzer.exchangeFlows input)
                       (FlowAnalyzer.analyzeTransfers
                          (FlowAnalyzer.transfers input)
                          (FlowAnalyzer.analyzeRewards host
                             (FlowAnalyzer.rewards input)
                             (FlowAnalyzer.initialAnalysis now)))))
                 (FlowAnalyzer.topReceivers input))) as (-> & _).
  unfold FlowAnalyzer.identifyPatterns, FlowAnalyzer.calculateSellPressure.
  cbn [summary withDetails withSummary set_holders set_sellPressurePercent
       totalTransfers].
  unfold FlowAnalyzer.analyzeExchangeFlows.
  rewrite aggregation_state.
  destruct (Nat.ltb 0 _); reflexivity.
Qed.

(** X2.  After [analyzeFlows], the transfer total is the sum of all
    transfer amounts, and the entry of an address in [transfersByAddress]
    lists the transfers sent from it in input order, with their number and
    their sum; an address has an entry exactly when it sent a transfer. *)
Theorem transfers_by_address (cfg : FlowAnalyzer.Config) (host : Host)
  (now : Z) (input : FlowAnalyzer.Input) (addr : string) :
  let a := FlowAnalyzer.analyzeFlows cfg host now input in
  let ts := transfersOf addr (FlowAnalyzer.transfers input) in
  totalTransfers (summary a)
  == sumQ (map t_amount (FlowAnalyzer.transfers input))
  /\ match JsMap.get addr (transfersByAddress (details a)) with
     | Some e =>
         ts <> [] /\ at_transfers e = ts
         /\ at_count e = List.length ts
         /\ at_total e == sumQ (map t_amount ts)
     | None => ts = []
     end.
Proof.
  intros a ts. subst a. split.
  { rewrite analyzeFlows_totalTransfers, fold_left_sumQ. apply Qplus_0_l. }
  destruct (analyzeFlows_members cfg host now input) as (_ & Ht & _).
  rewrite Ht.
  pose proof (transfersAt_fold (FlowAnalyzer.transfers input) JsMap.empty addr)
    as Hat.
  simpl in Hat. fold ts in Hat.
  destruct (JsMap.get addr (fold_left addTransfer
                              (FlowAnalyzer.transfers input) JsMap.empty))
    as [e|] eqn:E.
  - destruct (addTransfer_consistent (FlowAnalyzer.transfers input)
                JsMap.empty) with (addr := addr) (e := e)
      as (Hne & Hc & Hs); auto.
    { intros ? ? H. discriminate H. }
    rewrite <- Hat. auto.
  - symmetry. exact Hat.
Qed.

(** X3.  The entry of an address in [exchangeFlowsByAddress] lists its
    deposit flows in input order, with their number and their sum, and its
    [quickSell] flag is set exactly when one of those deposits is quick
    (timed against the address's last pushed reward); an address has an
    entry exactly when it has a deposit flow. *)
Theorem exchange_flows_by_address (cfg : FlowAnalyzer.Config) (host : Host)
  (now : Z) (input : FlowAnalyzer.Input) (addr : string) :
  let a := FlowAnalyzer.analyzeFlows cfg host now input in
  let fs := depositsOf addr (FlowAnalyzer.exchangeFlows input) in
  match JsMap.get addr (exchangeFlowsByAddress (details a)) with
  | Some e =>
      fs <> [] /\ af_flows e = fs
      /\ af_count e = List.length fs
      /\ af_total e == sumQ (map f_amount fs)
      /\ af_quickSell e
         = existsb (quickAgainst cfg (FlowAnalyzer.rewards input)) fs
  | None => fs = []
  end.
Proof.
  intros a fs. subst a.
  destruct (analyzeFlows_members cfg host now input) as (_ & _ & Hf & _).
  rewrite Hf.
  set (rmap := fold_left addReward (FlowAnalyzer.rewards input) JsMap.empty).
  pose proof (flowsAt_fold cfg rmap
                (deposits (FlowAnalyzer.exchangeFlows input)) JsMap.empty addr)
    as Hat.
  unfold flowsAt in Hat. simpl in Hat.
  fold (depositsOf addr (FlowAnalyzer.exchangeFlows input)) in Hat.
  fold fs in Hat.
  destruct (JsMap.get addr
              (fold_left (addFlow cfg rmap)
                 (deposits (FlowAnalyzer.exchangeFlows input)) JsMap.empty))
    as [e|] eqn:E.
  - destruct (addFlow_consistent cfg rmap
                (deposits (FlowAnalyzer.exchangeFlows input)) JsMap.empty)
      with (addr := addr) (e := e) as (Hne & Hc & Hs & Hq); auto.
    { intros ? ? H. discriminate H. }
    rewrite <- Hat. repeat split; auto.
    rewrite Hq. apply existsb_pointwise. intros f. apply isQuick_input.
  - symmetry. exact Hat.
Qed.

(* ------------------------------------------------------------------ *)
(** ** The later passes *)

Lemma analyzeFlows_unfold (cfg : FlowAnalyzer.Config) (host : Host) (now : Z)
  (input : FlowAnalyzer.Input) :
  FlowAnalyzer.analyzeFlows cfg host now input
  = FlowAnalyzer.generateTrends
      (FlowAnalyzer.identifyPatterns cfg host
         (FlowAnalyzer.calculateSellPressure
            (afterAggregation cfg host now input))
         (FlowAnalyzer.topReceivers input)).
Proof. reflexivity. Qed.

Lemma sumZ_totalZ (l : list Z) : FlowAnalyzer.sumZ l = totalZ l.
Proof.
  unfold FlowAnalyzer.sumZ, totalZ.
  assert (H : forall acc, fold_left Z.add l acc = (acc + fold_right Z.add 0 l)%Z).
  { induction l as [|x l IH]; intros acc; simpl; [lia|]. rewrite IH. lia. }
  rewrite H. lia.
Qed.

Lemma recordedTimeDiffs_state (cfg : FlowAnalyzer.Config) (host : Host)
  (now : Z) (input : FlowAnalyzer.Input) :
  snd (afterFlowLoop cfg host now input) = recordedTimeDiffs input.
Proof.
  unfold afterFlowLoop, recordedTimeDiffs. rewrite aggregation_state.
  cbn [snd]. apply flat_map_ext. intros f. apply timeDiffOf_input.
Qed.

(** The summary after the three aggregation passes. *)
Lemma afterAggregation_members (cfg : FlowAnalyzer.Config) (host : Host)
  (now : Z) (input : FlowAnalyzer.Input) :
  let a := afterAggregation cfg host now input in
  let st := afterFlowLoop cfg host now input in
  let tds := recordedTimeDiffs input in
  details a = details (fst st)
  /\ trends a = trends (fst st)
  /\ totalRewards (summary a) = totalRewards (summary (fst st))
  /\ totalTransfers (summary a) = totalTransfers (summary (fst st))
  /\ exchangeFlow (summary a) = exchangeFlow (summary (fst st))
  /\ sellPressurePercent (summary a) = 0
  /\ quickSellers (summary a) = quickSellers (summary (fst st))
  /\ holders (summary a) = O
  /\ averageTimeToExchange (summary a)
     = (if Nat.ltb 0 (List.length tds)
        then inject_Z (totalZ tds) / inject_Z (Z.of_nat (List.length tds))
             / 3600
        else 0).
Proof.
  intros a st tds. subst a st tds.
  rewrite <- (recordedTimeDiffs_state cfg host now input).
  unfold afterAggregation, FlowAnalyzer.analyzeExchangeFlows, afterFlowLoop.
  rewrite aggregation_state. cbn [fst snd].
  rewrite sumZ_totalZ.
  destruct (Nat.ltb 0 _); cbn; repeat split; reflexivity.
Qed.

Lemma deposits_idem (fs : list ExchangeFlow) : deposits (deposits fs) = deposits fs.
Proof.
  unfold deposits. induction fs as [|f fs IH]; simpl; auto.
  destruct (isDeposit (f_type f)) eqn:E; simpl; rewrite ?E, IH; reflexivity.
Qed.

(** X4.  Withdrawal records never influence the analysis: dropping every
    flow that is not a deposit from the input leaves the whole result
    unchanged. *)
Theorem withdrawals_are_ignored (cfg : FlowAnalyzer.Config) (host : Host)
  (now : Z) (input : FlowAnalyzer.Input) :
  FlowAnalyzer.analyzeFlows cfg host now input
  = FlowAnalyzer.analyzeFlows cfg host now
      (withFlows (deposits (FlowAnalyzer.exchangeFlows input)) input).
Proof.
  rewrite !analyzeFlows_unfold. unfold afterAggregation, withFlows.
  cbn [FlowAnalyzer.rewards FlowAnalyzer.transfers FlowAnalyzer.exchangeFlows
       FlowAnalyzer.topReceivers].
  unfold FlowAnalyzer.analyzeExchangeFlows, FlowAnalyzer.exchangeFlowsLoop.
  rewrite (exchangeFlowsLoop_deposits cfg host
             (FlowAnalyzer.exchangeFlows input)).
  rewrite (exchangeFlowsLoop_deposits cfg host
             (deposits (FlowAnalyzer.exchangeFlows input))).
  rewrite deposits_idem. reflexivity.
Qed.

Lemma analyzeFlows_average (cfg : FlowAnalyzer.Config) (host : Host) (now : Z)
  (input : FlowAnalyzer.Input) :
  averageTimeToExchange (summary (FlowAnalyzer.analyzeFlows cfg host now input))
  = averageTimeToExchange (summary (afterAggregation cfg host now input)).
Proof.
  rewrite analyzeFlows_unfold.
  destruct (generateTrends_members
              (FlowAnalyzer.identifyPatterns cfg host
                 (FlowAnalyzer.calculateSellPressure
                    (afterAggregation cfg host now input))
                 (FlowAnalyzer.topReceivers input))) as (-> & _).
  reflexivity.
Qed.

(** X5.  [averageTimeToExchange] is the mean of the recorded time
    differences, in hours; it stays 0 when no time difference was
    recorded. *)
Theorem average_time_to_exchange (cfg : FlowAnalyzer.Config) (host : Host)
  (now : Z) (input : FlowAnalyzer.Input) :
  let s := summary (FlowAnalyzer.analyzeFlows cfg host now input) in
  let tds := recordedTimeDiffs input in
  (tds = [] -> averageTimeToExchange s = 0)
  /\ (tds <> [] ->
      averageTimeToExchange s * (3600 * inject_Z (Z.of_nat (List.length tds)))
      == inject_Z (totalZ tds)).
Proof.
  intros s tds. subst s. rewrite analyzeFlows_average.
  destruct (afterAggregation_members cfg host now input)
    as (_ & _ & _ & _ & _ & _ & _ & _ & ->).
  fold tds. split.
  - intros ->. reflexivity.
  - intros Hne. destruct tds as [|td tds']; [congruence|].
    cbn [List.length Nat.ltb Nat.leb].
    set (n := inject_Z (Z.of_nat (S (List.length tds')))).
    assert (Hn : ~ n == 0).
    { unfold n. intros H. unfold Qeq in H. simpl in H. lia. }
    field. exact Hn.
Qed.

Lemma average_time_to_exchange_witness :
  recordedTimeDiffs Sample.twoQuickDeposits <> []
  /\ averageTimeToExchange
       (summary (FlowAnalyzer.analyzeFlows FlowAnalyzer.defaultConfig utcHost
                   5000 Sample.twoQuickDeposits))
     * (3600 * inject_Z (Z.of_nat
                           (List.length
                              (recordedTimeDiffs Sample.twoQuickDeposits))))
     == inject_Z (totalZ (recordedTimeDiffs Sample.twoQuickDeposits)).
Proof.
  assert (H : recordedTimeDiffs Sample.twoQuickDeposits <> [])
    by discriminate.
  split; [exact H|].
  apply (proj2 (average_time_to_exchange FlowAnalyzer.defaultConfig utcHost
                  5000 Sample.twoQuickDeposits) H).
Defined.

(* ------------------------------------------------------------------ *)
(** ** Sorting *)

Lemma In_firstn_aux {A : Type} (n : nat) (l : list A) (x : A) :
  In x (firstn n l) -> In x l.
Proof.
  revert l. induction n as [|n IH]; intros [|y l]; simpl; auto.
  - intros [].
  - intros [H | H]; auto.
Qed.

Lemma In_skipn_aux {A : Type} (n : nat) (l : list A) (x : A) :
  In x (skipn n l) -> In x l.
Proof.
  revert l. induction n as [|n IH]; intros [|y l]; simpl; auto.
Qed.

Section StableSort.

Context {A : Type}.
Variable before : A -> A -> bool.

Lemma insertBy_perm (x : A) (l : list A) :
  Permutation (insertBy before x l) (x :: l).
Proof.
  induction l as [|y l IH]; simpl; auto.
  destruct (before x y); auto.
  rewrite IH. apply perm_swap.
Qed.

Lemma stableSort_perm (l : list A) : Permutation (stableSort before l) l.
Proof.
  unfold stableSort. induction l as [|x l IH]; simpl; auto.
  rewrite insertBy_perm. auto.
Qed.

Hypothesis before_total : forall x y, before x y = false -> before y x = true.
Hypothesis before_trans :
  forall x y z, before x y = true -> before y z = true -> before x z = true.

Lemma insertBy_sorted (x : A) (l : list A) :
  StronglySorted (fun a b => before a b = true) l ->
  StronglySorted (fun a b => before a b = true) (insertBy before x l).
Proof.
  induction 1 as [|y l Hs IH Hall]; simpl.
  - repeat constructor.
  - destruct (before x y) eqn:E.
    + constructor; [constructor; assumption|].
      constructor; [exact E|].
      eapply Forall_impl; [|exact Hall]. intros z Hz. simpl in Hz.
      eapply before_trans; eauto.
    + constructor; [exact IH|].
      apply Forall_forall. intros z Hz.
      apply (Permutation_in _ (insertBy_perm x l)) in Hz.
      destruct Hz as [<- | Hz].
      * now apply before_total.
      * revert z Hz. apply Forall_forall. exact Hall.
Qed.

Lemma stableSort_sorted (l : list A) :
  StronglySorted (fun a b => before a b = true) (stableSort before l).
Proof.
  unfold stableSort. induction l as [|x l IH]; simpl.
  - constructor.
  - now apply insertBy_sorted.
Qed.

Lemma sorted_firstn (n : nat) (l : list A) :
  StronglySorted (fun a b => before a b = true) l ->
  StronglySorted (fun a b => before a b = true) (firstn n l).
Proof.
  revert l. induction n as [|n IH]; intros l Hs; simpl; [constructor|].
  destruct l as [|z l]; [constructor|].
  apply StronglySorted_inv in Hs. destruct Hs as [Hs Hall].
  constructor; [now apply IH|].
  apply Forall_forall. intros y Hy. rewrite Forall_forall in Hall.
  apply Hall. eapply (In_firstn_aux n). exact Hy.
Qed.

(** In a sorted list, whatever is among the first [n] comes before
    whatever is not. *)
Lemma sorted_firstn_skipn (n : nat) (l : list A) (x y : A) :
  StronglySorted (fun a b => before a b = true) l ->
  In x (firstn n l) -> In y (skipn n l) -> before x y = true.
Proof.
  revert l. induction n as [|n IH]; intros l Hs Hx Hy; simpl in *.
  - destruct Hx.
  - destruct l as [|z l]; [destruct Hx|].
    apply StronglySorted_inv in Hs. destruct Hs as [Hs Hall].
    destruct Hx as [<- | Hx].
    + rewrite Forall_forall in Hall. apply Hall.
      eapply (In_skipn_aux n). exact Hy.
    + eapply IH; eauto.
Qed.

End StableSort.

(* ------------------------------------------------------------------ *)
(** ** Rankings *)

Lemma StronglySorted_weaken {A : Type} (R S : A -> A -> Prop) (l : list A) :
  (forall x y, R x y -> S x y) -> StronglySorted R l -> StronglySorted S l.
Proof.
  intros HRS. induction 1 as [|x l Hs IH Hall]; constructor; auto.
  eapply Forall_impl; [|exact Hall]. auto.
Qed.

Lemma jsmap_get_in {V : Type} (m : JsMap.t V) (k : string) (v : V) :
  JsMap.get k m = Some v -> In (k, v) m.
Proof.
  induction m as [|[k' v'] m IH]; simpl; [discriminate|].
  destruct (String.eqb k k') eqn:E.
  - apply String.eqb_eq in E. subst k'. intros H. injection H as ->. auto.
  - auto.
Qed.

Lemma jsmap_in_get {V : Type} (m : JsMap.t V) (k : string) (v : V) :
  NoDup (JsMap.keys m) -> In (k, v) m -> JsMap.get k m = Some v.
Proof.
  unfold JsMap.keys. induction m as [|[k' v'] m IH]; simpl; [intros _ []|].
  intros Hnd. apply NoDup_cons_iff in Hnd. destruct Hnd as [Hni Hnd].
  destruct (String.eqb k k') eqn:E.
  - apply String.eqb_eq in E. subst k'. intros [H | H]; [congruence|].
    exfalso. apply Hni. apply (in_map fst) in H. exact H.
  - apply String.eqb_neq in E. intros [H | H]; [congruence | auto].
Qed.

Lemma amount_order_total (x y : Q) :
  Qle_bool y x = false -> Qle_bool x y = true.
Proof.
  intros H. apply Qle_bool_iff. apply Qlt_le_weak. apply Qnot_le_lt.
  intros Hle. apply Qle_bool_iff in Hle. congruence.
Qed.

Lemma amount_order_trans (x y z : Q) :
  Qle_bool y x = true -> Qle_bool z y = true -> Qle_bool z x = true.
Proof.
  rewrite !Qle_bool_iff. intros H1 H2. eapply Qle_trans; eauto.
Qed.

Lemma analyzeFlows_rankings (cfg : FlowAnalyzer.Config) (host : Host) (now : Z)
  (input : FlowAnalyzer.Input) :
  let a := FlowAnalyzer.analyzeFlows cfg host now input in
  let exchangeAddresses :=
    FlowAnalyzer.setOf [] (JsMap.keys (exchangeFlowsByAddress (details a))) in
  topSellers (details a)
  = firstn 10
      (stableSort (fun x y => Qle_bool (s_amount y) (s_amount x))
         (map FlowAnalyzer.sellerOf (exchangeFlowsByAddress (details a))))
  /\ topHolders (details a)
     = firstn 10
         (stableSort (fun x y => Qle_bool (h_rewards y) (h_rewards x))
            (map FlowAnalyzer.holderOf
               (filter
                  (fun e => negb (FlowAnalyzer.setHas (fst e) exchangeAddresses))
                  (rewardsByAddress (details a))))).
Proof.
  cbv zeta. rewrite analyzeFlows_unfold.
  destruct (generateTrends_members
              (FlowAnalyzer.identifyPatterns cfg host
                 (FlowAnalyzer.calculateSellPressure
                    (afterAggregation cfg host now input))
                 (FlowAnalyzer.topReceivers input))) as (_ & -> & _).
  split; reflexivity.
Qed.

Lemma exchangeFlowsByAddress_keys (cfg : FlowAnalyzer.Config) (host : Host)
  (now : Z) (input : FlowAnalyzer.Input) :
  JsMap.keys (exchangeFlowsByAddress
                (details (FlowAnalyzer.analyzeFlows cfg host now input)))
  = distinct (map f_from (deposits (FlowAnalyzer.exchangeFlows input))).
Proof.
  destruct (analyzeFlows_members cfg host now input) as (_ & _ & -> & _).
  apply keys_addFlow.
Qed.

(** X6.  [topSellers] holds the ten depositing addresses with the largest
    deposit totals (all of them when there are fewer), largest first: each
    listed seller copies the entry of its address, and no depositing
    address left out has a larger total than a listed one. *)
Theorem top_sellers_ranking (cfg : FlowAnalyzer.Config) (host : Host) (now : Z)
  (input : FlowAnalyzer.Input) :
  let a := FlowAnalyzer.analyzeFlows cfg host now input in
  let top := topSellers (details a) in
  let byAddress := exchangeFlowsByAddress (details a) in
  List.length top = Nat.min 10 (List.length byAddress)
  /\ StronglySorted (fun x y => s_amount y <= s_amount x) top
  /\ (forall s, In s top ->
        exists e, JsMap.get (s_address s) byAddress = Some e
                  /\ s_amount s = af_total e
                  /\ s_count s = af_count e
                  /\ s_quickSell s = af_quickSell e)
  /\ (forall addr e s,
        JsMap.get addr byAddress = Some e ->
        ~ In addr (map s_address top) ->
        In s top ->
        af_total e <= s_amount s).
Proof.
  intros a top byAddress.
  destruct (analyzeFlows_rankings cfg host now input) as [Htop _].
  fold a in Htop. fold byAddress in Htop. fold top in Htop.
  set (before := fun x y : Seller => Qle_bool (s_amount y) (s_amount x)) in *.
  set (all := map FlowAnalyzer.sellerOf byAddress) in *.
  assert (Hsorted : StronglySorted (fun x y => before x y = true)
                      (stableSort before all)).
  { apply stableSort_sorted; unfold before; intros.
    - now apply amount_order_total.
    - eapply amount_order_trans; eauto. }
  assert (Hnd : NoDup (JsMap.keys byAddress)).
  { unfold byAddress, a. rewrite exchangeFlowsByAddress_keys.
    apply distinct_NoDup. }
  repeat split.
  - rewrite Htop, length_firstn.
    rewrite (Permutation_length (stableSort_perm before all)).
    unfold all. now rewrite length_map.
  - rewrite Htop.
    eapply StronglySorted_weaken;
      [|apply (sorted_firstn before 10); exact Hsorted].
    intros x y H. unfold before in H. now apply Qle_bool_iff.
  - intros s Hs. rewrite Htop in Hs. apply In_firstn_aux in Hs.
    apply (Permutation_in _ (stableSort_perm before all)) in Hs.
    unfold all in Hs. apply in_map_iff in Hs.
    destruct Hs as [[addr e] [<- Hin]]. exists e. simpl.
    split; [|auto]. now apply jsmap_in_get.
  - intros addr e s Hget Hout Hs.
    apply jsmap_get_in in Hget.
    assert (Hall : In (FlowAnalyzer.sellerOf (addr, e)) (stableSort before all)).
    { apply (Permutation_in _ (Permutation_sym (stableSort_perm before all))).
      unfold all. now apply in_map. }
    rewrite <- (firstn_skipn 10 (stableSort before all)) in Hall.
    apply in_app_or in Hall. destruct Hall as [Hin | Hin].
    + exfalso. apply Hout. rewrite Htop.
      apply (in_map s_address) in Hin. exact Hin.
    + rewrite Htop in Hs.
      assert (H : before s (FlowAnalyzer.sellerOf (addr, e)) = true).
      { eapply sorted_firstn_skipn; [exact Hsorted | exact Hs | exact Hin]. }
      unfold before in H. simpl in H. now apply Qle_bool_iff.
Qed.

Lemma top_sellers_ranking_witness :
  let a := FlowAnalyzer.analyzeFlows FlowAnalyzer.defaultConfig utcHost 5000
             Sample.threeLargeSellers in
  In {| s_address := "B"; s_amount := 0 + 15000; s_count := 1;
        s_quickSell := false |} (topSellers (details a))
  /\ exists e,
      JsMap.get "B" (exchangeFlowsByAddress (details a)) = Some e
      /\ 0 + 15000 = af_total e.
Proof.
  assert (H : In {| s_address := "B"; s_amount := 0 + 15000; s_count := 1;
                    s_quickSell := false |}
                 (topSellers
                    (details
                       (FlowAnalyzer.analyzeFlows FlowAnalyzer.defaultConfig
                          utcHost 5000 Sample.threeLargeSellers)))).
  { right. left. reflexivity. }
  split; [exact H|].
  destruct (top_sellers_ranking FlowAnalyzer.defaultConfig utcHost 5000
              Sample.threeLargeSellers) as (_ & _ & Hin & _).
  destruct (Hin _ H) as [e [Hget [Hamt _]]].
  exists e. split; [exact Hget | exact Hamt].
Defined.

Lemma rewardsByAddress_keys (cfg : FlowAnalyzer.Config) (host : Host)
  (now : Z) (input : FlowAnalyzer.Input) :
  JsMap.keys (rewardsByAddress
                (details (FlowAnalyzer.analyzeFlows cfg host now input)))
  = distinct (map r_address (FlowAnalyzer.rewards input)).
Proof.
  destruct (analyzeFlows_members cfg host now input) as (-> & _).
  apply keys_addReward.
Qed.

Lemma exchangeAddresses_has (cfg : FlowAnalyzer.Config) (host : Host)
  (now : Z) (input : FlowAnalyzer.Input) (addr : string) :
  FlowAnalyzer.setHas addr
    (FlowAnalyzer.setOf []
       (JsMap.keys
          (exchangeFlowsByAddress
             (details (FlowAnalyzer.analyzeFlows cfg host now input)))))
  = hasDeposit (FlowAnalyzer.exchangeFlows input) addr.
Proof.
  rewrite exchangeFlowsByAddress_keys.
  fold (distinct (distinct (map f_from
                              (deposits (FlowAnalyzer.exchangeFlows input))))).
  now rewrite setOf_idem, setHas_setOf, hasDeposit_from.
Qed.

Lemma holders_count (cfg : FlowAnalyzer.Config) (host : Host) (now : Z)
  (input : FlowAnalyzer.Input) :
  holders (summary (FlowAnalyzer.analyzeFlows cfg host now input))
  = List.length
      (filter (fun addr => negb (hasDeposit (FlowAnalyzer.exchangeFlows input)
                                            addr))
              (distinct (map r_address (FlowAnalyzer.rewards input)))).
Proof.
  rewrite analyzeFlows_unfold.
  destruct (generateTrends_members
              (FlowAnalyzer.identifyPatterns cfg host
                 (FlowAnalyzer.calculateSellPressure
                    (afterAggregation cfg host now input))
                 (FlowAnalyzer.topReceivers input))) as (-> & _).
  unfold FlowAnalyzer.identifyPatterns, FlowAnalyzer.calculateSellPressure.
  cbn [summary withDetails withSummary holders set_holders details].
  destruct (afterAggregation_members cfg host now input)
    as (-> & _ & _ & _ & _ & _ & _ & -> & _).
  unfold afterFlowLoop. rewrite aggregation_state.
  cbn [fst details rewardsByAddress exchangeFlowsByAddress].
  rewrite keys_addReward, keys_addFlow.
  fold (distinct (distinct (map r_address (FlowAnalyzer.rewards input)))).
  fold (distinct (distinct (map f_from
                              (deposits (FlowAnalyzer.exchangeFlows input))))).
  rewrite !setOf_idem, count_fold. simpl.
  f_equal. apply filter_ext. intros addr.
  now rewrite setHas_setOf, hasDeposit_from.
Qed.

Lemma filter_map_fst_length {V : Type} (p : string -> bool) (m : JsMap.t V) :
  List.length (filter (fun e => p (fst e)) m)
  = List.length (filter p (JsMap.keys m)).
Proof.
  unfold JsMap.keys. induction m as [|[k v] m IH]; simpl; auto.
  destruct (p k); simpl; auto.
Qed.

Lemma top_seller_has_deposit (cfg : FlowAnalyzer.Config) (host : Host)
  (now : Z) (input : FlowAnalyzer.Input) (s : Seller) :
  In s (topSellers (details (FlowAnalyzer.analyzeFlows cfg host now input))) ->
  hasDeposit (FlowAnalyzer.exchangeFlows input) (s_address s) = true.
Proof.
  destruct (analyzeFlows_rankings cfg host now input) as [-> _].
  intros Hs. apply In_firstn_aux in Hs.
  apply (Permutation_in _ (stableSort_perm _ _)) in Hs.
  apply in_map_iff in Hs. destruct Hs as [[addr e] [<- Hin]]. simpl.
  apply (in_map fst) in Hin. cbn [fst] in Hin.
  pose proof (exchangeFlowsByAddress_keys cfg host now input) as Hk.
  unfold JsMap.keys in Hk. rewrite Hk in Hin.
  apply (proj1 (distinct_In _ _)) in Hin.
  rewrite <- hasDeposit_from. apply existsb_exists.
  exists addr. split; [exact Hin | apply String.eqb_refl].
Qed.

(** X7.  [topHolders] holds the ten rewarded addresses without any deposit
    flow that have the largest reward totals (all of them when [holders] is
    less than ten), largest first: each listed holder copies the entry of
    its address, has no deposit flow, and is not among the top sellers. *)
Theorem top_holders_ranking (cfg : FlowAnalyzer.Config) (host : Host) (now : Z)
  (input : FlowAnalyzer.Input) :
  let a := FlowAnalyzer.analyzeFlows cfg host now input in
  let top := topHolders (details a) in
  List.length top = Nat.min 10 (holders (summary a))
  /\ StronglySorted (fun x y => h_rewards y <= h_rewards x) top
  /\ (forall h, In h top ->
        hasDeposit (FlowAnalyzer.exchangeFlows input) (h_address h) = false
        /\ exists e,
            JsMap.get (h_address h) (rewardsByAddress (details a)) = Some e
            /\ h_rewards h = ar_total e
            /\ h_count h = ar_count e)
  /\ (forall h s, In h top -> In s (topSellers (details a)) ->
        h_address h <> s_address s).
Proof.
  intros a top.
  destruct (analyzeFlows_rankings cfg host now input) as [_ Htop].
  fold a in Htop. fold top in Htop.
  set (before := fun x y : Holder => Qle_bool (h_rewards y) (h_rewards x)) in *.
  set (kept := filter _ (rewardsByAddress (details a))) in *.
  assert (Hsorted : StronglySorted (fun x y => before x y = true)
                      (stableSort before (map FlowAnalyzer.holderOf kept))).
  { apply stableSort_sorted; unfold before; intros.
    - now apply amount_order_total.
    - eapply amount_order_trans; eauto. }
  assert (Hnd : NoDup (JsMap.keys (rewardsByAddress (details a)))).
  { unfold a. rewrite rewardsByAddress_keys. apply distinct_NoDup. }
  assert (Hin : forall h, In h top ->
            hasDeposit (FlowAnalyzer.exchangeFlows input) (h_address h) = false
            /\ exists e,
                JsMap.get (h_address h) (rewardsByAddress (details a)) = Some e
                /\ h_rewards h = ar_total e
                /\ h_count h = ar_count e).
  { intros h Hh. rewrite Htop in Hh. apply In_firstn_aux in Hh.
    apply (Permutation_in _ (stableSort_perm before _)) in Hh.
    apply in_map_iff in Hh. destruct Hh as [[addr e] [<- Hk]].
    unfold kept in Hk. apply filter_In in Hk. destruct Hk as [Hk Hno].
    cbn [fst] in Hno. unfold a in Hno. rewrite exchangeAddresses_has in Hno.
    simpl. split.
    - now apply negb_true_iff in Hno.
    - exists e. split; [|auto]. now apply jsmap_in_get. }
  repeat split.
  - rewrite Htop, length_firstn.
    rewrite (Permutation_length (stableSort_perm before _)), length_map.
    f_equal. unfold kept.
    rewrite (filter_map_fst_length
               (fun addr =>
                  negb (FlowAnalyzer.setHas addr
                          (FlowAnalyzer.setOf []
                             (JsMap.keys
                                (exchangeFlowsByAddress (details a))))))).
    unfold a. rewrite holders_count, rewardsByAddress_keys. f_equal.
    apply filter_ext. intros addr. now rewrite exchangeAddresses_has.
  - rewrite Htop.
    eapply StronglySorted_weaken;
      [|apply (sorted_firstn before 10); exact Hsorted].
    intros x y H. unfold before in H. now apply Qle_bool_iff.
  - apply Hin. assumption.
  - apply Hin. assumption.
  - intros h s Hh Hs Heq. destruct (Hin h Hh) as [Hno _].
    apply top_seller_has_deposit in Hs. rewrite <- Heq in Hs. congruence.
Qed.

Lemma top_holders_ranking_witness :
  let a := FlowAnalyzer.analyzeFlows FlowAnalyzer.defaultConfig utcHost 5000
             Sample.scenario in
  In {| h_address := "B"; h_rewards := 0 + 50; h_count := 1 |}
     (topHolders (details a))
  /\ hasDeposit (FlowAnalyzer.exchangeFlows Sample.scenario) "B" = false.
Proof.
  assert (H : In {| h_address := "B"; h_rewards := 0 + 50; h_count := 1 |}
                 (topHolders
                    (details
                       (FlowAnalyzer.analyzeFlows FlowAnalyzer.defaultConfig
                          utcHost 5000 Sample.scenario)))).
  { left. reflexivity. }
  split; [exact H|].
  destruct (top_holders_ranking FlowAnalyzer.defaultConfig utcHost 5000
              Sample.scenario) as (_ & _ & Hin & _).
  exact (proj1 (Hin _ H)).
Defined.

(* ------------------------------------------------------------------ *)
(** ** The cumulative series *)















(* ------------------------------------------------------------------ *)
(** ** Patterns and the empty case *)

Lemma analyzeFlows_patterns (cfg : FlowAnalyzer.Config) (host : Host) (now : Z)
  (input : FlowAnalyzer.Input) :
  let a := FlowAnalyzer.analyzeFlows cfg host now input in
  let s := summary a in
  suspiciousPatterns (details a)
  = flat_map FlowAnalyzer.coordinatedPattern
      (FlowAnalyzer.largeSellersByHour cfg host
         (exchangeFlowsByAddress (details a)))
    ++ (if Qgtb (sellPressurePercent s) 50
        then [{| p_type := "high_sell_pressure"; p_severity := "medium";
                 p_details :=
                   HighSellPressure (totalRewards s) (exchangeFlow s) |}]
        else [])
    ++ (if Nat.ltb 10 (quickSellers s)
        then [{| p_type := "rapid_selling"; p_severity := "medium";
                 p_details :=
                   RapidSelling (quickSellers s) (averageTimeToExchange s) |}]
        else []).
Proof.
  cbv zeta. rewrite analyzeFlows_unfold.
  destruct (generateTrends_members
              (FlowAnalyzer.identifyPatterns cfg host
                 (FlowAnalyzer.calculateSellPressure
                    (afterAggregation cfg host now input))
                 (FlowAnalyzer.topReceivers input))) as (-> & -> & _).
  reflexivity.
Qed.

(** X9.  When the input holds no deposit flow, the analysis reports no
    selling at all: exchange flow, sell pressure, quick sellers and average
    time are zero, every rewarded address is a holder, and the seller
    ranking, the per-address flow map and the pattern list are empty. *)
Theorem no_deposits_no_selling (cfg : FlowAnalyzer.Config) (host : Host)
  (now : Z) (input : FlowAnalyzer.Input) :
  deposits (FlowAnalyzer.exchangeFlows input) = [] ->
  let a := FlowAnalyzer.analyzeFlows cfg host now input in
  exchangeFlow (summary a) = 0
  /\ sellPressurePercent (summary a) == 0
  /\ quickSellers (summary a) = O
  /\ averageTimeToExchange (summary a) = 0
  /\ holders (summary a)
     = List.length (distinct (map r_address (FlowAnalyzer.rewards input)))
  /\ exchangeFlowsByAddress (details a) = []
  /\ topSellers (details a) = []
  /\ suspiciousPatterns (details a) = [].
Proof.
  intros Hnone a.
  destruct (analyzeFlows_members cfg host now input)
    as (_ & _ & Hmap & _ & Hflow & Hquick & Hpct & _).
  fold a in Hmap, Hflow, Hquick, Hpct.
  rewrite Hnone in Hmap, Hflow, Hquick, Hpct.
  cbn [fold_left] in Hmap, Hflow, Hquick.
  assert (Hzero : sellPressurePercent (summary a) == 0).
  { rewrite Hpct. cbn [fold_left]. destruct (Qgtb _ 0); [|reflexivity].
    unfold Qdiv. ring. }
  split; [exact Hflow|]. split; [exact Hzero|]. split; [exact Hquick|].
  split.
  { unfold a. rewrite analyzeFlows_average.
    destruct (afterAggregation_members cfg host now input)
      as (_ & _ & _ & _ & _ & _ & _ & _ & ->).
    unfold recordedTimeDiffs. rewrite Hnone. reflexivity. }
  split.
  { unfold a. rewrite holders_count. f_equal.
    assert (H : forall addr,
               negb (hasDeposit (FlowAnalyzer.exchangeFlows input) addr) = true).
    { intros addr. rewrite <- hasDeposit_from, Hnone. reflexivity. }
    induction (distinct (map r_address (FlowAnalyzer.rewards input)))
      as [|x l IH]; simpl; auto. rewrite H, IH. reflexivity. }
  split; [exact Hmap|]. split.
  { destruct (analyzeFlows_rankings cfg host now input) as [Htop _].
    fold a in Htop. rewrite Htop, Hmap. reflexivity. }
  pose proof (analyzeFlows_patterns cfg host now input) as Hpat.
  cbv zeta in Hpat. fold a in Hpat. rewrite Hpat, Hmap, Hquick.
  replace (Qgtb (sellPressurePercent (summary a)) 50) with false;
    [reflexivity|].
  symmetry. apply Qgtb_false_iff. rewrite Hzero. discriminate.
Qed.

Lemma no_deposits_no_selling_witness :
  deposits (FlowAnalyzer.exchangeFlows Fixture.holdersOnly) = []
  /\ let a := FlowAnalyzer.analyzeFlows FlowAnalyzer.defaultConfig utcHost 5000
                Fixture.holdersOnly in
     sellPressurePercent (summary a) == 0
     /\ holders (summary a) = 5%nat
     /\ topSellers (details a) = []
     /\ suspiciousPatterns (details a) = [].
Proof.
  assert (H : deposits (FlowAnalyzer.exchangeFlows Fixture.holdersOnly) = [])
    by reflexivity.
  split; [exact H|].
  destruct (no_deposits_no_selling FlowAnalyzer.defaultConfig utcHost 5000
              Fixture.holdersOnly H)
    as (_ & Hp & _ & _ & Hh & _ & Ht & Hs).
  split; [exact Hp|]. split; [rewrite Hh; reflexivity|].
  split; [exact Ht | exact Hs].
Defined.

Lemma coordinatedPattern_type (hs : HourObj.t (list LargeSeller)) (p : Pattern) :
  In p (flat_map FlowAnalyzer.coordinatedPattern hs) ->
  p_type p = "coordinated_selling"%string.
Proof.
  intros H. apply in_flat_map in H. destruct H as [[h l] [_ Hp]].
  apply coordinatedPattern_iff in Hp. destruct Hp as [_ ->]. reflexivity.
Qed.

Lemma pressure_above_half (total flow : Q) :
  0 < total -> (50 < (flow / total) * 100 <-> total < 2 * flow).
Proof.
  intros Ht.
  assert (Hne : ~ total == 0) by (intros E; rewrite E in Ht; discriminate).
  set (x := flow / total).
  assert (Hx : flow == x * total) by (unfold x; field; exact Hne).
  rewrite Hx. split; intros H; nra.
Qed.

(** X10.  A [high_sell_pressure] pattern is reported exactly when the
    reward total is positive and the exchange deposit flow is more than
    half of it; a [rapid_selling] pattern is reported exactly when more
    than ten deposit flows are quick. *)
Theorem pressure_patterns (cfg : FlowAnalyzer.Config) (host : Host) (now : Z)
  (input : FlowAnalyzer.Input) :
  let a := FlowAnalyzer.analyzeFlows cfg host now input in
  let s := summary a in
  ((exists p, In p (suspiciousPatterns (details a))
              /\ p_type p = "high_sell_pressure"%string)
   <-> 0 < totalRewards s /\ totalRewards s < 2 * exchangeFlow s)
  /\ ((exists p, In p (suspiciousPatterns (details a))
                 /\ p_type p = "rapid_selling"%string)
      <-> (10 < List.length
                  (filter (quickAgainst cfg (FlowAnalyzer.rewards input))
                          (deposits (FlowAnalyzer.exchangeFlows input))))%nat).
Proof.
  intros a s.
  pose proof (analyzeFlows_patterns cfg host now input) as Hpat.
  cbv zeta in Hpat. fold a in Hpat. fold s in Hpat.
  destruct (analyzeFlows_members cfg host now input)
    as (_ & _ & _ & Ht & Hf & _ & Hp & _).
  fold a in Ht, Hf, Hp. fold s in Ht, Hf, Hp.
  rewrite <- Ht, <- Hf in Hp.
  pose proof (quickSellers_counts_flows cfg host now input) as Hq.
  fold a in Hq. fold s in Hq.
  assert (Hhigh : Qgtb (sellPressurePercent s) 50 = true
                  <-> 0 < totalRewards s /\ totalRewards s < 2 * exchangeFlow s).
  { rewrite Qgtb_true_iff, Hp.
    destruct (Qgtb (totalRewards s) 0) eqn:E.
    - apply Qgtb_true_iff in E. rewrite (pressure_above_half _ E). tauto.
    - apply Qgtb_false_iff in E. split.
      + intros H. discriminate H.
      + intros [H _]. exfalso. apply (Qlt_not_le _ _ H E). }
  rewrite Hpat. split.
  - rewrite <- Hhigh. split.
    + intros [p [Hin Hty]]. apply in_app_or in Hin.
      destruct Hin as [Hin | Hin].
      { apply coordinatedPattern_type in Hin. congruence. }
      apply in_app_or in Hin. destruct Hin as [Hin | Hin].
      * destruct (Qgtb (sellPressurePercent s) 50); [reflexivity | destruct Hin].
      * destruct (Nat.ltb 10 (quickSellers s));
          [destruct Hin as [<- | []]; discriminate | destruct Hin].
    + intros ->. eexists. split.
      * apply in_or_app. right. apply in_or_app. left. left. reflexivity.
      * reflexivity.
  - rewrite <- Hq, <- Nat.ltb_lt. split.
    + intros [p [Hin Hty]]. apply in_app_or in Hin.
      destruct Hin as [Hin | Hin].
      { apply coordinatedPattern_type in Hin. congruence. }
      apply in_app_or in Hin. destruct Hin as [Hin | Hin].
      * destruct (Qgtb (sellPressurePercent s) 50);
          [destruct Hin as [<- | []]; discriminate | destruct Hin].
      * destruct (Nat.ltb 10 (quickSellers s)); [reflexivity | destruct Hin].
    + intros ->. eexists. split.
      * apply in_or_app. right. apply in_or_app. right. left. reflexivity.
      * reflexivity.
Qed.

Lemma pressure_patterns_witness :
  let a := FlowAnalyzer.analyzeFlows FlowAnalyzer.defaultConfig utcHost 5000
             Sample.scenario in
  (0 < totalRewards (summary a)
   /\ totalRewards (summary a) < 2 * exchangeFlow (summary a))
  /\ exists p, In p (suspiciousPatterns (details a))
               /\ p_type p = "high_sell_pressure"%string.
Proof.
  assert (H : 0 < totalRewards
                    (summary (FlowAnalyzer.analyzeFlows
                                FlowAnalyzer.defaultConfig utcHost 5000
                                Sample.scenario))
              /\ totalRewards
                   (summary (FlowAnalyzer.analyzeFlows
                               FlowAnalyzer.defaultConfig utcHost 5000
                               Sample.scenario))
                 < 2 * exchangeFlow
                         (summary (FlowAnalyzer.analyzeFlows
                                     FlowAnalyzer.defaultConfig utcHost 5000
                                     Sample.scenario))).
  { split; reflexivity. }
  split; [exact H|].
  apply (proj2 (proj1 (pressure_patterns FlowAnalyzer.defaultConfig utcHost
                         5000 Sample.scenario)) H).
Defined.

(* ------------------------------------------------------------------ *)
(** ** What the detector returns *)

Lemma detectOne_cases (reg : ExchangeDetector.Registry) (t : Transfer) :
  map f_transfer (deposits (ExchangeDetector.detectOne reg t))
  = (if ExchangeDetector.isExchangeAddress reg (t_to t) then [t] else [])
  /\ map f_transfer
       (filter (fun f => negb (isDeposit (f_type f)))
               (ExchangeDetector.detectOne reg t))
     = (if ExchangeDetector.isExchangeAddress reg (t_from t) then [t] else [])
  /\ List.length (ExchangeDetector.detectOne reg t)
     = ((if ExchangeDetector.isExchangeAddress reg (t_to t) then 1 else 0)
        + (if ExchangeDetector.isExchangeAddress reg (t_from t) then 1 else 0))%nat
  /\ (forall f, In f (ExchangeDetector.detectOne reg t) ->
        f_transfer f = t
        /\ ExchangeDetector.getExchangeInfo reg (f_exchangeAddress f)
           = Some (f_exchange f)
        /\ f_exchangeAddress f
           = if isDeposit (f_type f) then f_to f else f_from f).
Proof.
  unfold ExchangeDetector.detectOne, ExchangeDetector.isExchangeAddress,
    ExchangeDetector.getExchangeInfo, JsMap.has, deposits, f_to, f_from.
  destruct (JsMap.get (t_to t) reg) eqn:Eto,
           (JsMap.get (t_from t) reg) eqn:Efrom; simpl; repeat split;
    intros; intuition (subst; simpl; auto).
Qed.

(** X11.  The detector returns, in transfer order, one deposit record for
    every transfer whose destination is registered and one withdrawal
    record for every transfer whose source is registered, each carrying its
    transfer unchanged and the registry's information for the registered
    end; so it returns at most two records per transfer, and none exactly
    when no transfer touches a registered address. *)
Theorem detected_flows (reg : ExchangeDetector.Registry) (ts : list Transfer) :
  let out := ExchangeDetector.detectExchangeTransfers reg ts in
  map f_transfer (deposits out)
  = filter (fun t => ExchangeDetector.isExchangeAddress reg (t_to t)) ts
  /\ map f_transfer (filter (fun f => negb (isDeposit (f_type f))) out)
     = filter (fun t => ExchangeDetector.isExchangeAddress reg (t_from t)) ts
  /\ (forall f, In f out ->
        In (f_transfer f) ts
        /\ ExchangeDetector.getExchangeInfo reg (f_exchangeAddress f)
           = Some (f_exchange f)
        /\ f_exchangeAddress f
           = if isDeposit (f_type f) then f_to f else f_from f)
  /\ (List.length out <= 2 * List.length ts)%nat
  /\ (out = [] <->
      forall t, In t ts ->
        ExchangeDetector.isExchangeAddress reg (t_to t) = false
        /\ ExchangeDetector.isExchangeAddress reg (t_from t) = false).
Proof.
  cbv zeta. rewrite detectExchangeTransfers_flat_map.
  split; [|split; [|split; [|split; [|split]]]].
  - unfold deposits. induction ts as [|t ts IH]; simpl; auto.
    rewrite filter_app, map_app, IH.
    destruct (detectOne_cases reg t) as (Hc & _).
    unfold deposits in Hc. rewrite Hc.
    destruct (ExchangeDetector.isExchangeAddress reg (t_to t)); reflexivity.
  - induction ts as [|t ts IH]; simpl; auto.
    rewrite filter_app, map_app, IH.
    destruct (detectOne_cases reg t) as (_ & -> & _).
    destruct (ExchangeDetector.isExchangeAddress reg (t_from t)); reflexivity.
  - intros f H. apply in_flat_map in H. destruct H as [t [Ht Hf]].
    destruct (detectOne_cases reg t) as (_ & _ & _ & Hin).
    destruct (Hin f Hf) as (Heq & H2 & H3). rewrite Heq. auto.
  - induction ts as [|t ts IH]; simpl; auto.
    rewrite length_app.
    destruct (detectOne_cases reg t) as (_ & _ & -> & _).
    destruct (ExchangeDetector.isExchangeAddress reg (t_to t)),
             (ExchangeDetector.isExchangeAddress reg (t_from t)); simpl; lia.
  - intros Hnil t Ht.
    assert (Hone : ExchangeDetector.detectOne reg t = []).
    { destruct (ExchangeDetector.detectOne reg t) as [|f l] eqn:E; auto.
      assert (Hf : In f (flat_map (ExchangeDetector.detectOne reg) ts)).
      { apply in_flat_map. exists t. split; auto. rewrite E. now left. }
      rewrite Hnil in Hf. destruct Hf. }
    destruct (detectOne_cases reg t) as (_ & _ & Hlen & _).
    rewrite Hone in Hlen. simpl in Hlen.
    destruct (ExchangeDetector.isExchangeAddress reg (t_to t)),
             (ExchangeDetector.isExchangeAddress reg (t_from t));
      simpl in Hlen; try discriminate; auto.
  - intros H. induction ts as [|t ts IH]; simpl; auto.
    rewrite IH by (intros t' Ht'; apply H; now right).
    rewrite app_nil_r. destruct (H t (or_introl eq_refl)) as [Hto Hfrom].
    destruct (detectOne_cases reg t) as (_ & _ & Hlen & _).
    rewrite Hto, Hfrom in Hlen. simpl in Hlen.
    now apply length_zero_iff_nil.
Qed.

Lemma detected_flows_witness :
  let out := ExchangeDetector.detectExchangeTransfers Sample.registry
               Sample.outgoing in
  In (asDeposit Sample.venue (Sample.transfer "A" "X" 10 1000)) out
  /\ In (Sample.transfer "A" "X" 10 1000) Sample.outgoing
  /\ ExchangeDetector.getExchangeInfo Sample.registry "X" = Some Sample.venue.
Proof.
  assert (H : In (asDeposit Sample.venue (Sample.transfer "A" "X" 10 1000))
                 (ExchangeDetector.detectExchangeTransfers Sample.registry
                    Sample.outgoing)).
  { left. reflexivity. }
  split; [exact H|].
  destruct (detected_flows Sample.registry Sample.outgoing)
    as (_ & _ & Hin & _).
  destruct (Hin _ H) as (H1 & H2 & _). split; [exact H1 | exact H2].
Defined.

(* ------------------------------------------------------------------ *)
(** ** The reward lookup and the discovery cap *)

Section RecentRewards.

Import Collectors.

Variable RawReward : Type.
Variable rawTimestamp : RawReward -> Z.
Variable convert : string -> RawReward -> Reward.
Variable api : string -> Request -> Response RawReward.

Lemma fetchRecentRewards_fold (startTime endTime : Z) (addresses : list string)
  (acc : list Reward * list (string * Request)) :
  fold_left
    (fun acc address =>
       let (rs, qs) :=
         fetchRewardsOf rawTimestamp convert api startTime endTime address in
       (fst acc ++ rs, snd acc ++ map (pair address) qs))
    addresses acc
  = (fst acc
     ++ flat_map
          (fun a =>
             fst (fetchRewardsOf rawTimestamp convert api startTime endTime a))
          addresses,
     snd acc ++ map (fun a => (a, rewardRequest)) addresses).
Proof.
  revert acc. induction addresses as [|a l IH]; intros [rs qs]; simpl.
  - now rewrite !app_nil_r.
  - rewrite IH. unfold fetchRewardsOf.
    destruct (api a rewardRequest) as [|[items|]]; simpl;
      rewrite <- !app_assoc; reflexivity.
Qed.

End RecentRewards.

(** X12.  [fetchRecentRewards] issues exactly one request per address, in
    cohort order, whatever the answers; the rewards it returns are those of
    the single addresses one after the other, so a failed lookup only
    leaves out its own address; and every reward returned belongs to an
    address of the cohort and has its timestamp in the window
    [now - hours * 3600 .. now]. *)
Theorem recent_rewards (RawReward : Type) (rawTimestamp : RawReward -> Z)
  (convert : string -> RawReward -> Reward)
  (api : string -> Collectors.Request -> Collectors.Response RawReward)
  (now hours : Z) (addresses : list string) :
  (forall a raw, r_address (convert a raw) = a) ->
  (forall a raw, r_timestamp (convert a raw) = rawTimestamp raw) ->
  let res :=
    Collectors.fetchRecentRewards rawTimestamp convert api now hours
      addresses in
  snd res = map (fun a => (a, Collectors.rewardRequest)) addresses
  /\ fst res
     = flat_map
         (fun a =>
            fst (Collectors.fetchRewardsOf rawTimestamp convert api
                   (now - hours * 3600) now a))
         addresses
  /\ (forall r, In r (fst res) ->
        In (r_address r) addresses
        /\ (now - hours * 3600 <= r_timestamp r <= now)%Z).
Proof.
  intros Haddr Hts res. subst res. unfold Collectors.fetchRecentRewards.
  rewrite fetchRecentRewards_fold. cbn [fst snd app].
  split; [reflexivity|]. split; [reflexivity|].
  intros r Hr. apply in_flat_map in Hr. destruct Hr as [a [Ha Hr]].
  unfold Collectors.fetchRewardsOf in Hr.
  destruct (api a Collectors.rewardRequest) as [|[items|]];
    cbn [fst] in Hr; try destruct Hr.
  apply in_map_iff in Hr. destruct Hr as [raw [<- Hraw]].
  apply filter_In in Hraw. destruct Hraw as [_ Hwin].
  unfold Collectors.inWindow in Hwin. apply andb_true_iff in Hwin.
  rewrite Haddr, Hts. split; [exact Ha|]. lia.
Qed.

Lemma recent_rewards_witness :
  let res :=
    Collectors.fetchRecentRewards (fun _ : unit => 900%Z)
      (fun a _ => Sample.reward a 1 900) Sample.twentyRewards 1000 24
      ["A"%string; "B"%string] in
  List.length (fst res) = 40%nat
  /\ forall r, In r (fst res) ->
       In (r_address r) ["A"%string; "B"%string]
       /\ (1000 - 24 * 3600 <= r_timestamp r <= 1000)%Z.
Proof.
  split; [reflexivity|].
  apply (recent_rewards (fun _ : unit => 900%Z)
           (fun a _ => Sample.reward a 1 900) Sample.twentyRewards 1000 24
           ["A"%string; "B"%string]);
    intros; reflexivity.
Defined.

Section DiscoveryCap.

Import Collectors.

Variable RawAccount : Type.
Variable Receiver : Type.
Variable convert : RawAccount -> Receiver.
Variable api : Request -> Response RawAccount.

Lemma receiversLoop_cap (limit fuel : nat) :
  forall st st',
    receiversLoop convert api limit fuel st = Some st' ->
    (List.length (receivers st) <= limit)%nat ->
    (List.length (receivers st') <= limit)%nat
    /\ (List.length (receivers st) <= List.length (receivers st'))%nat
    /\ (limit <= List.length (receivers st) -> rrequests st' = rrequests st)%nat.
Proof.
  induction fuel as [|fuel IH]; intros st st'; cbn [receiversLoop];
    [discriminate|].
  destruct (Nat.ltb (List.length (receivers st)) limit) eqn:Hcap.
  - apply Nat.ltb_lt in Hcap. rewrite receiversIteration_spec. cbv zeta.
    destruct (nonEmptyPage (api (pageRequest (rpage st)))) eqn:E.
    + intros H Hle. apply IH in H.
      * cbn [receivers] in H. rewrite length_app in H.
        destruct H as (H1 & H2 & _). split; [exact H1|]. split; lia.
      * cbn [receivers]. rewrite length_app, length_firstn. lia.
    + intros H Hle. injection H as <-. cbn [receivers rrequests].
      rewrite length_app, length_firstn. split; [lia|]. split; lia.
  - intros H Hle. injection H as <-. auto.
Qed.

End DiscoveryCap.

(** X13.  The discovery of the top receivers never returns more than
    [limit] receivers, and with a limit of 0 it returns none and issues no
    request at all. *)
Theorem discovery_respects_the_cap (RawAccount Receiver : Type)
  (convert : RawAccount -> Receiver)
  (api : Collectors.Request -> Collectors.Response RawAccount)
  (limit fuel : nat) (st : Collectors.ReceiverState Receiver) :
  Collectors.fetchTopRewardReceivers convert api limit fuel = Some st ->
  (List.length (Collectors.receivers st) <= limit)%nat
  /\ (limit = O ->
      Collectors.receivers st = [] /\ Collectors.rrequests st = []).
Proof.
  unfold Collectors.fetchTopRewardReceivers. intros H.
  apply receiversLoop_cap in H; [|cbn; lia].
  cbn [Collectors.receivers Collectors.rrequests List.length] in H.
  destruct H as (H1 & _ & H3). split; [exact H1|].
  intros ->. split; [|apply H3; lia].
  destruct (Collectors.receivers st); [reflexivity | simpl in H1; lia].
Qed.

Lemma discovery_respects_the_cap_witness :
  exists st,
    Collectors.fetchTopRewardReceivers (fun x : unit => x)
      Sample.shortThenEmpty 20 2 = Some st
    /\ (List.length (Collectors.receivers st) <= 20)%nat.
Proof.
  eexists. split; [reflexivity|].
  apply (discovery_respects_the_cap (fun x : unit => x) Sample.shortThenEmpty
           20 2 eq_refl).
Defined.
